(** * The ML analytics engine of the prescription portal

    A shallow embedding of [backend/services/ml/analytics_engine.py]
    (class [MLAnalyticsEngine]) and the properties of its detection and
    scoring entry points.

    Layout:
    - [Py]: Python exceptions and the state-and-exception monad in which
      the methods run;
    - [Float64]: Python floats, as the rationals they denote with the
      binary64 rounding written out;
    - [Text]: the few string operations the engine uses;
    - [Frame]: event records and the [pandas] frame built from them;
    - [Sklearn]: the observable behaviour of the scikit-learn estimators;
    - the engine itself, method by method, in the order of the source;
    - [Sample]: a small world and a few records to run the engine on;
    - [Rule] and [Explain]: the conditions of the rule-based score and
      of the anomaly explanations, as the specification words them;
    - the theorems: floats and rounding, runs of the monad, sorting,
      the detections step by step, anomaly detection, explanations, the
      model lifecycle and risk scoring, event dates, signal tiers, the
      rule-based score, the pattern features, the shared engine state,
      training, safety signals, anomaly reports, clusters and noise. *)

From Stdlib Require Import ZArith QArith Qround Qabs Lia Lqa.
From Stdlib Require Import List String Ascii Bool Sorted Permutation.
From Stdlib Require Import DecimalString.
Import ListNotations.

Open Scope Z_scope.

(* ===================================================================== *)
(** * Python exceptions and effects *)
(* ===================================================================== *)

Module Py.

(** The exception classes that the engine and its libraries raise. *)
Inductive exn : Set :=
| FileNotFoundError
| PermissionError
| EOFError
| NotFittedError
| ValueError
| TypeError
| AttributeError
| KeyError
| IndexError.

Definition exn_eqb (a b : exn) : bool :=
  match a, b with
  | FileNotFoundError, FileNotFoundError
  | PermissionError, PermissionError
  | EOFError, EOFError
  | NotFittedError, NotFittedError
  | ValueError, ValueError
  | TypeError, TypeError
  | AttributeError, AttributeError
  | KeyError, KeyError
  | IndexError, IndexError => true
  | _, _ => false
  end.

(** What a call amounts to: a value, or a raised exception. *)
Inductive result (A : Type) : Type :=
| Normal (a : A)
| Raise (e : exn).
Arguments Normal {A} a.
Arguments Raise {A} e.

(** A method runs on the state [S] it may mutate.  A mutation made
    before an exception is raised stays made, as in Python. *)
Definition M (S A : Type) : Type := S -> S * result A.

Definition ret {S A} (a : A) : M S A := fun s => (s, Normal a).
Definition raise {S A} (e : exn) : M S A := fun s => (s, Raise e).
Definition bind {S A B} (c : M S A) (k : A -> M S B) : M S B :=
  fun s =>
    match c s with
    | (s', Normal a) => k a s'
    | (s', Raise e) => (s', Raise e)
    end.
Definition get_self {S} : M S S := fun s => (s, Normal s).
Definition set_self {S} (s : S) : M S unit := fun _ => (s, Normal tt).
Definition lift {S A} (r : result A) : M S A := fun s => (s, r).

(** [try: c  except: h] with a bare [except], which catches everything. *)
Definition try_except {S A} (c : M S A) (h : M S A) : M S A :=
  fun s =>
    match c s with
    | (s', Normal a) => (s', Normal a)
    | (s', Raise _) => h s'
    end.

(** [try: c  except E: h], which lets every other class through. *)
Definition try_except_only {S A} (E : exn) (c : M S A) (h : M S A)
  : M S A :=
  fun s =>
    match c s with
    | (s', Normal a) => (s', Normal a)
    | (s', Raise e) => if exn_eqb e E then h s' else (s', Raise e)
    end.

(** Pure code that may raise: the same bind without a state. *)
Definition rbind {A B} (r : result A) (k : A -> result B) : result B :=
  match r with
  | Normal a => k a
  | Raise e => Raise e
  end.

Fixpoint rmap {A B} (f : A -> result B) (l : list A) : result (list B) :=
  match l with
  | [] => Normal []
  | x :: tl =>
      rbind (f x) (fun y => rbind (rmap f tl) (fun ys => Normal (y :: ys)))
  end.

Definition raises {A} (r : result A) : bool :=
  match r with Normal _ => false | Raise _ => true end.

End Py.
Import Py.

Declare Scope py_scope.
Delimit Scope py_scope with py.
Notation "x <- c ;; k" := (bind c (fun x => k))
  (at level 61, c at next level, right associativity) : py_scope.
Notation "c ;;; k" := (bind c (fun _ => k))
  (at level 61, right associativity) : py_scope.
Notation "x <~ r ;; k" := (rbind r (fun x => k))
  (at level 61, r at next level, right associativity) : py_scope.

(* ===================================================================== *)
(** * Python floats *)
(* ===================================================================== *)

(** A Python [float] is an IEEE-754 binary64.  A finite one is carried as
    the rational it denotes, and every arithmetic operation rounds its
    exact result to 53 significant bits, ties to even.  The engine's
    numbers (rates, scores, ages, counts) stay far inside the exponent
    range, so overflow and subnormals are not modelled. *)
Module Float64.

Open Scope Q_scope.

Definition pow2 (k : Z) : Q :=
  if (0 <=? k)%Z then inject_Z (2 ^ k) else / inject_Z (2 ^ (- k)).

(** [floor (log2 q)] for a positive [q]. *)
Definition floor_log2 (q : Q) : Z :=
  let c := (Z.log2 (Qnum q) - Z.log2 (Zpos (Qden q)))%Z in
  if Qle_bool (pow2 c) q then c else (c - 1)%Z.

(** The nearest integer, ties to the even one. *)
Definition round_half_even (x : Q) : Z :=
  let f := Qfloor x in
  match Qcompare (x - inject_Z f) (1 # 2) with
  | Lt => f
  | Gt => (f + 1)%Z
  | Eq => if Z.even f then f else (f + 1)%Z
  end.

Definition rnd53_pos (a : Q) : Q :=
  let e := (floor_log2 a - 52)%Z in
  Qred (inject_Z (round_half_even (a * pow2 (- e))) * pow2 e).

(** The binary64 nearest to [q]. *)
Definition rnd53 (q : Q) : Q :=
  match Qnum q with
  | Z0 => 0
  | Zpos _ => rnd53_pos q
  | Zneg _ => Qred (- rnd53_pos (- q))
  end.

(** A decimal literal of the source, [n / 10^d] as Python reads it. *)
Definition lit (n : Z) (d : nat) : Q :=
  rnd53 (n # Pos.of_nat (10 ^ d)).

Definition add (a b : Q) : Q := rnd53 (a + b).
Definition sub (a b : Q) : Q := rnd53 (a - b).
Definition mul (a b : Q) : Q := rnd53 (a * b).
(** [a / b] on ints or floats, for [b] other than zero. *)
Definition div (a b : Q) : Q := rnd53 (a / b).

Definition ltb (a b : Q) : bool := negb (Qle_bool b a).
Definition leb (a b : Q) : bool := Qle_bool a b.
Definition gtb (a b : Q) : bool := ltb b a.
Definition geb (a b : Q) : bool := leb b a.

(** Python's [min(a, b)] and [max(a, b)]: the first argument unless the
    second is strictly smaller (resp. larger). *)
Definition min (a b : Q) : Q := if ltb b a then b else a.
Definition max (a b : Q) : Q := if gtb b a then b else a.

Definition abs (a : Q) : Q := Qabs a.

(** [round(x, 3)] on a Python float: the float nearest to the decimal
    with three places nearest to the exact value of [x]. *)
Definition py_round3 (x : Q) : Q :=
  rnd53 (inject_Z (round_half_even (x * 1000)) / 1000).

(** [round(x, 3)] on a [numpy.float64]: scale, round to an integer,
    unscale, each step in binary64. *)
Definition np_round3 (x : Q) : Q :=
  div (inject_Z (round_half_even (mul x 1000))) 1000.

End Float64.

(** A [numpy] array element: a finite float, or NaN. *)
Inductive num : Type :=
| Fin (q : Q)
| NaN.

Definition int_num (z : Z) : num := Fin (inject_Z z).

(* ===================================================================== *)
(** * Strings *)
(* ===================================================================== *)

Module Text.

Open Scope string_scope.

(** [str.lower()].  Strings are byte strings; upper-case ASCII letters
    are the only bytes that change. *)
Definition lower_ascii (c : ascii) : ascii :=
  let n := nat_of_ascii c in
  if andb (Nat.leb 65 n) (Nat.leb n 90) then ascii_of_nat (n + 32) else c.

Fixpoint lower (s : string) : string :=
  match s with
  | EmptyString => EmptyString
  | String c tl => String (lower_ascii c) (lower tl)
  end.

(** [str(n)] for an int. *)
Definition str (z : Z) : string := NilZero.string_of_int (Z.to_int z).

(** [sep.join(l)]. *)
Fixpoint join (sep : string) (l : list string) : string :=
  match l with
  | [] => ""
  | [x] => x
  | x :: tl => x ++ sep ++ join sep tl
  end.

(** [f"{x:.0f}"]: the nearest integer to the exact value of the
    float, ties to even; a negative value that rounds to zero keeps
    its sign. *)
Definition fmt0 (x : Q) : string :=
  let k := Float64.round_half_even x in
  if andb (Z.eqb k 0) (Float64.ltb x 0) then "-0" else str k.

End Text.

(* ===================================================================== *)
(** * Event records and the frame built from them *)
(* ===================================================================== *)

Module Frame.

(** An event record is a dict whose keys are all optional; [None] is
    an absent key.  The values have the types of the data model. *)
Record EventRecord : Type := {
  event_id : option string;               (* key 'id' *)
  medicine_name : option string;
  severity : option string;
  outcome : option string;
  patient_age : option Z;
  required_hospitalization : option bool;
  life_threatening : option bool;
  symptoms : option (list string);
  concurrent_medications : option (list string);
  has_allergies : option bool;
  event_date : option string
}.

(** [pd.DataFrame(events)]: one row per record and one column per key
    that occurs in some record.  A frame selected out of another one
    ([df[mask]]) keeps the columns of the frame it was built from. *)
Record DataFrame : Type := {
  built_from : list EventRecord;
  rows : list EventRecord
}.

Definition DataFrame_of (events : list EventRecord) : DataFrame :=
  {| built_from := events; rows := events |}.

Definition is_some {A} (o : option A) : bool :=
  match o with Some _ => true | None => false end.

(** [event.get(key, default)] on the dict itself. *)
Definition dict_get {A} (v : option A) (default : A) : A :=
  match v with Some a => a | None => default end.

(** Truth value of [event.get(key)] for a boolean key. *)
Definition dict_truthy (v : option bool) : bool :=
  match v with Some b => b | None => false end.

Definition has_column {A} (key : EventRecord -> option A)
    (df : DataFrame) : bool :=
  existsb (fun e => is_some (key e)) (built_from df).

(** What a row holds under a key: nothing when the frame has no such
    column, NaN when the column exists and this record lacks the key,
    the value otherwise. *)
Inductive cell (A : Type) : Type :=
| Absent
| Null
| Val (a : A).
Arguments Absent {A}.
Arguments Null {A}.
Arguments Val {A} a.

Definition cell_of {A} (key : EventRecord -> option A) (df : DataFrame)
    (row : EventRecord) : cell A :=
  if has_column key df then
    match key row with Some a => Val a | None => Null end
  else Absent.

(** [row.get(key, default)]: a value, or [None] for the NaN of a
    column that this record does not fill. *)
Definition row_get {A} (c : cell A) (default : A) : option A :=
  match c with
  | Absent => Some default
  | Null => None
  | Val a => Some a
  end.

(** [df[key]]: the column, NaN where a record lacks the key. *)
Definition column {A} (key : EventRecord -> option A) (df : DataFrame)
  : result (list (option A)) :=
  if has_column key df then Normal (map key (rows df))
  else Raise KeyError.

(** Truth value of [row.get(key)]: [None] is false, NaN is a non-zero
    float and so true. *)
Definition truthy (c : cell bool) : bool :=
  match c with
  | Absent => false
  | Null => true
  | Val b => b
  end.

(** [.lower()] and [len()] need a string and a list; NaN is a float. *)
Definition as_str (v : option string) : result string :=
  match v with Some s => Normal s | None => Raise AttributeError end.

Definition len_of {A} (v : option (list A)) : result Z :=
  match v with
  | Some l => Normal (Z.of_nat (List.length l))
  | None => Raise TypeError
  end.

End Frame.
Import Frame.

Definition num_ltb (a b : num) : bool :=
  match a, b with
  | Fin x, Fin y => Float64.ltb x y
  | _, _ => false
  end.

Definition num_of (v : option Z) : num :=
  match v with Some z => int_num z | None => NaN end.

(* ===================================================================== *)
(** * The scikit-learn estimators *)
(* ===================================================================== *)

(** The estimators are modelled by what the engine can observe of them:
    whether they are fitted, the number of features they were fitted on,
    the classes a classifier has seen, and the exceptions of their input
    checks.  The numbers they learn are left to [Numerics]. *)
Module Sklearn.

Definition matrix : Type := list (list num).

Definition width (X : matrix) : nat :=
  match X with [] => O | r :: _ => List.length r end.

Definition nth_column (j : nat) (X : matrix) : list num :=
  map (fun r => nth j r NaN) X.

Definition has_width (n : nat) (X : matrix) : bool :=
  forallb (fun r => Nat.eqb (List.length r) n) X.

Record Numerics : Type := {
  (** StandardScaler: the shift and scale learned from one column. *)
  column_scaler : list num -> num -> num;
  (** IsolationForest: the input check of [fit], then the learned
      score of a sample and the learned [offset_]. *)
  iforest_train : matrix -> result ((list num -> Q) * Q);
  (** RandomForestClassifier: the input check of [fit], then the
      learned probability of a class for a sample. *)
  rf_fit_fault : matrix -> list Z -> option exn;
  rf_learn : matrix -> list Z -> list num -> Z -> Q;
  (** DBSCAN(eps=0.5, min_samples=5).fit_predict: the cluster labels,
      -1 for noise. *)
  dbscan : matrix -> result (list Z)
}.

(** ** StandardScaler *)

(** Unfitted, or fitted with one map per feature. *)
Definition StandardScaler : Type := option (list (num -> num)).

Definition scale_row (fs : list (num -> num)) (r : list num)
  : list num :=
  map (fun fx => fst fx (snd fx)) (combine fs r).

Definition scaler_fit (N : Numerics) (X : matrix)
  : result (list (num -> num)) :=
  match X with
  | [] => Raise ValueError
  | _ => Normal (map (fun j => column_scaler N (nth_column j X))
                     (seq 0 (width X)))
  end.

Definition scaler_transform (sc : StandardScaler) (X : matrix)
  : result matrix :=
  match sc with
  | None => Raise NotFittedError
  | Some fs =>
      if has_width (List.length fs) X then Normal (map (scale_row fs) X)
      else Raise ValueError
  end.

(** ** IsolationForest *)

Record IForest : Type := {
  if_n_features : nat;
  score_of : list num -> Q;
  offset_ : Q
}.

(** [None] is an estimator that has not been fitted. *)
Definition IsolationForest : Type := option IForest.

Definition iforest_fit (N : Numerics) (X : matrix) : result IForest :=
  match X with
  | [] => Raise ValueError
  | _ =>
      p <~ iforest_train N X ;;
      Normal {| if_n_features := width X;
                score_of := fst p;
                offset_ := snd p |}
  end%py.

Definition score_samples (m : IsolationForest) (X : matrix)
  : result (list Q) :=
  match m with
  | None => Raise NotFittedError
  | Some f =>
      if has_width (if_n_features f) X then Normal (map (score_of f) X)
      else Raise ValueError
  end.

(** [predict]: -1 where [score_samples - offset_] is negative. *)
Definition iforest_predict (m : IsolationForest) (X : matrix)
  : result (list Z) :=
  match m with
  | None => Raise NotFittedError
  | Some f =>
      (scores <~ score_samples m X ;;
       Normal (map (fun s =>
                      if Float64.ltb (Float64.sub s (offset_ f)) 0
                      then (-1) else 1) scores))%py
  end.

(** ** RandomForestClassifier *)

Record Forest : Type := {
  rf_n_features : nat;
  classes_ : list Z;
  proba_of : list num -> Z -> Q
}.

Definition RandomForestClassifier : Type := option Forest.

(** [np.unique]: the distinct labels in increasing order. *)
Fixpoint insert_unique (c : Z) (l : list Z) : list Z :=
  match l with
  | [] => [c]
  | d :: tl =>
      if c <? d then c :: d :: tl
      else if c =? d then d :: tl
      else d :: insert_unique c tl
  end.

Definition np_unique (y : list Z) : list Z :=
  fold_right insert_unique [] y.

Definition rf_fit (N : Numerics) (X : matrix) (y : list Z)
  : result Forest :=
  match X with
  | [] => Raise ValueError
  | _ =>
      match rf_fit_fault N X y with
      | Some e => Raise e
      | None =>
          Normal {| rf_n_features := width X;
                    classes_ := np_unique y;
                    proba_of := rf_learn N X y |}
      end
  end.

(** One row of probabilities per sample, one column per class seen
    in training. *)
Definition predict_proba (m : RandomForestClassifier) (X : matrix)
  : result (list (list Q)) :=
  match m with
  | None => Raise NotFittedError
  | Some f =>
      if has_width (rf_n_features f) X
      then Normal (map (fun x => map (proba_of f x) (classes_ f)) X)
      else Raise ValueError
  end.

(** [predict]: the class of the first largest probability. *)
Fixpoint argmax_class (best : Z) (pbest : Q) (cs : list Z)
    (ps : list Q) : Z :=
  match cs, ps with
  | c :: cs', p :: ps' =>
      if Float64.gtb p pbest then argmax_class c p cs' ps'
      else argmax_class best pbest cs' ps'
  | _, _ => best
  end.

Definition predict_row (f : Forest) (x : list num) : Z :=
  match classes_ f, map (proba_of f x) (classes_ f) with
  | c :: cs, p :: ps => argmax_class c p cs ps
  | _, _ => 0
  end.

(** [score(X, y)]: the fraction of samples predicted as labelled. *)
Definition accuracy (m : RandomForestClassifier) (X : matrix)
    (y : list Z) : result Q :=
  match m with
  | None => Raise NotFittedError
  | Some f =>
      if has_width (rf_n_features f) X then
        let hits := filter (fun xy => predict_row f (fst xy) =? snd xy)
                           (combine X y) in
        Normal (Float64.div (inject_Z (Z.of_nat (List.length hits)))
                            (inject_Z (Z.of_nat (List.length X))))
      else Raise ValueError
  end.

End Sklearn.
Import Sklearn.

(* ===================================================================== *)
(** * The engine *)
(* ===================================================================== *)

(** What [pd.to_datetime] returns: a [Timestamp] without a time zone or
    with one (an ISO date with an offset, say), at a time in
    microseconds, or [NaT] (for NaN, and for the empty string). *)
Inductive timestamp : Set :=
| Naive (t : Z)
| Aware (t : Z)
| NaT.

(** What the engine takes from outside itself: the estimators' numerics,
    the clock, the date parser of [pandas] and the [pandas] aggregates
    that summarise a cluster. *)
Record World : Type := {
  numerics : Numerics;
  (** [datetime.now()], in microseconds; it has no time zone. *)
  now : Z;
  (** [pd.to_datetime] on a string: a timestamp, or the parser's
      exception. *)
  to_datetime : string -> result timestamp;
  (** [pd.to_datetime] on a column of strings and NaN: one timestamp
      per cell, NaT for NaN, or the parser's exception.  The column is
      read as a whole (the format is inferred from its first date), so
      that this is not the scalar parser cell by cell. *)
  to_datetime_column : list (option string) -> result (list timestamp);
  (** [pd.to_datetime(None)], which depends on the version of
      [pandas]: [None] itself in pandas 2, [NaT] in pandas 3. *)
  to_datetime_None : option timestamp;
  (** The columns of a cluster summary: [mode], [mean], [value_counts],
      [min] and [max] over the cluster's frame. *)
  Aggregates : Type;
  aggregate : DataFrame -> result Aggregates
}.

Definition day : Z := 86400 * 1000000.

(** ** Engine state and persisted artifacts *)

Record Engine : Type := {
  anomaly_detector : IsolationForest;
  risk_classifier : RandomForestClassifier;
  scaler : StandardScaler
}.

(** A file under [models/]: an artifact that [joblib.load] returns, or
    the exception it raises ([FileNotFoundError] for a missing file). *)
Inductive file (A : Type) : Type :=
| Stored (a : A)
| Unloadable (e : exn).
Arguments Stored {A} a.
Arguments Unloadable {A} e.

Record Disk : Type := {
  (** The exception, if any, that writing a path raises. *)
  write_fault : string -> option exn;
  anomaly_detector_pkl : file IsolationForest;
  risk_classifier_pkl : file RandomForestClassifier;
  scaler_pkl : file StandardScaler
}.

Record State : Type := {
  engine : Engine;
  disk : Disk
}.

Definition joblib_load {A} (f : file A) : result A :=
  match f with
  | Stored a => Normal a
  | Unloadable e => Raise e
  end.

Definition set_anomaly_detector (m : IsolationForest) : M Engine unit :=
  fun st => ({| anomaly_detector := m;
                risk_classifier := risk_classifier st;
                scaler := scaler st |}, Normal tt).

Definition set_risk_classifier (m : RandomForestClassifier)
  : M Engine unit :=
  fun st => ({| anomaly_detector := anomaly_detector st;
                risk_classifier := m;
                scaler := scaler st |}, Normal tt).

Definition set_scaler (m : StandardScaler) : M Engine unit :=
  fun st => ({| anomaly_detector := anomaly_detector st;
                risk_classifier := risk_classifier st;
                scaler := m |}, Normal tt).

(** A method of the engine, run where the disk is in reach. *)
Definition on_engine {A} (c : M Engine A) : M State A :=
  fun s =>
    let (e', r) := c (engine s) in
    ({| engine := e'; disk := disk s |}, r).

Definition on_disk {A} (c : M Disk A) : M State A :=
  fun s =>
    let (d', r) := c (disk s) in
    ({| engine := engine s; disk := d' |}, r).

(** ** Result shapes *)

Record ClusterPattern (Agg : Type) : Type := {
  cluster_id : Z;
  size : Z;
  cluster_aggregates : Agg
}.
Arguments cluster_id {Agg} _.
Arguments size {Agg} _.
Arguments cluster_aggregates {Agg} _.

Inductive PatternResult (Agg : Type) : Type :=
| PatternsInsufficient (patterns : list (ClusterPattern Agg))
    (message : string)
| PatternReport (patterns : list (ClusterPattern Agg)) (total_clusters : Z)
    (noise_points : Z) (timestamp : Z).
Arguments PatternsInsufficient {Agg} patterns message.
Arguments PatternReport {Agg} patterns total_clusters noise_points timestamp.

Record SignalMetrics : Type := {
  severe_event_rate : Q;
  hospitalization_rate : Q;
  death_rate : Q;
  recent_severe_rate : option Q;
  signal_total_events : Z;
  recent_events : option Z
}.

Inductive SignalResult : Type :=
| SignalInsufficient (signal_detected : bool) (message : string)
| SignalDetected (medicine_id : string) (signal_type : string)
    (metrics : SignalMetrics) (recommendation : string) (timestamp : Z)
| SignalNotDetected (medicine_id : string) (metrics : SignalMetrics).

Record RiskAssessment : Type := {
  risk_score : Q;
  risk_level : string;
  confidence : option Q;
  method : option string;
  recommendations : list string
}.

Record AnomalyReport : Type := {
  report_event_id : option string;
  report_medicine_name : option string;
  report_severity : option string;
  anomaly_score : Q;
  reason : string
}.

Inductive AnomalyResult : Type :=
| AnomaliesInsufficient (anomalies : list AnomalyReport) (message : string)
| AnomalySummary (total_events : Z) (anomalies_detected : Z)
    (anomaly_rate : Q) (anomalies : list AnomalyReport) (timestamp : Z).

Record TrainingSummary : Type := {
  training_samples : Z;
  anomaly_detector_trained : bool;
  risk_classifier_trained : bool;
  risk_classifier_accuracy : Q
}.

(** [mapping.get(key, default)] on a dict literal. *)
Fixpoint mapping_get {V} (mapping : list (string * V)) (key : string)
    (default : V) : V :=
  match mapping with
  | [] => default
  | (k, v) :: tl => if String.eqb k key then v else mapping_get tl key default
  end.

Definition len {A} (l : list A) : Z := Z.of_nat (List.length l).

(** [l[i]] for a non-negative [i]. *)
Definition index {A} (l : list A) (i : nat) : result A :=
  match nth_error l i with
  | Some a => Normal a
  | None => Raise IndexError
  end.

(** [sorted(l, key=key)]: stable, ascending. *)
Fixpoint insert_by {A} (key : A -> Q) (x : A) (l : list A) : list A :=
  match l with
  | [] => [x]
  | y :: tl =>
      if Float64.ltb (key y) (key x) then y :: insert_by key x tl
      else x :: y :: tl
  end.

Definition sorted {A} (key : A -> Q) (l : list A) : list A :=
  fold_right (insert_by key) [] l.

(** [max(l)] for a non-empty sequence of floats. *)
Definition max_of (l : list Q) : Q :=
  match l with
  | [] => 0%Q
  | x :: tl => fold_left Float64.max tl x
  end.

Section Methods.

Context (W : World).

Open Scope string_scope.
Open Scope Z_scope.
Open Scope py_scope.

Let N : Numerics := numerics W.

(** ** Feature encoding *)

Definition _encode_severity (severity : string) : Z :=
  let mapping :=
    [("mild", 1); ("moderate", 2); ("severe", 3);
     ("life_threatening", 4)] in
  mapping_get mapping (Text.lower severity) 2.

Definition _encode_outcome (outcome : string) : Z :=
  let mapping :=
    [("recovered", 1); ("recovering", 2); ("not_recovered", 3);
     ("death", 4); ("unknown", 0)] in
  mapping_get mapping (Text.lower outcome) 0.

(** The age comes from a dict (an int) or from a frame (possibly NaN,
    for which both comparisons are false). *)
Definition _encode_age_group (age : num) : Z :=
  if num_ltb age (int_num 18) then 1
  else if num_ltb age (int_num 65) then 2
  else 3.

(** [(datetime.now() - d).days] for what [pd.to_datetime] gave.
    [None] cannot be subtracted, and neither can a timestamp with a
    time zone from [now], which has none: both raise [TypeError].  The
    difference with [NaT] is [NaT], whose [days] is NaN.  The [days] of
    a difference is its floor in whole days. *)
Definition days_since (d : option timestamp) : result num :=
  match d with
  | None => Raise TypeError
  | Some (Naive t) => Normal (int_num ((now W - t) / day))
  | Some (Aware _) => Raise TypeError
  | Some NaT => Normal NaN
  end.

(** [(datetime.now() - pd.to_datetime(row.get('event_date'))).days].
    [row.get] gives [None] where the frame has no such column, NaN
    where the record lacks the key that another record has, and the
    string otherwise; [to_datetime(nan)] is [NaT]. *)
Definition days_since_event (c : cell string) : result num :=
  match c with
  | Absent => days_since (to_datetime_None W)
  | Null => days_since (Some NaT)
  | Val s => t <~ to_datetime W s ;; days_since (Some t)
  end.

Definition feature_vector (df : DataFrame) (row : EventRecord)
  : result (list num) :=
  sev <~ as_str (row_get (cell_of severity df row) "mild") ;;
  out <~ as_str (row_get (cell_of outcome df row) "unknown") ;;
  let age := num_of (row_get (cell_of patient_age df row) 0) in
  let hosp := if truthy (cell_of required_hospitalization df row)
              then 1 else 0 in
  let lt := if truthy (cell_of life_threatening df row) then 1 else 0 in
  n_symptoms <~ len_of (row_get (cell_of symptoms df row) []) ;;
  days <~ days_since_event (cell_of event_date df row) ;;
  Normal [int_num (_encode_severity sev);
          int_num (_encode_outcome out);
          int_num (_encode_age_group age);
          int_num hosp;
          int_num lt;
          int_num n_symptoms;
          days].

Definition _extract_event_features (df : DataFrame) : result matrix :=
  rmap (feature_vector df) (rows df).

(** ** Model lifecycle *)

Definition initialize_models : M Engine unit :=
  set_anomaly_detector None ;;;
  set_risk_classifier None.

Definition load_models : M State unit :=
  try_except_only FileNotFoundError
    (d <- get_self ;;
     m <- lift (joblib_load (anomaly_detector_pkl (disk d))) ;;
     on_engine (set_anomaly_detector m) ;;;
     m <- lift (joblib_load (risk_classifier_pkl (disk d))) ;;
     on_engine (set_risk_classifier m) ;;;
     m <- lift (joblib_load (scaler_pkl (disk d))) ;;
     on_engine (set_scaler m))
    (on_engine initialize_models).

(** [MLAnalyticsEngine()].  The two [None] placeholders of [__init__]
    are never seen by a caller: [load_models] replaces both, or the
    constructor raises. *)
Definition new_engine (d : Disk) : result Engine :=
  let self := {| anomaly_detector := None;
                 risk_classifier := None;
                 scaler := None |} in
  match load_models {| engine := self; disk := d |} with
  | (s, Normal _) => Normal (engine s)
  | (_, Raise e) => Raise e
  end.

(** [self.scaler.fit_transform(X)]: refits the shared scaler. *)
Definition fit_transform (X : matrix) : M Engine matrix :=
  fs <- lift (scaler_fit N X) ;;
  set_scaler (Some fs) ;;;
  lift (scaler_transform (Some fs) X).

(** ** Pattern detection *)

Definition _analyze_cluster (cluster_events : DataFrame) (cluster_id : Z)
  : result (ClusterPattern (Aggregates W)) :=
  a <~ aggregate W cluster_events ;;
  Normal {| cluster_id := cluster_id;
            size := len (rows cluster_events);
            cluster_aggregates := a |}.

(** [df[clusters == cluster_id]]: the rows at the positions that carry
    the label. *)
Definition rows_labelled (df : DataFrame) (clusters : list Z)
    (cluster_id : Z) : DataFrame :=
  {| built_from := built_from df;
     rows := map fst (filter (fun rc => snd rc =? cluster_id)
                             (combine (rows df) clusters)) |}.

Definition count_of (z : Z) (l : list Z) : Z :=
  len (filter (Z.eqb z) l).

(** The clusters are visited in the order of the set of labels, which
    Python leaves open; increasing order is taken here. *)
Definition detect_adverse_event_patterns (events : list EventRecord)
  : M Engine (PatternResult (Aggregates W)) :=
  if len events <? 10 then
    ret (PatternsInsufficient []
           "Insufficient data for pattern detection")
  else
    let df := DataFrame_of events in
    features <- lift (_extract_event_features df) ;;
    features_normalized <- fit_transform features ;;
    clusters <- lift (dbscan N features_normalized) ;;
    let labels := np_unique clusters in
    patterns <- lift (rmap (fun cluster_id =>
                              _analyze_cluster
                                (rows_labelled df clusters cluster_id)
                                cluster_id)
                           (filter (fun c => negb (c =? -1)) labels)) ;;
    ret (PatternReport patterns
           (len labels - (if existsb (Z.eqb (-1)) clusters then 1 else 0))
           (count_of (-1) clusters)
           (now W)).

(** ** Safety signals *)

Definition _classify_signal_type (severe_rate hosp_rate death_rate
    recent_rate : Q) : string :=
  if Float64.gtb death_rate (Float64.lit 2 2) then "critical"
  else if Float64.gtb hosp_rate (Float64.lit 15 2)
          || Float64.gtb recent_rate (Float64.lit 3 1) then "high"
  else if Float64.gtb severe_rate (Float64.lit 20 2) then "moderate"
  else "low".

Definition _generate_signal_recommendation (signal_type : string)
  : string :=
  let recommendations :=
    [("critical",
      "URGENT: Consider immediate recall or suspension. Convene safety review committee.");
     ("high",
      "HIGH PRIORITY: Detailed investigation required. Consider risk mitigation measures.");
     ("moderate",
      "MODERATE: Monitor closely. Review product labeling and prescribing information.");
     ("low",
      "LOW: Continue monitoring. Consider additional post-market surveillance.")] in
  mapping_get recommendations signal_type "Review and monitor.".

(** [isin(['severe', 'life_threatening'])] on one cell. *)
Definition isin_severe (v : option string) : bool :=
  match v with
  | Some s => String.eqb s "severe" || String.eqb s "life_threatening"
  | None => false
  end.

Definition is_true (v : option bool) : bool :=
  match v with Some true => true | _ => false end.

Definition is_death (v : option string) : bool :=
  match v with Some s => String.eqb s "death" | None => false end.

(** A parsed date in the comparison with the cutoff, which has no time
    zone: a timestamp with a time zone cannot be compared with it
    ([TypeError]); NaT, for which every comparison is false, is [None]
    in the result. *)
Definition naive_time (t : timestamp) : result (option Z) :=
  match t with
  | Naive ts => Normal (Some ts)
  | Aware _ => Raise TypeError
  | NaT => Normal None
  end.

(** [pd.to_datetime(df['event_date'])], as times to compare with the
    cutoff. *)
Definition parsed_dates (dates : list (option string))
  : result (list (option Z)) :=
  parsed <~ to_datetime_column W dates ;;
  rmap naive_time parsed.

(** [ts >= cutoff]; false for NaT. *)
Definition not_before (cutoff : Z) (t : option Z) : bool :=
  match t with Some ts => cutoff <=? ts | None => false end.

Definition rate (count total : Z) : Q :=
  Float64.div (inject_Z count) (inject_Z total).

Definition detect_safety_signals (medicine_id : string)
    (events : list EventRecord) : result SignalResult :=
  if len events <? 5 then
    Normal (SignalInsufficient false
              "Insufficient data for signal detection")
  else
    let df := DataFrame_of events in
    sev <~ column severity df ;;
    let severe_event_rate := rate (len (filter isin_severe sev))
                                  (len (rows df)) in
    hosp <~ column required_hospitalization df ;;
    let hospitalization_rate := rate (len (filter is_true hosp))
                                     (len (rows df)) in
    out <~ column outcome df ;;
    let death_rate := rate (len (filter is_death out)) (len (rows df)) in
    dates <~ column event_date df ;;
    times <~ parsed_dates dates ;;
    let recent :=
      map fst (filter (fun rt => not_before (now W - 90 * day) (snd rt))
                      (combine (rows df) times)) in
    let recent_severe_rate :=
      rate (len (filter isin_severe (map severity recent)))
           (Z.max (len recent) 1) in
    let signal_detected :=
      Float64.gtb severe_event_rate (Float64.lit 15 2)
      || Float64.gtb hospitalization_rate (Float64.lit 10 2)
      || Float64.gtb death_rate (Float64.lit 2 2)
      || Float64.gtb recent_severe_rate
           (Float64.mul severe_event_rate (Float64.lit 15 1)) in
    if signal_detected then
      let signal_type :=
        _classify_signal_type severe_event_rate hospitalization_rate
          death_rate recent_severe_rate in
      Normal (SignalDetected medicine_id signal_type
                {| severe_event_rate := Float64.py_round3 severe_event_rate;
                   hospitalization_rate :=
                     Float64.py_round3 hospitalization_rate;
                   death_rate := Float64.py_round3 death_rate;
                   recent_severe_rate :=
                     Some (Float64.py_round3 recent_severe_rate);
                   signal_total_events := len (rows df);
                   recent_events := Some (len recent) |}
                (_generate_signal_recommendation signal_type)
                (now W))
    else
      Normal (SignalNotDetected medicine_id
                {| severe_event_rate := Float64.py_round3 severe_event_rate;
                   hospitalization_rate :=
                     Float64.py_round3 hospitalization_rate;
                   death_rate := Float64.py_round3 death_rate;
                   recent_severe_rate := None;
                   signal_total_events := len (rows df);
                   recent_events := None |}).

(** ** Risk scoring *)

Definition _calculate_rule_based_risk (event_data : EventRecord) : Q :=
  let score := 0%Q in
  let severity := Text.lower (dict_get (severity event_data) "mild") in
  let score :=
    if String.eqb severity "life_threatening"
    then Float64.add score (Float64.lit 4 1)
    else if String.eqb severity "severe"
    then Float64.add score (Float64.lit 3 1)
    else if String.eqb severity "moderate"
    then Float64.add score (Float64.lit 15 2)
    else score in
  let score :=
    if dict_truthy (required_hospitalization event_data)
    then Float64.add score (Float64.lit 25 2) else score in
  let score :=
    if dict_truthy (life_threatening event_data)
    then Float64.add score (Float64.lit 2 1) else score in
  let age := dict_get (patient_age event_data) 0 in
  let score :=
    if (age <? 5) || (age >? 75)
    then Float64.add score (Float64.lit 1 1) else score in
  let score :=
    if len (dict_get (symptoms event_data) []) >? 5
    then Float64.add score (Float64.lit 1 1) else score in
  Float64.min score 1.

Definition _classify_risk_level (risk_score : Q) : string :=
  if Float64.geb risk_score (Float64.lit 7 1) then "critical"
  else if Float64.geb risk_score (Float64.lit 5 1) then "high"
  else if Float64.geb risk_score (Float64.lit 3 1) then "moderate"
  else "low".

Definition _generate_risk_recommendations (risk_score : Q)
  : list string :=
  if Float64.geb risk_score (Float64.lit 7 1) then
    ["Immediate medical attention required";
     "Consider hospitalization";
     "Report to regulatory authority urgently";
     "Document all symptoms and interventions"]
  else if Float64.geb risk_score (Float64.lit 5 1) then
    ["Close medical monitoring required";
     "Consider discontinuing medication";
     "Report to healthcare provider promptly";
     "Document progression of symptoms"]
  else if Float64.geb risk_score (Float64.lit 3 1) then
    ["Monitor symptoms closely";
     "Contact healthcare provider if symptoms worsen";
     "Report event to regulatory authority";
     "Keep detailed symptom diary"]
  else
    ["Continue monitoring";
     "Report if symptoms persist or worsen";
     "Document event details"].

(** The risk layout of the seven features. *)
Definition risk_features (event_data : EventRecord) : list num :=
  [int_num (_encode_severity (dict_get (severity event_data) "mild"));
   int_num (_encode_age_group
              (int_num (dict_get (patient_age event_data) 0)));
   int_num (if dict_truthy (required_hospitalization event_data)
            then 1 else 0);
   int_num (if dict_truthy (life_threatening event_data) then 1 else 0);
   int_num (len (dict_get (symptoms event_data) []));
   int_num (len (dict_get (concurrent_medications event_data) []));
   int_num (if dict_truthy (has_allergies event_data) then 1 else 0)].

(** The body of the [try]. *)
Definition ml_risk (features_normalized : matrix)
  : M Engine RiskAssessment :=
  self <- get_self ;;
  probabilities <-
    lift (predict_proba (risk_classifier self) features_normalized) ;;
  risk_probability <- lift (index probabilities 0) ;;
  risk_score <- lift (index risk_probability 1) ;;
  ret {| risk_score := Float64.np_round3 risk_score;
         risk_level := _classify_risk_level risk_score;
         confidence := Some (Float64.np_round3 (max_of risk_probability));
         method := None;
         recommendations := _generate_risk_recommendations risk_score |}.

(** The body of the [except]. *)
Definition rule_based_risk (event_data : EventRecord) : RiskAssessment :=
  let rule_based_score := _calculate_rule_based_risk event_data in
  {| risk_score := rule_based_score;
     risk_level := _classify_risk_level rule_based_score;
     confidence := None;
     method := Some "rule_based";
     recommendations := _generate_risk_recommendations rule_based_score |}.

(** The scaler is applied before the [try] is entered. *)
Definition predict_risk_score (event_data : EventRecord)
  : M Engine RiskAssessment :=
  let features := [risk_features event_data] in
  self <- get_self ;;
  features_normalized <- lift (scaler_transform (scaler self) features) ;;
  try_except (ml_risk features_normalized)
             (ret (rule_based_risk event_data)).

(** ** Anomaly detection *)

Definition some_values {A} (l : list (option A)) : list A :=
  flat_map (fun v => match v with Some a => [a] | None => [] end) l.

(** [Series.mean()]: NaN cells are skipped; NaN when none is left. *)
Definition mean (col : list (option Z)) : num :=
  match some_values col with
  | [] => NaN
  | vs => Fin (Float64.div (inject_Z (fold_right Z.add 0 vs))
                           (inject_Z (len vs)))
  end.

(** [abs(age - avg_age) > 20]; false when the mean is NaN. *)
Definition far_from (age : Z) (avg_age : num) : bool :=
  match avg_age with
  | Fin avg =>
      Float64.gtb (Float64.abs (Float64.sub (inject_Z age) avg)) 20
  | NaN => false
  end.

Definition fmt_avg (avg_age : num) : string :=
  match avg_age with Fin avg => Text.fmt0 avg | NaN => "nan" end.

Definition _explain_anomaly (event : EventRecord)
    (all_events : DataFrame) : result string :=
  let reasons : list string := [] in
  reasons <~
    match patient_age event with
    | Some age =>
        if age =? 0 then Normal reasons
        else
          ages <~ column patient_age all_events ;;
          let avg_age := mean ages in
          if far_from age avg_age then
            Normal (app reasons
                      ["Unusual age (" ++ Text.str age ++ " vs avg "
                       ++ fmt_avg avg_age ++ ")"])
          else Normal reasons
    | None => Normal reasons
    end ;;
  let severity := Text.lower (dict_get (severity event) "") in
  let reasons :=
    if String.eqb severity "life_threatening"
    then app reasons ["Life-threatening severity"] else reasons in
  let reasons :=
    if is_death (outcome event)
    then app reasons ["Fatal outcome"] else reasons in
  let n := len (dict_get (symptoms event) []) in
  let reasons :=
    if n >? 8
    then app reasons ["High number of symptoms (" ++ Text.str n ++ ")"]
    else reasons in
  Normal (match reasons with
          | [] => "Statistical outlier"
          | _ => Text.join "; " reasons
          end).

(** The loop over [enumerate(zip(predictions, anomaly_scores))]. *)
Fixpoint flagged (events : list EventRecord) (df : DataFrame)
    (idx : nat) (scored : list (Z * Q)) : result (list AnomalyReport) :=
  match scored with
  | [] => Normal []
  | (prediction, score) :: tl =>
      if prediction =? -1 then
        event <~ index events idx ;;
        why <~ _explain_anomaly event df ;;
        rest <~ flagged events df (S idx) tl ;;
        Normal ({| report_event_id := event_id event;
                   report_medicine_name := medicine_name event;
                   report_severity := severity event;
                   anomaly_score := score;
                   reason := why |} :: rest)
      else flagged events df (S idx) tl
  end.

(** [self.anomaly_detector.fit_predict(X)]. *)
Definition fit_predict (X : matrix) : M Engine (list Z) :=
  m <- lift (iforest_fit N X) ;;
  set_anomaly_detector (Some m) ;;;
  lift (iforest_predict (Some m) X).

Definition detect_anomalies (events : list EventRecord)
  : M Engine AnomalyResult :=
  if len events <? 20 then
    ret (AnomaliesInsufficient []
           "Insufficient data for anomaly detection")
  else
    let df := DataFrame_of events in
    features <- lift (_extract_event_features df) ;;
    features_normalized <- fit_transform features ;;
    predictions <- fit_predict features_normalized ;;
    self <- get_self ;;
    anomaly_scores <-
      lift (score_samples (anomaly_detector self) features_normalized) ;;
    anomalies <-
      lift (flagged events df 0 (combine predictions anomaly_scores)) ;;
    ret (AnomalySummary
           (len events)
           (len anomalies)
           (Float64.py_round3 (rate (len anomalies) (len events)))
           (firstn 10 (sorted anomaly_score anomalies))
           (now W)).

(** ** Training *)

Definition joblib_dump (path : string) (store : Disk -> Disk)
  : M State unit :=
  s <- get_self ;;
  match write_fault (disk s) path with
  | Some e => raise e
  | None => set_self {| engine := engine s; disk := store (disk s) |}
  end.

Definition store_anomaly_detector (m : IsolationForest) (d : Disk)
  : Disk :=
  {| write_fault := write_fault d;
     anomaly_detector_pkl := Stored m;
     risk_classifier_pkl := risk_classifier_pkl d;
     scaler_pkl := scaler_pkl d |}.

Definition store_risk_classifier (m : RandomForestClassifier) (d : Disk)
  : Disk :=
  {| write_fault := write_fault d;
     anomaly_detector_pkl := anomaly_detector_pkl d;
     risk_classifier_pkl := Stored m;
     scaler_pkl := scaler_pkl d |}.

Definition store_scaler (m : StandardScaler) (d : Disk) : Disk :=
  {| write_fault := write_fault d;
     anomaly_detector_pkl := anomaly_detector_pkl d;
     risk_classifier_pkl := risk_classifier_pkl d;
     scaler_pkl := Stored m |}.

(** The labels: severe or life-threatening, or hospitalised. *)
Definition risk_labels (sev : list (option string))
    (hosp : list (option bool)) : list Z :=
  map (fun sh => Z.b2z (isin_severe (fst sh) || is_true (snd sh)))
      (combine sev hosp).

Definition train_models (training_data : list EventRecord)
  : M State TrainingSummary :=
  let df := DataFrame_of training_data in
  X <- lift (_extract_event_features df) ;;
  sev <- lift (column severity df) ;;
  hosp <- lift (column required_hospitalization df) ;;
  let y := risk_labels sev hosp in
  X_normalized <- on_engine (fit_transform X) ;;
  m <- lift (iforest_fit N X_normalized) ;;
  on_engine (set_anomaly_detector (Some m)) ;;;
  f <- lift (rf_fit N X_normalized y) ;;
  on_engine (set_risk_classifier (Some f)) ;;;
  s <- get_self ;;
  joblib_dump "models/anomaly_detector.pkl"
    (store_anomaly_detector (anomaly_detector (engine s))) ;;;
  joblib_dump "models/risk_classifier.pkl"
    (store_risk_classifier (risk_classifier (engine s))) ;;;
  joblib_dump "models/scaler.pkl" (store_scaler (scaler (engine s))) ;;;
  accuracy <- lift (accuracy (risk_classifier (engine s)) X_normalized y) ;;
  ret {| training_samples := len (rows df);
         anomaly_detector_trained := true;
         risk_classifier_trained := true;
         risk_classifier_accuracy := accuracy |}.

End Methods.

(* ===================================================================== *)
(** * A small world to run the engine in *)
(* ===================================================================== *)

Module Sample.

Open Scope string_scope.

(** Estimator numerics that are easy to follow by hand: the scaler
    leaves a value as it is, the forest of the anomaly detector scores
    a sample by minus an eighth of its first feature (the severity
    code, so that the score is a binary fraction) against an offset of
    -3/8, the classifier gives every sample
    the frequency of the class among the training labels, and the
    clustering puts every sample in cluster 0. *)
Definition severity_score (x : list num) : Q :=
  match x with
  | Fin q :: _ => (- q / 8)%Q
  | _ => 0%Q
  end.

Definition class_frequency (y : list Z) (c : Z) : Q :=
  Float64.div (inject_Z (len (filter (Z.eqb c) y))) (inject_Z (len y)).

Definition estimators : Numerics :=
  {| column_scaler := fun _ x => x;
     iforest_train := fun _ => Normal (severity_score, (- 3 # 8)%Q);
     rf_fit_fault := fun _ _ => None;
     rf_learn := fun _ y _ c => class_frequency y c;
     dbscan := fun X => Normal (map (fun _ => 0) X) |}.

(** Noon of 1 June 2024, and a parser that knows three dates, a date
    with an offset and the empty string; it reads a column cell by
    cell, and [to_datetime(None)] is as in pandas 2. *)
Definition noon_2024_06_01 : Z := 1717243200 * 1000000.

Definition parse_date (s : string) : result timestamp :=
  mapping_get
    [("2024-05-20", Normal (Naive (1716163200 * 1000000)));
     ("2024-01-01", Normal (Naive (1704067200 * 1000000)));
     ("2023-06-01", Normal (Naive (1685577600 * 1000000)));
     ("2024-05-20T00:00:00Z", Normal (Aware (1716163200 * 1000000)));
     ("", Normal NaT)]
    s (Raise ValueError).

Definition parse_dates (col : list (option string))
  : result (list timestamp) :=
  rmap (fun v => match v with
                 | Some s => parse_date s
                 | None => Normal NaT
                 end) col.

Definition world : World :=
  {| numerics := estimators;
     now := noon_2024_06_01;
     to_datetime := parse_date;
     to_datetime_column := parse_dates;
     to_datetime_None := None;
     Aggregates := unit;
     aggregate := fun _ => Normal tt |}.

(** The same world with [to_datetime(None)] as in pandas 3. *)
Definition world_pandas3 : World :=
  {| numerics := estimators;
     now := noon_2024_06_01;
     to_datetime := parse_date;
     to_datetime_column := parse_dates;
     to_datetime_None := Some NaT;
     Aggregates := unit;
     aggregate := fun _ => Normal tt |}.

(** A disk with no artifact on it, and one whose first artifact is
    truncated. *)
Definition empty_disk : Disk :=
  {| write_fault := fun _ => None;
     anomaly_detector_pkl := Unloadable FileNotFoundError;
     risk_classifier_pkl := Unloadable FileNotFoundError;
     scaler_pkl := Unloadable FileNotFoundError |}.

Definition corrupt_disk : Disk :=
  {| write_fault := fun _ => None;
     anomaly_detector_pkl := Unloadable EOFError;
     risk_classifier_pkl := Unloadable FileNotFoundError;
     scaler_pkl := Unloadable FileNotFoundError |}.

Definition read_only_disk : Disk :=
  {| write_fault := fun _ => Some PermissionError;
     anomaly_detector_pkl := Unloadable FileNotFoundError;
     risk_classifier_pkl := Unloadable FileNotFoundError;
     scaler_pkl := Unloadable FileNotFoundError |}.

(** The engine that [MLAnalyticsEngine()] builds on an empty disk. *)
Definition fresh_engine : Engine :=
  {| anomaly_detector := None; risk_classifier := None; scaler := None |}.

Definition event (sev : string) (hosp : bool) (age : Z)
    (date : option string) : EventRecord :=
  {| event_id := Some "E";
     medicine_name := Some "Amoxicillin";
     severity := Some sev;
     outcome := Some "recovered";
     patient_age := Some age;
     required_hospitalization := Some hosp;
     life_threatening := Some false;
     symptoms := Some ["rash"];
     concurrent_medications := Some [];
     has_allergies := Some false;
     event_date := date |}.

Definition mild : EventRecord := event "mild" false 40 (Some "2024-05-20").
Definition severe : EventRecord := event "severe" true 40 (Some "2024-01-01").
Definition critical : EventRecord :=
  event "life_threatening" true 40 (Some "2024-05-20").
Definition undated : EventRecord := event "mild" false 40 None.
Definition misdated : EventRecord :=
  event "mild" false 40 (Some "the day before yesterday").
Definition blank_dated : EventRecord := event "mild" false 40 (Some "").
Definition zoned : EventRecord :=
  event "mild" false 40 (Some "2024-05-20T00:00:00Z").
Definition newborn : EventRecord := event "mild" false 0 (Some "2024-05-20").
Definition critical_newborn : EventRecord :=
  event "life_threatening" false 0 (Some "2024-05-20").
Definition adult : EventRecord := event "mild" false 50 (Some "2024-05-20").

(** Twenty records of which eleven are life-threatening, and twenty-one
    of which one is. *)
Definition crowd : list EventRecord := repeat critical 11 ++ repeat mild 9.
Definition one_in_21 : list EventRecord := critical :: repeat mild 20.

(** The record of the worked example of the rule-based score. *)
Definition worst_case : EventRecord :=
  {| event_id := None;
     medicine_name := None;
     severity := Some "life_threatening";
     outcome := None;
     patient_age := Some 80;
     required_hospitalization := Some true;
     life_threatening := Some true;
     symptoms := Some ["a"; "b"; "c"; "d"; "e"; "f"];
     concurrent_medications := None;
     has_allergies := None;
     event_date := None |}.

Definition empty_event : EventRecord :=
  {| event_id := None; medicine_name := None; severity := None;
     outcome := None; patient_age := None;
     required_hospitalization := None; life_threatening := None;
     symptoms := None; concurrent_medications := None;
     has_allergies := None; event_date := None |}.

End Sample.

(* ===================================================================== *)
(** * Specification-side definitions *)
(* ===================================================================== *)

(** The qualifying conditions of the rule-based score, named as the
    specification names them. *)
Module Rule.

Open Scope string_scope.
Open Scope Z_scope.

(** 3 for life-threatening, 2 for severe, 1 for moderate, 0 otherwise. *)
Definition severity_rank (e : EventRecord) : nat :=
  let s := Text.lower (dict_get (severity e) "mild") in
  if String.eqb s "life_threatening" then 3
  else if String.eqb s "severe" then 2
  else if String.eqb s "moderate" then 1
  else 0.

Definition hospitalised (e : EventRecord) : bool :=
  dict_truthy (required_hospitalization e).

Definition flagged_life_threatening (e : EventRecord) : bool :=
  dict_truthy (life_threatening e).

Definition age_extreme (e : EventRecord) : bool :=
  let age := dict_get (patient_age e) 0 in
  (age <? 5) || (age >? 75).

Definition many_symptoms (e : EventRecord) : bool :=
  len (dict_get (symptoms e) []) >? 5.

Definition severity_points (rank : nat) : Q :=
  match rank with
  | 3%nat => Float64.lit 4 1
  | 2%nat => Float64.lit 3 1
  | 1%nat => Float64.lit 15 2
  | _ => 0%Q
  end.

Definition points (applies : bool) (p : Q) : Q :=
  if applies then p else 0%Q.

(** The listed contributions of a record, in the order of the list. *)
Definition contributions (e : EventRecord) : list Q :=
  [severity_points (severity_rank e);
   points (hospitalised e) (Float64.lit 25 2);
   points (flagged_life_threatening e) (Float64.lit 2 1);
   points (age_extreme e) (Float64.lit 1 1);
   points (many_symptoms e) (Float64.lit 1 1)].

Definition clamp01 (x : Q) : Q := Float64.max 0 (Float64.min x 1).

(** The clamp to [0,1] of the sum of the contributions. *)
Definition clamped_sum (e : EventRecord) : Q :=
  clamp01 (fold_left Float64.add (contributions e) 0%Q).

(** [e'] meets every qualifying condition that [e] meets, with a
    severity at least as grave. *)
Definition no_less_qualified (e e' : EventRecord) : Prop :=
  (severity_rank e <= severity_rank e')%nat /\
  (hospitalised e = true -> hospitalised e' = true) /\
  (flagged_life_threatening e = true ->
   flagged_life_threatening e' = true) /\
  (age_extreme e = true -> age_extreme e' = true) /\
  (many_symptoms e = true -> many_symptoms e' = true).

End Rule.


(** Ascending order of a key. *)
Definition by_key {A} (key : A -> Q) (a b : A) : Prop :=
  (key a <= key b)%Q.

(** The record is encoded in its batch, with [days] as the days since
    the event; the record fails with [e], and the batch with it. *)
Definition encodes_days (W : World) (df : DataFrame) (row : EventRecord)
    (days : num) : Prop :=
  exists v, feature_vector W df row = Normal v /\ nth_error v 6 = Some days.

Definition fails_batch (W : World) (df : DataFrame) (row : EventRecord)
    (e : exn) : Prop :=
  feature_vector W df row = Raise e /\
  raises (_extract_event_features W df) = true.

(** The first artifact, in loading order, that cannot be loaded, with
    the exception that loading it raises. *)
Definition first_load_fault (d : Disk) : option exn :=
  match anomaly_detector_pkl d, risk_classifier_pkl d, scaler_pkl d with
  | Unloadable e, _, _ => Some e
  | Stored _, Unloadable e, _ => Some e
  | Stored _, Stored _, Unloadable e => Some e
  | Stored _, Stored _, Stored _ => None
  end.

(** The engine with fresh models: nothing is fitted. *)
Definition untrained_engine : Engine :=
  {| anomaly_detector := None; risk_classifier := None; scaler := None |}.

(** The training label of a record: severe or worse, or hospitalised. *)
Definition high_risk (r : EventRecord) : bool :=
  isin_severe (severity r) || is_true (required_hospitalization r).

(** The conditions that an explanation can call out, as the
    specification lists them, and the text of each. *)
Module Explain.

Open Scope string_scope.
Open Scope Z_scope.

Definition mean_age (events : list EventRecord) : num :=
  mean (map patient_age events).

(** The age of the record, 0 when it has none, is more than 20 years
    away from the mean age of the batch. *)
Definition age_deviates (event : EventRecord)
    (events : list EventRecord) : bool :=
  far_from (dict_get (patient_age event) 0) (mean_age events).

(** The same for the age that the record carries, if it carries one. *)
Definition recorded_age_deviates (event : EventRecord)
    (events : list EventRecord) : bool :=
  match patient_age event with
  | Some age => far_from age (mean_age events)
  | None => false
  end.

Definition severity_life_threatening (event : EventRecord) : bool :=
  String.eqb (Text.lower (dict_get (severity event) "")) "life_threatening".

Definition outcome_fatal (event : EventRecord) : bool :=
  is_death (outcome event).

Definition symptom_count (event : EventRecord) : Z :=
  len (dict_get (symptoms event) []).

Definition many_symptoms (event : EventRecord) : bool :=
  symptom_count event >? 8.

Definition age_text (event : EventRecord) (events : list EventRecord)
  : string :=
  "Unusual age (" ++ Text.str (dict_get (patient_age event) 0)
  ++ " vs avg " ++ fmt_avg (mean_age events) ++ ")".

Definition symptoms_text (event : EventRecord) : string :=
  "High number of symptoms (" ++ Text.str (symptom_count event) ++ ")".

(** The texts of the conditions that apply, in the order of the list. *)
Definition called_out (conditions : list (bool * string)) : list string :=
  map snd (filter fst conditions).

(** The explanation that calls out exactly the conditions that apply,
    given whether the age condition does. *)
Definition explanation (age_applies : bool) (event : EventRecord)
    (events : list EventRecord) : string :=
  match called_out
          [(age_applies, age_text event events);
           (severity_life_threatening event, "Life-threatening severity");
           (outcome_fatal event, "Fatal outcome");
           (many_symptoms event, symptoms_text event)] with
  | [] => "Statistical outlier"
  | texts => Text.join "; " texts
  end.

End Explain.

(* ===================================================================== *)
(** * Further vocabulary for the properties of the engine *)
(* ===================================================================== *)

(** A record whose pattern features all encode in any batch: it carries
    a severity, an outcome, symptoms and a date that parses to a
    timestamp without a time zone. *)
Definition encodable (W : World) (r : EventRecord) : bool :=
  is_some (severity r) && is_some (outcome r) && is_some (symptoms r)
  && match event_date r with
     | Some s =>
         match to_datetime W s with
         | Normal (Naive _) => true
         | _ => false
         end
     | None => false
     end.

(** A method keeps the part [f] of the state, whatever it returns or
    raises. *)
Definition keeps {S A X : Type} (f : S -> X) (c : M S A) : Prop :=
  forall s, f (fst (c s)) = f s.

(** The classifier can serve the risk-scoring path: it is fitted, on
    seven features, and has seen at least two classes. *)
Definition classifier_usable (m : RandomForestClassifier) : bool :=
  match m with
  | Some f =>
      Nat.eqb (rf_n_features f) 7 && Nat.leb 2 (List.length (classes_ f))
  | None => false
  end.

(** The risk levels, from the least to the most urgent. *)
Definition level_rank (level : string) : nat :=
  if String.eqb level "critical" then 3
  else if String.eqb level "high" then 2
  else if String.eqb level "moderate" then 1
  else 0.

(** The reports of the records that the refitted detector flags in a
    batch, before they are sorted and cut to ten. *)
Definition flagged_in_run (W : World) (events : list EventRecord)
    (st' : Engine) (all : list AnomalyReport) : Prop :=
  exists features X predictions scores,
    _extract_event_features W (DataFrame_of events) = Normal features /\
    scaler_transform (scaler st') features = Normal X /\
    iforest_predict (anomaly_detector st') X = Normal predictions /\
    score_samples (anomaly_detector st') X = Normal scores /\
    flagged events (DataFrame_of events) 0 (combine predictions scores)
    = Normal all.

(** The same disk with other write faults. *)
Definition with_write_fault (wf : string -> option exn) (d : Disk) : Disk :=
  {| write_fault := wf;
     anomaly_detector_pkl := anomaly_detector_pkl d;
     risk_classifier_pkl := risk_classifier_pkl d;
     scaler_pkl := scaler_pkl d |}.

(** The sum of a list of integers. *)
Definition total (l : list Z) : Z := fold_right Z.add 0 l.

(** A record that carries nothing but texts and a date. *)
Definition empty_event_dated : EventRecord :=
  {| event_id := None; medicine_name := None; severity := Some "mild"%string;
     outcome := Some "unknown"%string; patient_age := None;
     required_hospitalization := None; life_threatening := None;
     symptoms := Some []; concurrent_medications := None;
     has_allergies := None; event_date := Some "2024-05-20"%string |}.

(** The metrics of a signal report are those of a history of [n]
    events: every rate is between 0 and 1 and the number of recent
    events, where reported, is at most [n]. *)
Definition unit_rate (q : Q) : Prop := (0 <= q)%Q /\ (q <= 1)%Q.

Definition metrics_in_range (n : Z) (m : SignalMetrics) : Prop :=
  signal_total_events m = n /\
  unit_rate (severe_event_rate m) /\
  unit_rate (hospitalization_rate m) /\
  unit_rate (death_rate m) /\
  (forall q, recent_severe_rate m = Some q -> unit_rate q) /\
  (forall k, recent_events m = Some k -> 0 <= k <= n).

(** The share of the records of a history that meet a test, as the
    float that the engine computes. *)
Definition share (test : EventRecord -> bool) (events : list EventRecord)
  : Q :=
  rate (len (filter test events)) (len events).

(** A report of a death. *)
Definition fatal_event : EventRecord :=
  {| event_id := Some "E"%string;
     medicine_name := Some "Amoxicillin"%string;
     severity := Some "severe"%string;
     outcome := Some "death"%string;
     patient_age := Some 70;
     required_hospitalization := Some true;
     life_threatening := Some true;
     symptoms := Some ["arrest"%string];
     concurrent_medications := Some [];
     has_allergies := Some false;
     event_date := Some "2024-05-20"%string |}.

(** A report is that of a record of the batch: it copies the record's
    identifier, medicine and severity, and its reason is the
    explanation of that record against the batch. *)
Definition reports_on (df : DataFrame) (event : EventRecord)
    (a : AnomalyReport) : Prop :=
  report_event_id a = event_id event /\
  report_medicine_name a = medicine_name event /\
  report_severity a = severity event /\
  _explain_anomaly event df = Normal (reason a).

(** The records of the last 90 days, given the times read from the
    dates of the records. *)
Definition recent_of (W : World) (events : list EventRecord)
    (times : list (option Z)) : list EventRecord :=
  map fst (filter (fun rt => not_before (now W - 90 * day) (snd rt))
                  (combine events times)).

(** ** The computation of each detection, step by step

    What a detection does from its minimum batch size on, as a relation
    between the batch, the engine before and after the call, and the
    result: every step of the method has returned, the engine holds
    what the method fitted, and the result is the report made of what
    the steps returned. *)

(** Patterns: encode, fit and apply the shared scaler, cluster, and
    summarise every cluster other than the noise. *)
Definition patterns_computed (W : World) (events : list EventRecord)
    (st st' : Engine) (r : PatternResult (Aggregates W)) : Prop :=
  exists features fs X clusters patterns,
    _extract_event_features W (DataFrame_of events) = Normal features /\
    scaler_fit (numerics W) features = Normal fs /\
    scaler_transform (Some fs) features = Normal X /\
    dbscan (numerics W) X = Normal clusters /\
    rmap (fun c => _analyze_cluster W
                     (rows_labelled (DataFrame_of events) clusters c) c)
         (filter (fun c => negb (c =? -1)%Z) (np_unique clusters))
    = Normal patterns /\
    st' = {| anomaly_detector := anomaly_detector st;
             risk_classifier := risk_classifier st;
             scaler := Some fs |} /\
    r = PatternReport patterns
          (len (np_unique clusters)
           - (if existsb (Z.eqb (-1)) clusters then 1 else 0))%Z
          (count_of (-1) clusters) (now W).

(** Signals: read the four columns, parse the date column and compare
    it with the cutoff, and report the rates, as a detected signal when
    one of them is over its threshold. *)
Definition signals_computed (W : World) (medicine_id : string)
    (events : list EventRecord) (r : SignalResult) : Prop :=
  exists times,
    has_column severity (DataFrame_of events) = true /\
    has_column required_hospitalization (DataFrame_of events) = true /\
    has_column outcome (DataFrame_of events) = true /\
    has_column event_date (DataFrame_of events) = true /\
    parsed_dates W (map event_date events) = Normal times /\
    let severe := share (fun e => isin_severe (severity e)) events in
    let hosp :=
      share (fun e => is_true (required_hospitalization e)) events in
    let death := share (fun e => is_death (outcome e)) events in
    let recent := recent_of W events times in
    let recent_severe :=
      rate (len (filter (fun e => isin_severe (severity e)) recent))
           (Z.max (len recent) 1) in
    r = if Float64.gtb severe (Float64.lit 15 2)
           || Float64.gtb hosp (Float64.lit 10 2)
           || Float64.gtb death (Float64.lit 2 2)
           || Float64.gtb recent_severe
                (Float64.mul severe (Float64.lit 15 1))
        then
          SignalDetected medicine_id
            (_classify_signal_type severe hosp death recent_severe)
            {| severe_event_rate := Float64.py_round3 severe;
               hospitalization_rate := Float64.py_round3 hosp;
               death_rate := Float64.py_round3 death;
               recent_severe_rate := Some (Float64.py_round3 recent_severe);
               signal_total_events := len events;
               recent_events := Some (len recent) |}
            (_generate_signal_recommendation
               (_classify_signal_type severe hosp death recent_severe))
            (now W)
        else
          SignalNotDetected medicine_id
            {| severe_event_rate := Float64.py_round3 severe;
               hospitalization_rate := Float64.py_round3 hosp;
               death_rate := Float64.py_round3 death;
               recent_severe_rate := None;
               signal_total_events := len events;
               recent_events := None |}.

(** Anomalies: encode, fit and apply the shared scaler, fit the
    detector, score every sample, and report the samples whose score
    is below the detector's offset, the ten lowest first. *)
Definition anomalies_computed (W : World) (events : list EventRecord)
    (st st' : Engine) (r : AnomalyResult) : Prop :=
  exists features fs X m scores all,
    _extract_event_features W (DataFrame_of events) = Normal features /\
    scaler_fit (numerics W) features = Normal fs /\
    scaler_transform (Some fs) features = Normal X /\
    iforest_fit (numerics W) X = Normal m /\
    score_samples (Some m) X = Normal scores /\
    flagged events (DataFrame_of events) 0
      (combine
         (map (fun s => if Float64.ltb (Float64.sub s (offset_ m)) 0
                        then (-1)%Z else 1%Z) scores)
         scores)
    = Normal all /\
    st' = {| anomaly_detector := Some m;
             risk_classifier := risk_classifier st;
             scaler := Some fs |} /\
    r = AnomalySummary (len events) (len all)
          (Float64.py_round3 (rate (len all) (len events)))
          (firstn 10 (sorted anomaly_score all)) (now W).
(* ===================================================================== *)
(** * Facts about floats *)
(* ===================================================================== *)

Lemma gtb_lt (a b : Q) : Float64.gtb a b = true <-> (b < a)%Q.
Proof.
  unfold Float64.gtb, Float64.ltb. rewrite negb_true_iff.
  split; intro H.
  - apply Qnot_le_lt. intro Hle. apply Qle_bool_iff in Hle. congruence.
  - destruct (Qle_bool a b) eqn:E; [|reflexivity].
    apply Qle_bool_iff in E. exfalso. apply (Qlt_not_le _ _ H E).
Qed.

Lemma gtb_not_lt (a b : Q) : Float64.gtb a b = false <-> ~ (b < a)%Q.
Proof.
  rewrite <- gtb_lt. destruct (Float64.gtb a b); split; congruence.
Qed.

Lemma ltb_lt (a b : Q) : Float64.ltb a b = true <-> (a < b)%Q.
Proof. exact (gtb_lt b a). Qed.

Lemma ltb_not_lt (a b : Q) : Float64.ltb a b = false <-> (b <= a)%Q.
Proof.
  unfold Float64.ltb. rewrite negb_false_iff. apply Qle_bool_iff.
Qed.

(* ===================================================================== *)
(** * Rounding keeps a rate a rate *)
(* ===================================================================== *)

Section RoundingBounds.

Open Scope Q_scope.

Lemma round_half_even_nonneg (x : Q) :
  0 <= x -> (0 <= Float64.round_half_even x)%Z.
Proof.
  intro Hx. unfold Float64.round_half_even.
  assert (Hf : (0 <= Qfloor x)%Z).
  { change 0%Z with (Qfloor 0). apply Qfloor_resp_le. exact Hx. }
  destruct (Qcompare _ _); [destruct (Z.even _)| |]; lia.
Qed.

Lemma round_half_even_le (x : Q) (n : Z) :
  x <= inject_Z n -> (Float64.round_half_even x <= n)%Z.
Proof.
  intro Hx. unfold Float64.round_half_even.
  assert (Hf : (Qfloor x <= n)%Z).
  { rewrite <- (Qfloor_Z n). apply Qfloor_resp_le. exact Hx. }
  assert (Hstep : 1 # 2 <= x - inject_Z (Qfloor x) -> (Qfloor x + 1 <= n)%Z).
  { intro Hhalf. destruct (Z.eq_dec (Qfloor x) n) as [E|E]; [|lia].
    exfalso. rewrite E in Hhalf. lra. }
  destruct (Qcompare (x - inject_Z (Qfloor x)) (1 # 2)) eqn:C.
  - apply Qeq_alt in C. destruct (Z.even _); [exact Hf|].
    apply Hstep. rewrite C. apply Qle_refl.
  - exact Hf.
  - apply Qgt_alt in C. apply Hstep. apply Qlt_le_weak. exact C.
Qed.

Lemma pow2_pos (k : Z) : 0 < Float64.pow2 k.
Proof.
  unfold Float64.pow2. destruct (0 <=? k)%Z eqn:E.
  - apply Z.leb_le in E. change 0 with (inject_Z 0).
    rewrite <- Zlt_Qlt. apply Z.pow_pos_nonneg; lia.
  - apply Z.leb_gt in E. apply Qinv_lt_0_compat.
    change 0 with (inject_Z 0). rewrite <- Zlt_Qlt.
    apply Z.pow_pos_nonneg; lia.
Qed.

Lemma pow2_neg_inv (e : Z) :
  (e < 0)%Z -> Float64.pow2 e == / Float64.pow2 (- e).
Proof.
  intro He. unfold Float64.pow2.
  destruct (0 <=? e)%Z eqn:E1; [apply Z.leb_le in E1; lia|].
  destruct (0 <=? - e)%Z eqn:E2; [|apply Z.leb_gt in E2; lia].
  reflexivity.
Qed.

Lemma floor_log2_unit (a : Q) :
  0 < a -> a <= 1 -> (Float64.floor_log2 a <= 0)%Z.
Proof.
  intros Hpos Hle. unfold Float64.floor_log2.
  destruct a as [n d]. cbn [Qnum Qden].
  assert (Hn : (0 < n)%Z).
  { unfold Qlt in Hpos. cbn in Hpos. lia. }
  assert (Hnd : (n <= Zpos d)%Z).
  { unfold Qle in Hle. cbn in Hle. lia. }
  pose proof (Z.log2_le_mono n (Zpos d) Hnd).
  destruct (Qle_bool _ _); lia.
Qed.

Lemma rnd53_pos_unit (a : Q) :
  0 < a -> a <= 1 -> 0 <= Float64.rnd53_pos a /\ Float64.rnd53_pos a <= 1.
Proof.
  intros Hpos Hle. unfold Float64.rnd53_pos.
  pose proof (floor_log2_unit a Hpos Hle) as Hl.
  set (e := (Float64.floor_log2 a - 52)%Z).
  assert (He : (e < 0)%Z) by (subst e; lia).
  rewrite Qred_correct.
  set (p := Float64.pow2 (- e)).
  assert (Hp : 0 < p) by apply pow2_pos.
  assert (Hpz : p == inject_Z (2 ^ (- e))).
  { subst p. unfold Float64.pow2.
    destruct (0 <=? - e)%Z eqn:E; [reflexivity|apply Z.leb_gt in E; lia]. }
  rewrite (pow2_neg_inv e He). fold p.
  set (m := Float64.round_half_even (a * p)).
  assert (Hm0 : (0 <= m)%Z).
  { apply round_half_even_nonneg. apply Qmult_le_0_compat; lra. }
  assert (Hm1 : (m <= 2 ^ (- e))%Z).
  { apply round_half_even_le. rewrite <- Hpz.
    setoid_replace p with (1 * p) at 2 by ring.
    apply Qmult_le_compat_r; lra. }
  assert (Hq0 : 0 <= inject_Z m).
  { change 0 with (inject_Z 0). rewrite <- Zle_Qle. exact Hm0. }
  assert (Hq1 : inject_Z m <= p).
  { rewrite Hpz. rewrite <- Zle_Qle. exact Hm1. }
  assert (Hinv : 0 < / p) by (apply Qinv_lt_0_compat; exact Hp).
  split.
  - apply Qmult_le_0_compat; lra.
  - setoid_replace 1 with (p * / p) by (field; lra).
    apply Qmult_le_compat_r; lra.
Qed.

Lemma rnd53_unit (q : Q) :
  0 <= q -> q <= 1 -> 0 <= Float64.rnd53 q /\ Float64.rnd53 q <= 1.
Proof.
  intros H0 H1. unfold Float64.rnd53.
  destruct q as [n d]. cbn [Qnum]. destruct n as [|n|n].
  - split; lra.
  - apply rnd53_pos_unit; [reflexivity|exact H1].
  - exfalso. unfold Qle in H0. cbn in H0. lia.
Qed.

Lemma py_round3_unit (x : Q) :
  0 <= x -> x <= 1 ->
  0 <= Float64.py_round3 x /\ Float64.py_round3 x <= 1.
Proof.
  intros H0 H1. unfold Float64.py_round3.
  assert (Hk0 : (0 <= Float64.round_half_even (x * 1000))%Z).
  { apply round_half_even_nonneg. lra. }
  assert (Hk1 : (Float64.round_half_even (x * 1000) <= 1000)%Z).
  { apply round_half_even_le. change (inject_Z 1000) with 1000. lra. }
  set (k := Float64.round_half_even (x * 1000)) in *.
  apply rnd53_unit.
  - apply Qle_shift_div_l; [reflexivity|].
    rewrite Qmult_0_l. change 0 with (inject_Z 0). rewrite <- Zle_Qle. exact Hk0.
  - apply Qle_shift_div_r; [reflexivity|].
    rewrite Qmult_1_l. change 1000 with (inject_Z 1000).
    rewrite <- Zle_Qle. exact Hk1.
Qed.

Lemma rate_unit (count total : Z) :
  (0 <= count <= total)%Z -> (0 < total)%Z ->
  0 <= rate count total /\ rate count total <= 1.
Proof.
  intros [Hc0 Hc1] Ht. unfold rate, Float64.div.
  assert (Hq : 0 < inject_Z total).
  { change 0 with (inject_Z 0). rewrite <- Zlt_Qlt. exact Ht. }
  apply rnd53_unit.
  - apply Qle_shift_div_l; [exact Hq|].
    rewrite Qmult_0_l. change 0 with (inject_Z 0). rewrite <- Zle_Qle. exact Hc0.
  - apply Qle_shift_div_r; [exact Hq|].
    rewrite Qmult_1_l. rewrite <- Zle_Qle. exact Hc1.
Qed.

End RoundingBounds.

(* ===================================================================== *)
(** * Running a method: inversion of the monad *)
(* ===================================================================== *)

Section Running.

Context {S A B : Type}.

Lemma bind_normal (c : M S A) (k : A -> M S B) (s s' : S) (b : B) :
  bind c k s = (s', Normal b) ->
  exists s1 a, c s = (s1, Normal a) /\ k a s1 = (s', Normal b).
Proof.
  unfold bind. destruct (c s) as [s1 [a|e]]; intro H.
  - exists s1, a. split; [reflexivity|exact H].
  - discriminate H.
Qed.

Lemma bind_raises (c : M S A) (k : A -> M S B) (s : S) :
  raises (snd (c s)) = true -> raises (snd (bind c k s)) = true.
Proof.
  unfold bind. destruct (c s) as [s1 [a|e]]; cbn; [discriminate|reflexivity].
Qed.

Lemma lift_normal (r : result A) (s s' : S) (a : A) :
  lift r s = (s', Normal a) -> s' = s /\ r = Normal a.
Proof. unfold lift. intro H. inversion H. split; reflexivity. Qed.

Lemma ret_normal (a a' : A) (s s' : S) :
  ret a s = (s', Normal a') -> s' = s /\ a' = a.
Proof. unfold ret. intro H. inversion H. split; reflexivity. Qed.

Lemma rbind_normal (r : result A) (k : A -> result B) (b : B) :
  rbind r k = Normal b -> exists a, r = Normal a /\ k a = Normal b.
Proof.
  destruct r as [a|e]; cbn; intro H; [|discriminate H].
  exists a. split; [reflexivity|exact H].
Qed.

End Running.

(** Peel the binds of a successful run, one at a time. *)
Ltac run_step H :=
  match type of H with
  | bind _ _ _ = (_, Normal _) =>
      let s1 := fresh "st" in
      let a := fresh "v" in
      let H1 := fresh "Run" in
      apply bind_normal in H; destruct H as (s1 & a & H1 & H)
  | rbind _ _ = Normal _ =>
      let a := fresh "v" in
      let H1 := fresh "Run" in
      apply rbind_normal in H; destruct H as (a & H1 & H)
  end.

(** Peel them all, and read the state through the setters. *)
Ltac run_all :=
  repeat match goal with
         | H : bind _ _ _ = (_, Normal _) |- _ =>
             apply bind_normal in H; destruct H as (? & ? & ? & H)
         | H : lift _ _ = (_, Normal _) |- _ =>
             apply lift_normal in H; destruct H as [? H]; subst
         | H : ret _ _ = (_, Normal _) |- _ =>
             apply ret_normal in H; destruct H; subst
         | H : get_self _ = (_, Normal _) |- _ =>
             inversion H; subst; clear H
         | H : set_self _ _ = (_, Normal _) |- _ =>
             inversion H; subst; clear H
         | H : set_scaler _ _ = (_, Normal _) |- _ =>
             inversion H; subst; clear H
         | H : set_anomaly_detector _ _ = (_, Normal _) |- _ =>
             inversion H; subst; clear H
         | H : set_risk_classifier _ _ = (_, Normal _) |- _ =>
             inversion H; subst; clear H
         end.

Ltac lifted H :=
  apply lift_normal in H; destruct H as [? H]; subst.
(* ===================================================================== *)
(** * Sorting by score *)
(* ===================================================================== *)

Section SortingByScore.

Context {A : Type} (key : A -> Q).

Local Abbreviation by_key := (by_key key).

Lemma insert_by_HdRel (a x : A) (l : list A) :
  HdRel by_key a l -> by_key a x -> HdRel by_key a (insert_by key x l).
Proof.
  intros Hl Hx. destruct l as [|y tl]; cbn.
  - constructor. exact Hx.
  - destruct (Float64.ltb (key y) (key x)); constructor.
    + inversion Hl; assumption.
    + exact Hx.
Qed.

Lemma insert_by_Sorted (x : A) (l : list A) :
  Sorted by_key l -> Sorted by_key (insert_by key x l).
Proof.
  induction 1 as [|y tl Htl IH Hhd]; cbn.
  - repeat constructor.
  - destruct (Float64.ltb (key y) (key x)) eqn:E.
    + constructor; [exact IH|].
      apply insert_by_HdRel; [exact Hhd|].
      apply ltb_lt in E. apply Qlt_le_weak. exact E.
    + apply ltb_not_lt in E.
      constructor; [constructor; assumption|constructor; exact E].
Qed.

Lemma sorted_Sorted (l : list A) : Sorted by_key (sorted key l).
Proof.
  induction l as [|x tl IH]; cbn; [constructor|].
  apply insert_by_Sorted. exact IH.
Qed.

Lemma insert_by_Permutation (x : A) (l : list A) :
  Permutation (x :: l) (insert_by key x l).
Proof.
  induction l as [|y tl IH]; cbn; [reflexivity|].
  destruct (Float64.ltb (key y) (key x)); [|reflexivity].
  rewrite perm_swap. constructor. exact IH.
Qed.

Lemma sorted_Permutation (l : list A) : Permutation l (sorted key l).
Proof.
  induction l as [|x tl IH]; cbn; [constructor|].
  rewrite <- insert_by_Permutation. constructor. exact IH.
Qed.

Lemma by_key_trans : Relations_1.Transitive by_key.
Proof. intros a b c H1 H2. unfold by_key in *. eapply Qle_trans; eassumption. Qed.

Lemma In_firstn (n : nat) (l : list A) (y : A) :
  In y (firstn n l) -> In y l.
Proof.
  intro H. rewrite <- (firstn_skipn n l). apply in_or_app. left. exact H.
Qed.

Lemma StronglySorted_firstn (n : nat) (l : list A) :
  StronglySorted by_key l -> StronglySorted by_key (firstn n l).
Proof.
  intro H. revert n. induction H as [|x tl Htl IH Hall]; intro n.
  - rewrite firstn_nil. constructor.
  - destruct n as [|n]; cbn; constructor.
    + apply IH.
    + apply Forall_forall. intros y Hy.
      rewrite Forall_forall in Hall. apply Hall.
      apply (In_firstn n tl y Hy).
Qed.

(** The ten first of the sorted list: at most ten, in ascending order. *)
Lemma top10_sorted (l : list A) :
  (List.length (firstn 10 (sorted key l)) <= 10)%nat /\
  StronglySorted by_key (firstn 10 (sorted key l)).
Proof.
  split.
  - apply firstn_le_length.
  - apply StronglySorted_firstn. apply Sorted_StronglySorted.
    + exact by_key_trans.
    + apply sorted_Sorted.
Qed.

End SortingByScore.

(* ===================================================================== *)
(** * The detections, step by step *)
(* ===================================================================== *)

Section Steps.

Context (W : World).

Open Scope string_scope.
Open Scope Z_scope.

Lemma filter_map_length {A B} (f : A -> B) (p : B -> bool) (l : list A) :
  len (filter p (map f l)) = len (filter (fun a => p (f a)) l).
Proof.
  unfold len. f_equal.
  induction l as [|a tl IH]; cbn; [reflexivity|].
  destruct (p (f a)); cbn; rewrite IH; reflexivity.
Qed.

(** From ten records on, pattern detection returns exactly when every
    step of its computation returns, with the report of that
    computation and the refitted scaler in the engine. *)
Lemma detect_adverse_event_patterns_steps (events : list EventRecord)
    (st st' : Engine) (r : PatternResult (Aggregates W)) :
  10 <= len events ->
  detect_adverse_event_patterns W events st = (st', Normal r) <->
  patterns_computed W events st st' r.
Proof.
  intro Hsize. unfold detect_adverse_event_patterns.
  destruct (len events <? 10) eqn:E; [apply Z.ltb_lt in E; lia|].
  unfold patterns_computed. split.
  - intro H. unfold fit_transform in H. run_all.
    do 5 eexists. repeat (split; [eassumption|]).
    split; reflexivity.
  - intros (features & fs & X & clusters & patterns
            & Hf & Hfit & HX & Hc & Hp & -> & ->).
    cbv zeta. unfold fit_transform.
    cbv beta iota delta [bind lift ret set_scaler].
    rewrite Hf. cbv beta iota. rewrite Hfit. cbv beta iota.
    rewrite HX. cbv beta iota. rewrite Hc. cbv beta iota.
    rewrite Hp. reflexivity.
Qed.

(** From five records on, signal detection returns exactly when the
    four columns are there and the dates are read, with the report of
    the rates. *)
Lemma detect_safety_signals_steps (medicine_id : string)
    (events : list EventRecord) (r : SignalResult) :
  5 <= len events ->
  detect_safety_signals W medicine_id events = Normal r <->
  signals_computed W medicine_id events r.
Proof.
  intro Hsize. unfold detect_safety_signals.
  destruct (len events <? 5) eqn:E; [apply Z.ltb_lt in E; lia|].
  unfold signals_computed, column. cbn [rows DataFrame_of].
  assert (Hn : forall (b : bool) (x y : SignalResult),
             (if b then Normal x else Normal y) = Normal r <->
             r = if b then x else y).
  { intros [] x y; split; intro Hx;
      solve [injection Hx as <-; reflexivity | subst r; reflexivity]. }
  split.
  - intro H.
    destruct (has_column severity (DataFrame_of events)); [|discriminate H].
    cbn [rbind] in H.
    destruct (has_column required_hospitalization (DataFrame_of events));
      [|discriminate H].
    cbn [rbind] in H.
    destruct (has_column outcome (DataFrame_of events)); [|discriminate H].
    cbn [rbind] in H.
    destruct (has_column event_date (DataFrame_of events));
      [|discriminate H].
    cbn [rbind] in H.
    apply rbind_normal in H. destruct H as (times & Htimes & H).
    exists times. repeat (split; [reflexivity|]).
    split; [exact Htimes|].
    cbv zeta. unfold share, recent_of.
    rewrite !(filter_map_length severity isin_severe) in H.
    rewrite (filter_map_length required_hospitalization is_true) in H.
    rewrite (filter_map_length outcome is_death) in H.
    apply Hn. exact H.
  - intros (times & -> & -> & -> & -> & Htimes & Hr).
    cbn [rbind]. rewrite Htimes. cbn [rbind].
    cbv zeta in Hr. unfold share, recent_of in Hr.
    rewrite !(filter_map_length severity isin_severe).
    rewrite (filter_map_length required_hospitalization is_true).
    rewrite (filter_map_length outcome is_death).
    apply Hn. exact Hr.
Qed.

(** From twenty records on, anomaly detection returns exactly when
    every step of its computation returns, with the report of that
    computation and the refitted scaler and detector in the engine. *)
Lemma detect_anomalies_steps (events : list EventRecord)
    (st st' : Engine) (r : AnomalyResult) :
  20 <= len events ->
  detect_anomalies W events st = (st', Normal r) <->
  anomalies_computed W events st st' r.
Proof.
  intro Hsize. unfold detect_anomalies.
  destruct (len events <? 20) eqn:E; [apply Z.ltb_lt in E; lia|].
  unfold anomalies_computed. split.
  - intro H. unfold fit_transform, fit_predict in H. run_all.
    cbn [anomaly_detector scaler risk_classifier] in *.
    match goal with
    | Hp : iforest_predict (Some ?m) ?X = Normal ?p,
      Hs : score_samples (Some ?m) ?X = Normal ?s |- _ =>
        unfold iforest_predict in Hp; rewrite Hs in Hp;
        cbn [rbind] in Hp; injection Hp as <-
    end.
    do 6 eexists. repeat (split; [eassumption|]).
    split; reflexivity.
  - intros (features & fs & X & m & scores & all
            & Hf & Hfit & HX & Hm & Hs & Hall & -> & ->).
    cbv zeta. unfold fit_transform, fit_predict.
    cbv beta iota delta [bind lift ret get_self set_scaler
                         set_anomaly_detector].
    rewrite Hf. cbv beta iota. rewrite Hfit. cbv beta iota.
    rewrite HX. cbv beta iota. rewrite Hm. cbv beta iota.
    cbn [anomaly_detector scaler risk_classifier].
    unfold iforest_predict. rewrite Hs. cbn [rbind]. cbv beta iota.
    rewrite Hall. reflexivity.
Qed.

End Steps.

(* ===================================================================== *)
(** * Anomaly detection *)
(* ===================================================================== *)

Section AnomalyDetection.

Context (W : World).

Open Scope string_scope.
Open Scope Z_scope.

Lemma map_fst_combine_same_length {A B} (l : list A) (l' : list B) :
  List.length l = List.length l' -> map fst (combine l l') = l.
Proof.
  revert l'. induction l as [|x tl IH]; intros [|y tl'] H; cbn in *;
    try reflexivity; try discriminate.
  f_equal. apply IH. lia.
Qed.

(** The detector predicts and scores every sample of the batch. *)
Lemma predictions_match_scores (m : IsolationForest) (X : matrix)
    (predictions : list Z) (scores : list Q) :
  iforest_predict m X = Normal predictions ->
  score_samples m X = Normal scores ->
  List.length predictions = List.length scores.
Proof.
  unfold iforest_predict. destruct m as [f|]; [|discriminate].
  intros Hp Hs. rewrite Hs in Hp. cbn in Hp. inversion Hp.
  apply length_map.
Qed.

(** Every flagged position is a position of the batch, and one report
    is made per prediction of -1. *)
Lemma flagged_length (events : list EventRecord) (df : DataFrame)
    (scored : list (Z * Q)) :
  forall (idx : nat) (all : list AnomalyReport),
    flagged events df idx scored = Normal all ->
    len all = count_of (-1) (map fst scored) /\
    (List.length all <= List.length events - idx)%nat.
Proof.
  unfold len, count_of, len.
  induction scored as [|[prediction score] tl IH]; intros idx all H.
  - cbn in H. inversion H. cbn. split; lia.
  - cbn [flagged] in H. cbn [map fst filter].
    destruct (prediction =? -1) eqn:E.
    + apply Z.eqb_eq in E. subst prediction. cbn [Z.eqb Pos.eqb].
      apply rbind_normal in H. destruct H as (event & Hev & H).
      apply rbind_normal in H. destruct H as (why & _ & H).
      apply rbind_normal in H. destruct H as (rest & Hrest & H).
      inversion H; subst all.
      destruct (IH _ _ Hrest) as [IH1 IH2].
      unfold index in Hev. destruct (nth_error events idx) eqn:En;
        [|discriminate].
      assert (idx < List.length events)%nat.
      { apply nth_error_Some. congruence. }
      cbn [List.length]. split; lia.
    + rewrite Z.eqb_sym, E.
      destruct (IH _ _ H) as [IH1 IH2]. split; lia.
Qed.

(** A successful run on a full batch, step by step: the features are
    encoded, the shared scaler and the detector are refitted on them,
    every record is predicted and scored, and the flagged records are
    reported. *)
Lemma detect_anomalies_run (events : list EventRecord) (st st' : Engine)
    (r : AnomalyResult) :
  20 <= len events ->
  detect_anomalies W events st = (st', Normal r) ->
  exists features X predictions scores all,
    _extract_event_features W (DataFrame_of events) = Normal features /\
    scaler_transform (scaler st') features = Normal X /\
    iforest_predict (anomaly_detector st') X = Normal predictions /\
    score_samples (anomaly_detector st') X = Normal scores /\
    flagged events (DataFrame_of events) 0 (combine predictions scores)
      = Normal all /\
    r = AnomalySummary (len events) (len all)
          (Float64.py_round3 (rate (len all) (len events)))
          (firstn 10 (sorted anomaly_score all)) (now W).
Proof.
  intros Hsize H. unfold detect_anomalies in H.
  destruct (len events <? 20) eqn:E; [apply Z.ltb_lt in E; lia|].
  unfold fit_transform, fit_predict in H. run_all.
  cbn [scaler anomaly_detector].
  do 5 eexists. repeat split; eassumption.
Qed.

(** C7.  On a batch of at least 20 records from which anomaly detection
    returns, the returned list of anomalies has at most 10 entries and
    is in ascending order of anomaly score, the most anomalous first. *)
Theorem anomalies_at_most_ten_ascending (events : list EventRecord)
    (st st' : Engine) (r : AnomalyResult) :
  20 <= len events ->
  detect_anomalies W events st = (st', Normal r) ->
  exists total detected anomaly_rate anomalies timestamp,
    r = AnomalySummary total detected anomaly_rate anomalies timestamp /\
    (List.length anomalies <= 10)%nat /\
    StronglySorted (by_key anomaly_score) anomalies.
Proof.
  intros Hsize H.
  destruct (detect_anomalies_run events st st' r Hsize H)
    as (features & X & predictions & scores & all & _ & _ & _ & _ & _ & ->).
  do 5 eexists. split; [reflexivity|].
  apply top10_sorted.
Qed.

(** C10, as amended.  On a batch of at least 20 records from which
    anomaly detection returns, [anomalies_detected] is the number of
    records that the refitted detector predicts as outliers, counted
    before the list is cut to ten, so that the list holds the smaller of
    that number and ten; [total_events] is the size of the batch; and
    [anomaly_rate] is their quotient rounded to three decimal places, a
    value in [0,1]. *)
Theorem anomaly_count_and_rounded_rate (events : list EventRecord)
    (st st' : Engine) (total detected : Z) (anomaly_rate : Q)
    (anomalies : list AnomalyReport) (timestamp : Z) :
  20 <= len events ->
  detect_anomalies W events st
  = (st', Normal (AnomalySummary total detected anomaly_rate anomalies
                    timestamp)) ->
  (exists features X predictions,
      _extract_event_features W (DataFrame_of events) = Normal features /\
      scaler_transform (scaler st') features = Normal X /\
      iforest_predict (anomaly_detector st') X = Normal predictions /\
      detected = count_of (-1) predictions) /\
  total = len events /\
  len anomalies = Z.min detected 10 /\
  anomaly_rate
  = Float64.py_round3 (Float64.div (inject_Z detected) (inject_Z total)) /\
  (0 <= anomaly_rate)%Q /\ (anomaly_rate <= 1)%Q.
Proof.
  intros Hsize H.
  destruct (detect_anomalies_run events st st' _ Hsize H)
    as (features & X & predictions & scores & all
        & Hf & HX & Hp & Hs & Hall & Hr).
  remember (firstn 10 (sorted anomaly_score all)) as top eqn:Htop.
  injection Hr as -> -> -> -> ->. subst top.
  destruct (flagged_length _ _ _ _ _ Hall) as [Hcount Hbound].
  rewrite (map_fst_combine_same_length predictions scores
             (predictions_match_scores _ _ _ _ Hp Hs)) in Hcount.
  split; [exists features, X, predictions; repeat split; assumption|].
  split; [reflexivity|].
  split.
  { unfold len. rewrite length_firstn.
    rewrite <- (Permutation_length (sorted_Permutation anomaly_score all)).
    lia. }
  split; [reflexivity|].
  apply py_round3_unit; apply rate_unit; unfold len in *; lia.
Qed.

(** C8.  Below its minimum batch size (10 records for patterns, 5 for
    signals, 20 for anomalies) each detection returns its explicit
    insufficient-data value, with an empty list where it has one,
    raises nothing and leaves the engine as it was.  From the minimum
    size on it goes on to the computation: it returns exactly when
    every step of the computation returns, its result is then the
    report of that computation, with the models that the computation
    fitted left in the engine, and never the insufficient-data
    value. *)
Theorem insufficient_data_is_a_value (events : list EventRecord)
    (medicine_id : string) (st : Engine) :
  (len events < 10 ->
   detect_adverse_event_patterns W events st
   = (st, Normal (PatternsInsufficient []
                    "Insufficient data for pattern detection"))) /\
  (len events < 5 ->
   detect_safety_signals W medicine_id events
   = Normal (SignalInsufficient false
               "Insufficient data for signal detection")) /\
  (len events < 20 ->
   detect_anomalies W events st
   = (st, Normal (AnomaliesInsufficient []
                    "Insufficient data for anomaly detection"))) /\
  (10 <= len events ->
   (forall st' r,
       detect_adverse_event_patterns W events st = (st', Normal r) <->
       patterns_computed W events st st' r) /\
   forall patterns message,
     snd (detect_adverse_event_patterns W events st)
     <> Normal (PatternsInsufficient patterns message)) /\
  (5 <= len events ->
   (forall r,
       detect_safety_signals W medicine_id events = Normal r <->
       signals_computed W medicine_id events r) /\
   forall flag message,
     detect_safety_signals W medicine_id events
     <> Normal (SignalInsufficient flag message)) /\
  (20 <= len events ->
   (forall st' r,
       detect_anomalies W events st = (st', Normal r) <->
       anomalies_computed W events st st' r) /\
   forall anomalies message,
     snd (detect_anomalies W events st)
     <> Normal (AnomaliesInsufficient anomalies message)).
Proof.
  split; [|split; [|split; [|split; [|split]]]].
  - intro H. unfold detect_adverse_event_patterns.
    apply Z.ltb_lt in H. rewrite H. reflexivity.
  - intro H. unfold detect_safety_signals.
    apply Z.ltb_lt in H. rewrite H. reflexivity.
  - intro H. unfold detect_anomalies.
    apply Z.ltb_lt in H. rewrite H. reflexivity.
  - intro H. split.
    + intros st' r. apply detect_adverse_event_patterns_steps. exact H.
    + intros patterns message Hr.
      destruct (detect_adverse_event_patterns W events st) as [st' r]
        eqn:Run.
      cbn in Hr. subst r.
      apply (detect_adverse_event_patterns_steps W events st st' _ H)
        in Run.
      destruct Run as (? & ? & ? & ? & ? & _ & _ & _ & _ & _ & _ & Hshape).
      discriminate Hshape.
  - intro H. split.
    + intro r. apply detect_safety_signals_steps. exact H.
    + intros flag message Hr.
      apply (detect_safety_signals_steps W medicine_id events _ H) in Hr.
      destruct Hr as (times & _ & _ & _ & _ & _ & Hshape).
      cbv zeta in Hshape.
      match type of Hshape with
      | _ = (if ?b then _ else _) => destruct b; discriminate Hshape
      end.
  - intro H. split.
    + intros st' r. apply detect_anomalies_steps. exact H.
    + intros anomalies message Hr.
      destruct (detect_anomalies W events st) as [st' r] eqn:Run.
      cbn in Hr. subst r.
      apply (detect_anomalies_steps W events st st' _ H) in Run.
      destruct Run
        as (? & ? & ? & ? & ? & ? & _ & _ & _ & _ & _ & _ & _ & Hshape).
      discriminate Hshape.
Qed.

End AnomalyDetection.

Lemma anomalies_at_most_ten_ascending_witness :
  exists st' r,
    detect_anomalies Sample.world Sample.crowd Sample.fresh_engine
    = (st', Normal r) /\
    exists total detected anomaly_rate anomalies timestamp,
      r = AnomalySummary total detected anomaly_rate anomalies timestamp /\
      (List.length anomalies <= 10)%nat /\
      StronglySorted (by_key anomaly_score) anomalies.
Proof.
  destruct (detect_anomalies Sample.world Sample.crowd Sample.fresh_engine)
    as [st' [r|e]] eqn:Run.
  - exists st', r. split; [reflexivity|].
    apply (anomalies_at_most_ten_ascending Sample.world Sample.crowd
             Sample.fresh_engine st' r); [|exact Run].
    vm_compute. discriminate.
  - exfalso. apply (f_equal snd) in Run. vm_compute in Run.
    discriminate Run.
Defined.

Lemma anomaly_count_and_rounded_rate_witness :
  exists st' total detected anomaly_rate anomalies timestamp,
    detect_anomalies Sample.world Sample.crowd Sample.fresh_engine
    = (st', Normal (AnomalySummary total detected anomaly_rate anomalies
                      timestamp)) /\
    total = 20 /\ detected = 11 /\
    len anomalies = Z.min detected 10 /\
    anomaly_rate
    = Float64.py_round3 (Float64.div (inject_Z detected) (inject_Z total)) /\
    (0 <= anomaly_rate)%Q /\ (anomaly_rate <= 1)%Q.
Proof.
  destruct (detect_anomalies Sample.world Sample.crowd Sample.fresh_engine)
    as [st' [[l m|total detected anomaly_rate anomalies timestamp]|e]]
    eqn:Run;
    try (exfalso; apply (f_equal snd) in Run; vm_compute in Run;
         discriminate Run).
  exists st', total, detected, anomaly_rate, anomalies, timestamp.
  split; [reflexivity|].
  assert (Hsize : 20 <= len Sample.crowd) by (vm_compute; discriminate).
  destruct (anomaly_count_and_rounded_rate Sample.world Sample.crowd
              Sample.fresh_engine st' total detected anomaly_rate anomalies
              timestamp Hsize Run)
    as (_ & Ht & Hlen & Hrate & H0 & H1).
  assert (Hd : detected = 11).
  { pose proof (f_equal snd Run) as Hrun. vm_compute in Hrun.
    injection Hrun as _ Hd _ _ _. symmetry. exact Hd. }
  assert (Ht' : total = 20) by (rewrite Ht; reflexivity).
  repeat split; assumption.
Defined.

(** The count kept in [anomalies_detected] can exceed the ten reports
    that are returned. *)
Lemma anomalies_detected_can_exceed_the_list :
  match snd (detect_anomalies Sample.world Sample.crowd
               Sample.fresh_engine) with
  | Normal (AnomalySummary _ detected _ anomalies _) =>
      detected = 11 /\ len anomalies = 10
  | _ => False
  end.
Proof. vm_compute. split; reflexivity. Qed.

(** C10, as stated, fails: with one record flagged out of twenty-one
    the reported rate is 0.048, which is neither the quotient 1/21 nor
    the float that Python's division gives for it. *)
Lemma anomaly_rate_is_not_the_quotient :
  match snd (detect_anomalies Sample.world Sample.one_in_21
               Sample.fresh_engine) with
  | Normal (AnomalySummary total detected anomaly_rate _ _) =>
      total = 21 /\ detected = 1 /\
      anomaly_rate = Float64.lit 48 3 /\
      ~ (anomaly_rate == inject_Z detected / inject_Z total)%Q /\
      anomaly_rate <> Float64.div (inject_Z detected) (inject_Z total)
  | _ => False
  end.
Proof.
  vm_compute. repeat split; try reflexivity; intro H; discriminate H.
Qed.

Lemma insufficient_data_witness :
  snd (detect_adverse_event_patterns Sample.world (repeat Sample.mild 9)
         Sample.fresh_engine)
  = Normal (PatternsInsufficient []
              "Insufficient data for pattern detection") /\
  (exists st' r,
      detect_adverse_event_patterns Sample.world (repeat Sample.mild 10)
        Sample.fresh_engine = (st', Normal r) /\
      patterns_computed Sample.world (repeat Sample.mild 10)
        Sample.fresh_engine st' r) /\
  detect_safety_signals Sample.world "M" (repeat Sample.mild 4)
  = Normal (SignalInsufficient false
              "Insufficient data for signal detection") /\
  (exists r,
      detect_safety_signals Sample.world "M" (repeat Sample.mild 5)
      = Normal r /\
      signals_computed Sample.world "M" (repeat Sample.mild 5) r) /\
  snd (detect_anomalies Sample.world (repeat Sample.mild 19)
         Sample.fresh_engine)
  = Normal (AnomaliesInsufficient []
              "Insufficient data for anomaly detection") /\
  (exists st' r,
      detect_anomalies Sample.world (repeat Sample.mild 20)
        Sample.fresh_engine = (st', Normal r) /\
      anomalies_computed Sample.world (repeat Sample.mild 20)
        Sample.fresh_engine st' r).
Proof.
  pose proof (fun events =>
                insufficient_data_is_a_value Sample.world events "M"
                  Sample.fresh_engine) as T.
  split.
  { destruct (T (repeat Sample.mild 9)) as (H & _).
    rewrite H; [reflexivity|vm_compute; reflexivity]. }
  split.
  { destruct (T (repeat Sample.mild 10)) as (_ & _ & _ & H & _).
    destruct H as [H _]; [vm_compute; discriminate|].
    destruct (detect_adverse_event_patterns Sample.world
                (repeat Sample.mild 10) Sample.fresh_engine)
      as [st' [r|e]] eqn:Run.
    - exists st', r. split; [reflexivity|]. apply H. reflexivity.
    - exfalso. apply (f_equal snd) in Run. vm_compute in Run.
      discriminate Run. }
  split.
  { destruct (T (repeat Sample.mild 4)) as (_ & H & _).
    apply H. vm_compute. reflexivity. }
  split.
  { destruct (T (repeat Sample.mild 5)) as (_ & _ & _ & _ & H & _).
    destruct H as [H _]; [vm_compute; discriminate|].
    destruct (detect_safety_signals Sample.world "M"
                (repeat Sample.mild 5)) as [r|e] eqn:Run.
    - exists r. split; [reflexivity|]. apply H. reflexivity.
    - exfalso. vm_compute in Run. discriminate Run. }
  split.
  { destruct (T (repeat Sample.mild 19)) as (_ & _ & H & _).
    rewrite H; [reflexivity|vm_compute; reflexivity]. }
  destruct (T (repeat Sample.mild 20)) as (_ & _ & _ & _ & _ & H).
  destruct H as [H _]; [vm_compute; discriminate|].
  destruct (detect_anomalies Sample.world (repeat Sample.mild 20)
              Sample.fresh_engine) as [st' [r|e]] eqn:Run.
  - exists st', r. split; [reflexivity|]. apply H. reflexivity.
  - exfalso. apply (f_equal snd) in Run. vm_compute in Run.
    discriminate Run.
Defined.

(* ===================================================================== *)
(** * Explaining an anomaly *)
(* ===================================================================== *)

Section Explanations.

Open Scope string_scope.
Open Scope Z_scope.

Lemma has_column_of_member {A} (key : EventRecord -> option A)
    (events : list EventRecord) (event : EventRecord) (a : A) :
  In event events -> key event = Some a ->
  has_column key (DataFrame_of events) = true.
Proof.
  intros Hin Hkey. unfold has_column. cbn [built_from DataFrame_of].
  apply existsb_exists. exists event. split; [exact Hin|].
  rewrite Hkey. reflexivity.
Qed.

(** Apart from the age 0, the explanation is as specified.  For a
    record of the batch whose patient age is absent or other than 0,
    it calls out exactly the conditions that apply among: the age that
    the record carries being more than 20 years away from the mean age
    of the batch; life-threatening severity; fatal outcome; more than 8
    symptoms.  Their texts are joined with "; ", and the explanation is
    "Statistical outlier" when none applies. *)
Lemma explanation_calls_out_what_applies (events : list EventRecord)
    (event : EventRecord) :
  In event events ->
  patient_age event <> Some 0 ->
  _explain_anomaly event (DataFrame_of events)
  = Normal (Explain.explanation
              (Explain.recorded_age_deviates event events) event events).
Proof.
  intros Hin Hage0.
  unfold _explain_anomaly, Explain.explanation,
    Explain.recorded_age_deviates, Explain.severity_life_threatening,
    Explain.outcome_fatal, Explain.many_symptoms, Explain.symptoms_text,
    Explain.symptom_count, Explain.age_text, Explain.called_out,
    Explain.mean_age.
  destruct (patient_age event) as [age|] eqn:Hage.
  - unfold column.
    rewrite (has_column_of_member patient_age events event age Hin Hage).
    cbn [rows DataFrame_of dict_get].
    destruct (age =? 0) eqn:E0;
      [apply Z.eqb_eq in E0; subst age; congruence|].
    cbv beta iota zeta. cbn [rbind].
    destruct (far_from age (mean (map patient_age events)));
      cbn [rbind];
      destruct (String.eqb _ "life_threatening");
      destruct (is_death (outcome event));
      destruct (len (dict_get (symptoms event) []) >? 8);
      reflexivity.
  - cbn [rbind].
    destruct (String.eqb _ "life_threatening");
      destruct (is_death (outcome event));
      destruct (len (dict_get (symptoms event) []) >? 8);
      reflexivity.
Qed.

(** What the guard on the age does to a record of age 0: the age is
    never called out. *)
Lemma age_zero_is_never_called_out (events : list EventRecord)
    (event : EventRecord) :
  patient_age event = Some 0 ->
  _explain_anomaly event (DataFrame_of events)
  = Normal (Explain.explanation false event events).
Proof.
  intro Hage.
  unfold _explain_anomaly, Explain.explanation,
    Explain.severity_life_threatening, Explain.outcome_fatal,
    Explain.many_symptoms, Explain.symptoms_text, Explain.symptom_count,
    Explain.called_out.
  rewrite Hage. cbn [Z.eqb rbind].
  destruct (String.eqb _ "life_threatening");
    destruct (is_death (outcome event));
    destruct (len (dict_get (symptoms event) []) >? 8);
    reflexivity.
Qed.

End Explanations.

(** The adult among newborns is told apart by age. *)
Lemma adult_among_newborns_is_told_apart :
  _explain_anomaly Sample.adult
    (DataFrame_of [Sample.newborn; Sample.newborn; Sample.adult])
  = Normal "Unusual age (50 vs avg 17)"%string.
Proof. vm_compute. reflexivity. Qed.

(** C9.  A newborn with a life-threatening event, among twenty adults
    of 50, is flagged by anomaly detection.  Its age is more than 20
    years below the mean age of the batch, so that the explanation
    should be "Unusual age (0 vs avg 48); Life-threatening severity".
    The report says "Life-threatening severity" alone: the guard
    [if event.get('patient_age')] takes the age 0 for a missing age,
    where the encoders of the age group and the rule-based score take
    it for an age. *)
Theorem flagged_newborn_is_explained_without_its_age :
  let events := Sample.critical_newborn :: repeat Sample.adult 20 in
  Explain.age_deviates Sample.critical_newborn events = true /\
  Explain.explanation true Sample.critical_newborn events
  = "Unusual age (0 vs avg 48); Life-threatening severity"%string /\
  snd (detect_anomalies Sample.world events Sample.fresh_engine)
  = Normal (AnomalySummary 21 1 (Float64.lit 48 3)
              [{| report_event_id := Some "E"%string;
                  report_medicine_name := Some "Amoxicillin"%string;
                  report_severity := Some "life_threatening"%string;
                  anomaly_score := (- 4 # 8)%Q;
                  reason := "Life-threatening severity"%string |}]
              (now Sample.world)).
Proof.
  cbv zeta. split; [vm_compute; reflexivity|].
  split; vm_compute; reflexivity.
Qed.

(* ===================================================================== *)
(** * Loading, training and persisting the models *)
(* ===================================================================== *)

Section Lifecycle.

Open Scope string_scope.
Open Scope Z_scope.

Lemma on_engine_normal {A} (c : M Engine A) (s s' : State) (a : A) :
  on_engine c s = (s', Normal a) ->
  exists e', c (engine s) = (e', Normal a) /\
             s' = {| engine := e'; disk := disk s |}.
Proof.
  unfold on_engine. destruct (c (engine s)) as [e' r]. intro H.
  injection H as <- ->. exists e'. split; reflexivity.
Qed.

Lemma joblib_dump_normal (path : string) (store : Disk -> Disk)
    (s s' : State) (u : unit) :
  joblib_dump path store s = (s', Normal u) ->
  write_fault (disk s) path = None /\
  s' = {| engine := engine s; disk := store (disk s) |}.
Proof.
  unfold joblib_dump, bind, get_self.
  destruct (write_fault (disk s) path) as [e|]; cbn; intro H.
  - discriminate H.
  - injection H as <- _. split; reflexivity.
Qed.

(** The constructor, file by file. *)
Lemma new_engine_cases (d : Disk) :
  new_engine d =
  match first_load_fault d with
  | Some FileNotFoundError => Normal untrained_engine
  | Some e => Raise e
  | None =>
      match anomaly_detector_pkl d, risk_classifier_pkl d, scaler_pkl d with
      | Stored a, Stored c, Stored s =>
          Normal {| anomaly_detector := a; risk_classifier := c;
                    scaler := s |}
      | _, _, _ => Normal untrained_engine
      end
  end.
Proof.
  unfold new_engine, first_load_fault, load_models, try_except_only, bind,
    get_self, lift, on_engine, initialize_models, set_anomaly_detector,
    set_risk_classifier, set_scaler, joblib_load, untrained_engine.
  cbn [disk engine].
  destruct (anomaly_detector_pkl d) as [a|e1];
    [destruct (risk_classifier_pkl d) as [c|e2];
       [destruct (scaler_pkl d) as [s|e3]|]|];
    cbn; try reflexivity;
    match goal with e : exn |- _ => destruct e; reflexivity end.
Qed.


(** The labels are those of the records, one by one. *)
Lemma risk_labels_of_records (data : list EventRecord) :
  risk_labels (map severity data) (map required_hospitalization data)
  = map (fun r => Z.b2z (high_risk r)) data.
Proof.
  unfold risk_labels, high_risk.
  induction data as [|r tl IH]; cbn; [reflexivity|].
  f_equal. exact IH.
Qed.

Lemma rmap_length {A B} (f : A -> result B) (l : list A) (ys : list B) :
  rmap f l = Normal ys -> List.length ys = List.length l.
Proof.
  revert ys. induction l as [|x tl IH]; cbn; intros ys H.
  - injection H as <-. reflexivity.
  - apply rbind_normal in H. destruct H as (y & _ & H).
    apply rbind_normal in H. destruct H as (ys' & Htl & H).
    injection H as <-. cbn. f_equal. apply IH. exact Htl.
Qed.

Lemma rmap_Forall {A B} (P : B -> Prop) (f : A -> result B) (l : list A)
    (ys : list B) :
  (forall x y, f x = Normal y -> P y) ->
  rmap f l = Normal ys -> Forall P ys.
Proof.
  intro HP. revert ys. induction l as [|x tl IH]; cbn; intros ys H.
  - injection H as <-. constructor.
  - apply rbind_normal in H. destruct H as (y & Hy & H).
    apply rbind_normal in H. destruct H as (ys' & Htl & H).
    injection H as <-. constructor; [eapply HP; eassumption|].
    apply IH. exact Htl.
Qed.

Lemma has_width_Forall (n : nat) (X : matrix) :
  Forall (fun r => List.length r = n) X -> has_width n X = true.
Proof.
  unfold has_width. intro H. apply forallb_forall. intros r Hr.
  rewrite Forall_forall in H. apply Nat.eqb_eq. apply H. exact Hr.
Qed.

Lemma width_of_Forall (n : nat) (X : matrix) :
  X <> [] -> Forall (fun r => List.length r = n) X -> width X = n.
Proof.
  destruct X as [|r tl]; [congruence|]. intros _ H.
  inversion H; subst. reflexivity.
Qed.

Lemma scale_row_length (fs : list (num -> num)) (r : list num) :
  List.length (scale_row fs r)
  = Nat.min (List.length fs) (List.length r).
Proof. unfold scale_row. rewrite length_map. apply length_combine. Qed.

Section Training.

Context (W : World).

(** Every pattern feature vector has seven entries. *)
Lemma feature_vector_length (df : DataFrame) (row : EventRecord)
    (v : list num) :
  feature_vector W df row = Normal v -> List.length v = 7%nat.
Proof.
  unfold feature_vector. intro H.
  do 4 (apply rbind_normal in H; destruct H as (? & _ & H)).
  injection H as <-. reflexivity.
Qed.

(** A successful training, step by step: both estimators and the
    scaler are fitted on seven features, the classifier has seen the
    labels of the records, and no write to the disk met a fault. *)
Lemma train_models_run (data : list EventRecord) (s s' : State)
    (summary : TrainingSummary) :
  train_models W data s = (s', Normal summary) ->
  exists fs m f,
    engine s' = {| anomaly_detector := Some m;
                   risk_classifier := Some f;
                   scaler := Some fs |} /\
    List.length fs = 7%nat /\
    rf_n_features f = 7%nat /\
    classes_ f = np_unique (map (fun r => Z.b2z (high_risk r)) data) /\
    (forall path,
        In path ["models/anomaly_detector.pkl";
                 "models/risk_classifier.pkl"; "models/scaler.pkl"] ->
        write_fault (disk s) path = None).
Proof.
  unfold train_models. intro H.
  repeat first
    [ progress run_all
    | progress unfold fit_transform in *
    | match goal with
      | H : on_engine _ _ = (_, Normal _) |- _ =>
          apply on_engine_normal in H; destruct H as (? & H & ->)
      | H : joblib_dump _ _ _ = (_, Normal _) |- _ =>
          apply joblib_dump_normal in H; destruct H as (? & ->)
      end ].
  cbn [engine disk anomaly_detector risk_classifier scaler
       store_anomaly_detector store_risk_classifier store_scaler
       write_fault] in *.
  match goal with H : _extract_event_features _ _ = Normal ?x |- _ =>
    rename H into HX; rename x into X end.
  match goal with H : column severity _ = Normal ?x |- _ =>
    rename H into Hsev; rename x into sev end.
  match goal with H : column required_hospitalization _ = Normal ?x |- _ =>
    rename H into Hhosp; rename x into hosp end.
  match goal with H : scaler_fit _ _ = Normal ?x |- _ =>
    rename H into Hfit; rename x into fs end.
  match goal with H : scaler_transform _ _ = Normal ?x |- _ =>
    rename H into HXn; rename x into Xn end.
  match goal with H : iforest_fit _ _ = Normal ?x |- _ =>
    rename H into Hm; rename x into m end.
  match goal with H : rf_fit _ _ _ = Normal ?x |- _ =>
    rename H into Hf; rename x into f end.
  (* the shape of the features *)
  unfold column in Hsev, Hhosp.
  destruct (has_column severity (DataFrame_of data)) eqn:Hcol;
    [|discriminate].
  destruct (has_column required_hospitalization (DataFrame_of data));
    [|discriminate].
  injection Hsev as <-. injection Hhosp as <-.
  cbn [rows DataFrame_of] in *.
  assert (Hne : data <> []).
  { intro E. subst data. discriminate Hcol. }
  unfold _extract_event_features in HX. cbn [rows DataFrame_of] in HX.
  pose proof (rmap_length _ _ _ HX) as HlenX.
  pose proof (rmap_Forall (fun v => List.length v = 7%nat) _ _ _
                (feature_vector_length (DataFrame_of data)) HX) as HwX.
  assert (HneX : X <> []).
  { intro E. subst X. destruct data; [congruence|discriminate]. }
  assert (Hfs : List.length fs = 7%nat).
  { unfold scaler_fit in Hfit. destruct X as [|r0 X0]; [congruence|].
    injection Hfit as <-. rewrite length_map, length_seq.
    apply (width_of_Forall 7 (r0 :: X0)); assumption. }
  assert (HXn' : Xn = map (scale_row fs) X).
  { unfold scaler_transform in HXn. destruct (has_width _ _);
      [injection HXn as <-; reflexivity|discriminate]. }
  assert (HwXn : Forall (fun r => List.length r = 7%nat) Xn).
  { subst Xn. apply Forall_map. eapply Forall_impl; [|exact HwX].
    cbn. intros r Hr. rewrite scale_row_length, Hfs, Hr. reflexivity. }
  assert (HneXn : Xn <> []).
  { subst Xn. destruct X; [congruence|discriminate]. }
  unfold rf_fit in Hf. destruct Xn as [|r0 Xn0] eqn:EXn; [congruence|].
  destruct (rf_fit_fault _ _ _); [discriminate|].
  injection Hf as <-. cbn [rf_n_features classes_].
  exists fs, m.
  eexists. split; [reflexivity|]. cbn [rf_n_features classes_].
  split; [exact Hfs|].
  split; [apply (width_of_Forall 7 (r0 :: Xn0)); assumption|].
  split; [rewrite risk_labels_of_records; reflexivity|].
  intros path [<-|[<-|[<-|[]]]]; assumption.
Qed.


(** C4, as amended.  When the first artifact that fails to load is
    absent ([FileNotFoundError]), the engine is built with fresh,
    untrained models; any other load failure (a corrupt or unreadable
    artifact) leaves the constructor with the exception it raised; and
    a [train] during which a write to the disk fails does not return:
    it raises. *)
Theorem load_recovers_from_absence_and_train_surfaces_write_faults :
  (forall d,
      first_load_fault d = Some FileNotFoundError ->
      new_engine d = Normal untrained_engine) /\
  (forall d e,
      first_load_fault d = Some e -> e <> FileNotFoundError ->
      new_engine d = Raise e) /\
  (forall data s path e,
      In path ["models/anomaly_detector.pkl"; "models/risk_classifier.pkl";
               "models/scaler.pkl"] ->
      write_fault (disk s) path = Some e ->
      raises (snd (train_models W data s)) = true).
Proof.
  split; [|split].
  - intros d H. rewrite new_engine_cases, H. reflexivity.
  - intros d e H He. rewrite new_engine_cases, H.
    destruct e; try reflexivity. congruence.
  - intros data s path e Hpath Hfault.
    destruct (train_models W data s) as [s' [summary|err]] eqn:Run;
      [|reflexivity].
    destruct (train_models_run data s s' summary Run)
      as (_ & _ & _ & _ & _ & _ & _ & Hw).
    rewrite (Hw path Hpath) in Hfault. discriminate Hfault.
Qed.

End Training.

(** [np.unique] of 0/1 labels. *)
Lemma np_unique_labels (flags : list bool) :
  np_unique (map Z.b2z flags)
  = ((if existsb negb flags then [0] else [])
     ++ (if existsb (fun b => b) flags then [1] else []))%list.
Proof.
  induction flags as [|b tl IH]; [reflexivity|].
  cbn [map existsb]. unfold np_unique in *. cbn [fold_right].
  rewrite IH.
  destruct b, (existsb negb tl), (existsb (fun b => b) tl); reflexivity.
Qed.

Lemma labels_of_both_classes (data : list EventRecord) :
  (exists r, In r data /\ high_risk r = true) ->
  (exists r, In r data /\ high_risk r = false) ->
  np_unique (map (fun r => Z.b2z (high_risk r)) data) = [0; 1].
Proof.
  intros (r1 & Hin1 & H1) (r0 & Hin0 & H0).
  rewrite <- (map_map high_risk Z.b2z), np_unique_labels.
  assert (E0 : existsb negb (map high_risk data) = true).
  { apply existsb_exists. exists false. split; [|reflexivity].
    rewrite <- H0. apply in_map. exact Hin0. }
  assert (E1 : existsb (fun b => b) (map high_risk data) = true).
  { apply existsb_exists. exists true. split; [|reflexivity].
    rewrite <- H1. apply in_map. exact Hin1. }
  rewrite E0, E1. reflexivity.
Qed.

Lemma risk_features_length (event_data : EventRecord) :
  List.length (risk_features event_data) = 7%nat.
Proof. reflexivity. Qed.

(** The [try] reads the engine and leaves it as it is. *)
Lemma ml_risk_keeps_state (X : matrix) (st : Engine) :
  fst (ml_risk X st) = st.
Proof.
  unfold ml_risk, bind, get_self, lift, ret.
  destruct (predict_proba _ _) as [p|e]; [|reflexivity].
  destruct (index p 0) as [row|e]; [|reflexivity].
  destruct (index row 1) as [x|e]; reflexivity.
Qed.

Lemma ml_risk_is_tagged_ml (X : matrix) (st st' : Engine)
    (a : RiskAssessment) :
  ml_risk X st = (st', Normal a) -> method a = None /\ confidence a <> None.
Proof.
  unfold ml_risk. intro H. run_all. cbn. split; [reflexivity|discriminate].
Qed.

(** Once the scaler has accepted the features, scoring returns: the
    classifier's assessment, or the rule-based one when anything in the
    [try] raised. *)
Lemma predict_risk_score_returns_once_scaled (event_data : EventRecord)
    (st : Engine) (X : matrix) :
  scaler_transform (scaler st) [risk_features event_data] = Normal X ->
  exists a,
    predict_risk_score event_data st = (st, Normal a) /\
    ((method a = None /\ confidence a <> None)
     \/ a = rule_based_risk event_data).
Proof.
  intro HX. unfold predict_risk_score, bind, get_self, lift.
  rewrite HX. unfold try_except.
  pose proof (ml_risk_keeps_state X st) as Hst.
  destruct (ml_risk X st) as [st1 [a|e]] eqn:E; cbn in Hst; subst st1.
  - exists a. split; [reflexivity|]. left.
    apply (ml_risk_is_tagged_ml _ _ _ _ E).
  - exists (rule_based_risk event_data). split; [reflexivity|].
    right. reflexivity.
Qed.

(** With no fitted scaler, scoring raises before the [try] is entered. *)
Lemma predict_risk_score_needs_a_fitted_scaler (event_data : EventRecord)
    (st : Engine) :
  scaler st = None ->
  predict_risk_score event_data st = (st, Raise NotFittedError).
Proof.
  intro H. unfold predict_risk_score, bind, get_self, lift.
  rewrite H. reflexivity.
Qed.

(** C1, at the failing input.  The engine built on a disk without
    artifacts has fresh models and an unfitted scaler, and on it
    [predict_risk_score] raises [NotFittedError] for every record
    instead of returning the rule-based assessment. *)
Theorem fresh_engine_raises_instead_of_falling_back
    (event_data : EventRecord) :
  new_engine Sample.empty_disk = Normal untrained_engine /\
  predict_risk_score event_data untrained_engine
  = (untrained_engine, Raise NotFittedError).
Proof.
  split; [reflexivity|].
  apply predict_risk_score_needs_a_fitted_scaler. reflexivity.
Qed.

Section ScoringAfterTraining.

Context (W : World).

(** C3, as amended.  After a [train] that succeeds on a training set
    holding at least one high-risk record (severe or worse, or
    hospitalised) and at least one that is not, [score_risk] on any
    record takes the classifier's path: it returns an assessment with a
    confidence and without the rule-based tag. *)
Theorem trained_on_both_classes_scores_by_classifier
    (data : list EventRecord) (s s' : State) (summary : TrainingSummary)
    (event_data : EventRecord) :
  train_models W data s = (s', Normal summary) ->
  (exists r, In r data /\ high_risk r = true) ->
  (exists r, In r data /\ high_risk r = false) ->
  exists a,
    predict_risk_score event_data (engine s') = (engine s', Normal a) /\
    method a = None /\ confidence a <> None.
Proof.
  intros Run Hhigh Hlow.
  destruct (train_models_run W data s s' summary Run)
    as (fs & m & f & Heng & Hfs & Hn & Hclasses & _).
  rewrite (labels_of_both_classes data Hhigh Hlow) in Hclasses.
  rewrite Heng.
  unfold predict_risk_score, bind, get_self, lift. cbn [scaler].
  unfold scaler_transform.
  assert (Hw : has_width (List.length fs) [risk_features event_data] = true).
  { rewrite Hfs. reflexivity. }
  rewrite Hw. cbn [map]. unfold try_except, ml_risk, bind, get_self, lift.
  cbn [risk_classifier]. unfold predict_proba.
  assert (Hw' : has_width (rf_n_features f)
                  [scale_row fs (risk_features event_data)] = true).
  { unfold has_width. cbn [forallb]. rewrite scale_row_length, Hfs, Hn.
    reflexivity. }
  rewrite Hw', Hclasses. cbn [map index nth_error].
  eexists. split; [reflexivity|]. cbn. split; [reflexivity|discriminate].
Qed.

(** On a training set whose records all carry the same label the
    classifier has one class, and scoring falls back to the rules. *)
Lemma trained_on_one_class_scores_by_rules
    (data : list EventRecord) (s s' : State) (summary : TrainingSummary)
    (event_data : EventRecord) (label : bool) :
  train_models W data s = (s', Normal summary) ->
  (forall r, In r data -> high_risk r = label) ->
  predict_risk_score event_data (engine s')
  = (engine s', Normal (rule_based_risk event_data)).
Proof.
  intros Run Hsame.
  destruct (train_models_run W data s s' summary Run)
    as (fs & m & f & Heng & Hfs & Hn & Hclasses & _).
  assert (Hone : exists c, classes_ f = [c] \/ classes_ f = []).
  { rewrite Hclasses, <- (map_map high_risk Z.b2z), np_unique_labels.
    assert (Hall : map high_risk data = map (fun _ => label) data).
    { apply map_ext_in. exact Hsame. }
    rewrite Hall.
    destruct label.
    - assert (E : existsb negb (map (fun _ => true) data) = false).
      { clear. induction data; [reflexivity|exact IHdata]. }
      rewrite E. clear E. destruct (existsb _ _); [exists 1|exists 0];
        [left|right]; reflexivity.
    - assert (E : existsb (fun b => b) (map (fun _ => false) data) = false).
      { clear. induction data; [reflexivity|exact IHdata]. }
      rewrite E. clear E. destruct (existsb _ _); [exists 0|exists 0];
        [left|right]; reflexivity. }
  rewrite Heng.
  unfold predict_risk_score, bind, get_self, lift. cbn [scaler].
  unfold scaler_transform.
  assert (Hw : has_width (List.length fs) [risk_features event_data] = true).
  { rewrite Hfs. reflexivity. }
  rewrite Hw. cbn [map]. unfold try_except, ml_risk, bind, get_self, lift.
  cbn [risk_classifier]. unfold predict_proba.
  assert (Hw' : has_width (rf_n_features f)
                  [scale_row fs (risk_features event_data)] = true).
  { unfold has_width. cbn [forallb]. rewrite scale_row_length, Hfs, Hn.
    reflexivity. }
  rewrite Hw'. destruct Hone as (c & [-> | ->]); reflexivity.
Qed.

End ScoringAfterTraining.

End Lifecycle.

(** C4, as stated, fails: a truncated artifact makes the constructor
    raise instead of building fresh models. *)
Lemma corrupt_artifact_stops_the_constructor :
  first_load_fault Sample.corrupt_disk = Some EOFError /\
  new_engine Sample.corrupt_disk = Raise EOFError.
Proof. split; reflexivity. Qed.

Lemma load_recovers_from_absence_witness :
  new_engine Sample.empty_disk = Normal untrained_engine /\
  new_engine Sample.corrupt_disk = Raise EOFError /\
  raises (snd (train_models Sample.world [Sample.mild; Sample.severe]
                 {| engine := untrained_engine;
                    disk := Sample.read_only_disk |})) = true.
Proof.
  destruct (load_recovers_from_absence_and_train_surfaces_write_faults
              Sample.world) as (Habsent & Hother & Hwrite).
  split; [apply Habsent; reflexivity|].
  split; [apply Hother; [reflexivity|discriminate]|].
  apply (Hwrite _ _ "models/scaler.pkl"%string PermissionError).
  - cbn. tauto.
  - reflexivity.
Defined.

(** C3, as stated, fails: trained on records that are all low-risk,
    the engine scores one of them by the rules. *)
Lemma single_class_training_falls_back :
  let s0 := {| engine := untrained_engine; disk := Sample.empty_disk |} in
  let data := [Sample.mild; Sample.mild] in
  snd (train_models Sample.world data s0)
  = Normal {| training_samples := 2;
              anomaly_detector_trained := true;
              risk_classifier_trained := true;
              risk_classifier_accuracy := 1 |} /\
  snd (predict_risk_score Sample.mild
         (engine (fst (train_models Sample.world data s0))))
  = Normal (rule_based_risk Sample.mild) /\
  method (rule_based_risk Sample.mild) = Some "rule_based"%string.
Proof. repeat split; vm_compute; reflexivity. Qed.

Lemma trained_on_both_classes_witness :
  let s0 := {| engine := untrained_engine; disk := Sample.empty_disk |} in
  let data := [Sample.mild; Sample.severe] in
  exists s' a,
    predict_risk_score Sample.mild (engine s') = (engine s', Normal a) /\
    method a = None /\ confidence a <> None.
Proof.
  intros s0 data.
  destruct (train_models Sample.world data s0) as [s' [summary|e]] eqn:Run.
  - exists s'.
    apply (trained_on_both_classes_scores_by_classifier Sample.world data
             s0 s' summary Sample.mild Run).
    + exists Sample.severe. split; [cbn; tauto|reflexivity].
    + exists Sample.mild. split; [cbn; tauto|reflexivity].
  - exfalso. apply (f_equal snd) in Run. vm_compute in Run.
    discriminate Run.
Defined.

(* ===================================================================== *)
(** * The event date in the pattern features *)
(* ===================================================================== *)

Section EventDates.

Context (W : World).

Open Scope string_scope.
Open Scope Z_scope.

(** One record that does not encode fails the batch. *)
Lemma rmap_raises {A B} (f : A -> result B) (l : list A) (x : A) :
  In x l -> raises (f x) = true -> raises (rmap f l) = true.
Proof.
  induction l as [|y tl IH]; intros Hin Hx; [contradiction|].
  cbn [rmap]. destruct Hin as [->|Hin].
  - destruct (f x); [discriminate|reflexivity].
  - destruct (f y); [|reflexivity]. cbn [rbind].
    specialize (IH Hin Hx). destruct (rmap f tl); [discriminate|reflexivity].
Qed.

(** C2, as amended.  For a record of the batch that carries a severity,
    an outcome and symptoms, the event date decides the encoding.  A
    date that the parser rejects makes the encoding of the record, and
    with it of the whole batch, fail with the parser's exception.  A
    date that parses to a timestamp without a time zone gives the whole
    days elapsed as last feature; one that parses to a timestamp with a
    time zone fails the batch with [TypeError]; one that parses to NaT
    (the empty string) is encoded with NaN as last feature.  A record
    without a date is encoded with NaN when some record of the batch
    has a date; when none has, the outcome is that of
    [to_datetime(None)]: [TypeError] for the whole batch where that is
    [None], NaN where it is NaT. *)
Theorem event_date_decides_the_encoding (events : list EventRecord)
    (row : EventRecord) :
  In row events ->
  severity row <> None -> outcome row <> None -> symptoms row <> None ->
  let df := DataFrame_of events in
  match event_date row with
  | Some s =>
      match to_datetime W s with
      | Raise e => fails_batch W df row e
      | Normal (Naive t) =>
          encodes_days W df row (int_num ((now W - t) / day))
      | Normal (Aware _) => fails_batch W df row TypeError
      | Normal NaT => encodes_days W df row NaN
      end
  | None =>
      if has_column event_date df then encodes_days W df row NaN
      else
        match to_datetime_None W with
        | None => fails_batch W df row TypeError
        | Some (Naive t) =>
            encodes_days W df row (int_num ((now W - t) / day))
        | Some (Aware _) => fails_batch W df row TypeError
        | Some NaT => encodes_days W df row NaN
        end
  end.
Proof.
  intros Hin Hsev Hout Hsym df.
  destruct (severity row) as [sv|] eqn:Esev; [|congruence].
  destruct (outcome row) as [oc|] eqn:Eout; [|congruence].
  destruct (symptoms row) as [sy|] eqn:Esym; [|congruence].
  assert (Hfv : feature_vector W df row
                = rbind (days_since_event W (cell_of event_date df row))
                    (fun days =>
                       Normal
                         [int_num (_encode_severity sv);
                          int_num (_encode_outcome oc);
                          int_num (_encode_age_group
                                     (num_of (row_get
                                                (cell_of patient_age df row)
                                                0)));
                          int_num (if truthy (cell_of
                                                required_hospitalization
                                                df row) then 1 else 0);
                          int_num (if truthy (cell_of life_threatening
                                                df row) then 1 else 0);
                          int_num (Z.of_nat (List.length sy));
                          days])).
  { assert (Csev : cell_of severity df row = Val sv).
    { unfold cell_of. subst df.
      rewrite (has_column_of_member severity events row sv Hin Esev).
      rewrite Esev. reflexivity. }
    assert (Cout : cell_of outcome df row = Val oc).
    { unfold cell_of. subst df.
      rewrite (has_column_of_member outcome events row oc Hin Eout).
      rewrite Eout. reflexivity. }
    assert (Csym : cell_of symptoms df row = Val sy).
    { unfold cell_of. subst df.
      rewrite (has_column_of_member symptoms events row sy Hin Esym).
      rewrite Esym. reflexivity. }
    unfold feature_vector. rewrite Csev, Cout, Csym. reflexivity. }
  assert (Hfails : forall e, feature_vector W df row = Raise e ->
                             fails_batch W df row e).
  { intros e He. split; [exact He|]. unfold _extract_event_features.
    apply (rmap_raises _ _ row); [exact Hin|]. rewrite He. reflexivity. }
  assert (Hdated : forall d,
             feature_vector W df row
             = rbind (days_since W d)
                 (fun days =>
                    Normal
                      [int_num (_encode_severity sv);
                       int_num (_encode_outcome oc);
                       int_num (_encode_age_group
                                  (num_of (row_get
                                             (cell_of patient_age df row)
                                             0)));
                       int_num (if truthy (cell_of
                                             required_hospitalization
                                             df row) then 1 else 0);
                       int_num (if truthy (cell_of life_threatening
                                             df row) then 1 else 0);
                       int_num (Z.of_nat (List.length sy));
                       days]) ->
             match d with
             | None => fails_batch W df row TypeError
             | Some (Naive t) =>
                 encodes_days W df row (int_num ((now W - t) / day))
             | Some (Aware _) => fails_batch W df row TypeError
             | Some NaT => encodes_days W df row NaN
             end).
  { intros [[t|t|]|] Hd; cbn [days_since rbind] in Hd.
    - eexists. split; [exact Hd|reflexivity].
    - apply Hfails. exact Hd.
    - eexists. split; [exact Hd|reflexivity].
    - apply Hfails. exact Hd. }
  destruct (event_date row) as [s|] eqn:Edate.
  - assert (Hcell : cell_of event_date df row = Val s).
    { unfold cell_of. subst df.
      rewrite (has_column_of_member event_date events row s Hin Edate).
      rewrite Edate. reflexivity. }
    rewrite Hcell in Hfv. cbn [days_since_event] in Hfv.
    destruct (to_datetime W s) as [ts|e].
    + cbn [rbind] in Hfv. apply (Hdated (Some ts)). exact Hfv.
    + apply Hfails. exact Hfv.
  - unfold cell_of in Hfv at 1. rewrite Edate in Hfv.
    destruct (has_column event_date df); cbn [days_since_event] in Hfv.
    + apply (Hdated (Some NaT)). exact Hfv.
    + apply (Hdated (to_datetime_None W)). exact Hfv.
Qed.

End EventDates.

Lemma event_date_decides_the_encoding_witness :
  fails_batch Sample.world (DataFrame_of [Sample.mild; Sample.misdated])
    Sample.misdated ValueError.
Proof.
  apply (event_date_decides_the_encoding Sample.world
           [Sample.mild; Sample.misdated] Sample.misdated).
  - cbn. tauto.
  - discriminate.
  - discriminate.
  - discriminate.
Defined.

(** C2, as stated, fails: in a batch where another record has a date,
    the record without one is encoded, with NaN as its last feature,
    and the encoding of the batch does not fail. *)
Lemma missing_date_is_encoded_as_nan :
  event_date Sample.undated = None /\
  _extract_event_features Sample.world
    (DataFrame_of [Sample.mild; Sample.undated])
  = Normal [[int_num 1; int_num 1; int_num 2; int_num 0; int_num 0;
             int_num 1; int_num 12];
            [int_num 1; int_num 1; int_num 2; int_num 0; int_num 0;
             int_num 1; NaN]].
Proof. split; vm_compute; reflexivity. Qed.

(** The other dates, each in a batch of two.  A date that does not
    parse and a date with an offset fail the batch, with the parser's
    exception and with [TypeError]; the empty string is encoded, with
    NaN.  Where no record has a date the batch fails with [TypeError]
    under pandas 2 and is encoded with NaN under pandas 3. *)
Lemma dateless_and_misdated_batches_fail :
  _extract_event_features Sample.world
    (DataFrame_of [Sample.mild; Sample.misdated]) = Raise ValueError /\
  _extract_event_features Sample.world
    (DataFrame_of [Sample.mild; Sample.zoned]) = Raise TypeError /\
  _extract_event_features Sample.world
    (DataFrame_of [Sample.mild; Sample.blank_dated])
  = Normal [[int_num 1; int_num 1; int_num 2; int_num 0; int_num 0;
             int_num 1; int_num 12];
            [int_num 1; int_num 1; int_num 2; int_num 0; int_num 0;
             int_num 1; NaN]] /\
  _extract_event_features Sample.world
    (DataFrame_of [Sample.undated; Sample.undated]) = Raise TypeError /\
  _extract_event_features Sample.world_pandas3
    (DataFrame_of [Sample.undated; Sample.undated])
  = Normal [[int_num 1; int_num 1; int_num 2; int_num 0; int_num 0;
             int_num 1; NaN];
            [int_num 1; int_num 1; int_num 2; int_num 0; int_num 0;
             int_num 1; NaN]].
Proof. repeat split; vm_compute; reflexivity. Qed.
(* ===================================================================== *)
(** * Signal tiering *)
(* ===================================================================== *)

Section SignalTiering.

Open Scope string_scope.
Open Scope Q_scope.

(** C5.  The tier of a safety signal is a strict priority cascade over
    the four rates: a death rate above 0.02 is critical whatever the
    other rates are; failing that, a hospitalisation rate above 0.15 or
    a recent severe rate above 0.3 is high; failing that, a severe
    rate above 0.20 is moderate; and low is what is left.  Each tier
    has its own fixed recommendation, and no tier falls to the
    default text. *)
Theorem signal_tier_cascade
    (severe_rate hosp_rate death_rate recent_rate : Q) :
  let tier :=
    _classify_signal_type severe_rate hosp_rate death_rate recent_rate in
  let critical := Float64.lit 2 2 < death_rate in
  let high :=
    Float64.lit 15 2 < hosp_rate \/ Float64.lit 3 1 < recent_rate in
  let moderate := Float64.lit 20 2 < severe_rate in
  (critical -> tier = "critical") /\
  (~ critical -> high -> tier = "high") /\
  (~ critical -> ~ high -> moderate -> tier = "moderate") /\
  (~ critical -> ~ high -> ~ moderate -> tier = "low") /\
  _generate_signal_recommendation "critical" =
    "URGENT: Consider immediate recall or suspension. Convene safety review committee." /\
  _generate_signal_recommendation "high" =
    "HIGH PRIORITY: Detailed investigation required. Consider risk mitigation measures." /\
  _generate_signal_recommendation "moderate" =
    "MODERATE: Monitor closely. Review product labeling and prescribing information." /\
  _generate_signal_recommendation "low" =
    "LOW: Continue monitoring. Consider additional post-market surveillance." /\
  _generate_signal_recommendation tier <> "Review and monitor.".
Proof.
  intros tier critical high moderate.
  subst tier critical high moderate. unfold _classify_signal_type.
  generalize (Float64.lit 2 2) (Float64.lit 15 2) (Float64.lit 3 1)
             (Float64.lit 20 2).
  intros t_death t_hosp t_recent t_severe.
  destruct (Float64.gtb death_rate t_death) eqn:Ed;
    [apply gtb_lt in Ed | apply gtb_not_lt in Ed];
  (destruct (Float64.gtb hosp_rate t_hosp) eqn:Eh;
    [apply gtb_lt in Eh | apply gtb_not_lt in Eh]);
  (destruct (Float64.gtb recent_rate t_recent) eqn:Er;
    [apply gtb_lt in Er | apply gtb_not_lt in Er]);
  (destruct (Float64.gtb severe_rate t_severe) eqn:Es;
    [apply gtb_lt in Es | apply gtb_not_lt in Es]);
  cbn [orb];
  repeat split; try reflexivity;
  try (intros; exfalso; tauto);
  clear; discriminate.
Qed.

(** A death rate of 0.03 with every other rate at its extreme. *)
Lemma signal_tier_cascade_witness :
  _classify_signal_type 0 1 (Float64.lit 3 2) 1 = "critical".
Proof.
  apply (proj1 (signal_tier_cascade 0 1 (Float64.lit 3 2) 1)).
  vm_compute. reflexivity.
Defined.

End SignalTiering.

(* ===================================================================== *)
(** * The rule-based risk score *)
(* ===================================================================== *)

Section RuleBasedScore.

Open Scope string_scope.
Open Scope Q_scope.

(** Case analysis on every visible test. *)
Ltac split_tests :=
  cbv zeta;
  repeat match goal with
         | |- context [if ?b then _ else _] =>
             progress (destruct b; cbv beta iota)
         end.

Lemma severity_rank_le_3 (e : EventRecord) : (Rule.severity_rank e <= 3)%nat.
Proof. unfold Rule.severity_rank. split_tests; lia. Qed.

Lemma rule_score_is_clamped_sum (e : EventRecord) :
  _calculate_rule_based_risk e = Rule.clamped_sum e.
Proof.
  unfold _calculate_rule_based_risk, Rule.clamped_sum, Rule.contributions,
    Rule.severity_rank, Rule.hospitalised, Rule.flagged_life_threatening,
    Rule.age_extreme, Rule.many_symptoms, Rule.points.
  cbv zeta. split_tests; vm_compute; reflexivity.
Qed.

Lemma clamped_sum_bounds (e : EventRecord) :
  0 <= Rule.clamped_sum e /\ Rule.clamped_sum e <= 1.
Proof.
  pose proof (severity_rank_le_3 e) as Hr.
  unfold Rule.clamped_sum, Rule.contributions.
  generalize dependent (Rule.severity_rank e).
  generalize (Rule.hospitalised e) (Rule.flagged_life_threatening e)
             (Rule.age_extreme e) (Rule.many_symptoms e).
  intros h l a m r Hr.
  destruct r as [|[|[|[|r]]]]; [| | | | lia];
    destruct h, l, a, m;
    (split; apply Qle_bool_iff; vm_compute; reflexivity).
Qed.

Lemma clamped_sum_monotone (e e' : EventRecord) :
  Rule.no_less_qualified e e' -> Rule.clamped_sum e <= Rule.clamped_sum e'.
Proof.
  intros (Hr & Hh & Hl & Ha & Hm).
  pose proof (severity_rank_le_3 e) as B. pose proof (severity_rank_le_3 e') as B'.
  unfold Rule.clamped_sum, Rule.contributions.
  revert Hr Hh Hl Ha Hm B B'.
  generalize (Rule.severity_rank e) (Rule.severity_rank e').
  generalize (Rule.hospitalised e) (Rule.hospitalised e').
  generalize (Rule.flagged_life_threatening e)
             (Rule.flagged_life_threatening e').
  generalize (Rule.age_extreme e) (Rule.age_extreme e').
  generalize (Rule.many_symptoms e) (Rule.many_symptoms e').
  intros m m' a a' l l' h h' r r' Hr Hh Hl Ha Hm B B'.
  destruct r as [|[|[|[|r]]]]; [| | | | lia];
    (destruct r' as [|[|[|[|r']]]]; [| | | | lia]);
    try (exfalso; lia);
    destruct h, h'; try (specialize (Hh eq_refl); discriminate Hh);
    destruct l, l'; try (specialize (Hl eq_refl); discriminate Hl);
    destruct a, a'; try (specialize (Ha eq_refl); discriminate Ha);
    destruct m, m'; try (specialize (Hm eq_refl); discriminate Hm);
    clear; apply Qle_bool_iff; vm_compute; reflexivity.
Qed.

(** C6.  The rule-based score of a record is the clamp to [0,1] of the
    sum of its listed contributions (0.4, 0.3 or 0.15 for the severity,
    0.25 for hospitalisation, 0.2 for the life-threatening flag, 0.1
    for an age below 5 or above 75, 0.1 for more than 5 symptoms); it
    lies in [0,1]; it does not decrease when a record comes to meet more
    of the conditions; and the record that meets them all at their
    gravest scores 1.0 and is classified critical. *)
Theorem rule_based_score_is_clamped_monotone_sum :
  (forall e, _calculate_rule_based_risk e = Rule.clamped_sum e) /\
  (forall e, 0 <= _calculate_rule_based_risk e /\
             _calculate_rule_based_risk e <= 1) /\
  (forall e e', Rule.no_less_qualified e e' ->
                _calculate_rule_based_risk e
                <= _calculate_rule_based_risk e') /\
  Rule.contributions Sample.worst_case =
    [Float64.lit 4 1; Float64.lit 25 2; Float64.lit 2 1; Float64.lit 1 1;
     Float64.lit 1 1] /\
  _calculate_rule_based_risk Sample.worst_case = 1 /\
  _classify_risk_level (_calculate_rule_based_risk Sample.worst_case)
  = "critical".
Proof.
  split; [exact rule_score_is_clamped_sum|].
  split; [intro e; rewrite rule_score_is_clamped_sum;
          apply clamped_sum_bounds|].
  split; [intros e e' H; rewrite !rule_score_is_clamped_sum;
          apply clamped_sum_monotone; exact H|].
  repeat split; vm_compute; reflexivity.
Qed.

(** Hospitalising the mild sample patient does not lower the score. *)
Lemma rule_based_score_witness :
  _calculate_rule_based_risk Sample.mild
  <= _calculate_rule_based_risk (Sample.event "mild" true 40 None).
Proof.
  apply (proj1 (proj2 (proj2 rule_based_score_is_clamped_monotone_sum))).
  unfold Rule.no_less_qualified.
  repeat split; vm_compute; try reflexivity; try discriminate.
Defined.

End RuleBasedScore.


(* ===================================================================== *)
(** * The pattern features of a batch *)
(* ===================================================================== *)

Section PatternFeatures.

Context (W : World).

Open Scope string_scope.
Open Scope Z_scope.

Lemma encode_severity_range (s : string) : 1 <= _encode_severity s <= 4.
Proof.
  unfold _encode_severity. cbn [mapping_get].
  repeat (destruct (String.eqb _ _)); lia.
Qed.

Lemma encode_outcome_range (s : string) : 0 <= _encode_outcome s <= 4.
Proof.
  unfold _encode_outcome. cbn [mapping_get].
  repeat (destruct (String.eqb _ _)); lia.
Qed.

Lemma encode_age_group_range (age : num) : 1 <= _encode_age_group age <= 3.
Proof.
  unfold _encode_age_group. repeat (destruct (num_ltb _ _)); lia.
Qed.

(** On ints the float comparison is the integer one. *)
Lemma num_ltb_int (a b : Z) : num_ltb (int_num a) (int_num b) = (a <? b).
Proof.
  unfold num_ltb, int_num.
  destruct (a <? b) eqn:E.
  - apply ltb_lt. apply Z.ltb_lt in E. rewrite <- Zlt_Qlt. exact E.
  - apply ltb_not_lt. apply Z.ltb_ge in E. rewrite <- Zle_Qle. exact E.
Qed.

Lemma encode_age_group_int (age : Z) :
  _encode_age_group (int_num age)
  = if age <? 18 then 1 else if age <? 65 then 2 else 3.
Proof. unfold _encode_age_group. rewrite !num_ltb_int. reflexivity. Qed.

(** What [rmap] returns, element by element. *)
Lemma rmap_Forall2 {A B} (f : A -> result B) (l : list A) (ys : list B) :
  rmap f l = Normal ys -> Forall2 (fun x y => f x = Normal y) l ys.
Proof.
  revert ys. induction l as [|x tl IH]; cbn; intros ys H.
  - injection H as <-. constructor.
  - apply rbind_normal in H. destruct H as (y & Hy & H).
    apply rbind_normal in H. destruct H as (ys' & Htl & H).
    injection H as <-. constructor; [exact Hy|]. apply IH. exact Htl.
Qed.

Lemma rmap_total {A B} (P : B -> Prop) (f : A -> result B) (l : list A) :
  (forall x, In x l -> exists y, f x = Normal y /\ P y) ->
  exists ys, rmap f l = Normal ys /\ Forall P ys /\
             List.length ys = List.length l.
Proof.
  induction l as [|x tl IH]; intro H.
  - exists []. repeat split. constructor.
  - destruct (H x (or_introl eq_refl)) as (y & Hy & Py).
    destruct IH as (ys & Hys & Pys & Hlen).
    { intros x' Hx'. apply H. right. exact Hx'. }
    exists (y :: ys). cbn [rmap]. rewrite Hy. cbn [rbind]. rewrite Hys.
    repeat split; [constructor; assumption|cbn; lia].
Qed.

(** The encoder returns a matrix with one row per record and seven
    columns: the codes of the severity (1 to 4), of the outcome (0 to 4)
    and of the age group (1 to 3), the two flags (0 or 1), the number of
    symptoms, and the days since the event. *)
Theorem features_are_one_row_of_seven_codes_per_record (df : DataFrame)
    (X : matrix) :
  _extract_event_features W df = Normal X ->
  List.length X = List.length (rows df) /\
  Forall (fun v =>
            exists sev out age hosp lt n days,
              v = [int_num sev; int_num out; int_num age; int_num hosp;
                   int_num lt; int_num n; days] /\
              1 <= sev <= 4 /\ 0 <= out <= 4 /\ 1 <= age <= 3 /\
              0 <= hosp <= 1 /\ 0 <= lt <= 1 /\ 0 <= n) X.
Proof.
  unfold _extract_event_features. intro H. split.
  - apply (rmap_length _ _ _ H).
  - apply (rmap_Forall _ (feature_vector W df) (rows df) X); [|exact H].
    intros row v Hv. unfold feature_vector in Hv.
    apply rbind_normal in Hv. destruct Hv as (sev & _ & Hv).
    apply rbind_normal in Hv. destruct Hv as (out & _ & Hv).
    apply rbind_normal in Hv. destruct Hv as (n & Hn & Hv).
    apply rbind_normal in Hv. destruct Hv as (days & _ & Hv).
    injection Hv as <-.
    do 7 eexists. split; [reflexivity|].
    pose proof (encode_severity_range sev).
    pose proof (encode_outcome_range out).
    pose proof (encode_age_group_range
                  (num_of (row_get (cell_of patient_age df row) 0))).
    assert (0 <= n).
    { unfold len_of in Hn. destruct (row_get _ _); [|discriminate].
      injection Hn as <-. lia. }
    repeat split; try lia;
      destruct (truthy _); lia.
Qed.

(** How a record's age and flags are encoded in a batch.  An age is
    put in group 1 below 18, 2 from 18 to 64, 3 from 65 on.  A record
    without an age is put in group 3 when some record of the batch has
    an age, and in group 1 when none has.  A flag that the record lacks
    counts as set when some record of the batch carries the key, and as
    unset when none does. *)
Theorem age_and_flags_of_a_record_in_its_batch (events : list EventRecord)
    (row : EventRecord) (v : list num) :
  In row events ->
  feature_vector W (DataFrame_of events) row = Normal v ->
  let df := DataFrame_of events in
  nth 2 v NaN
  = int_num match patient_age row with
            | Some age => if age <? 18 then 1 else if age <? 65 then 2 else 3
            | None => if has_column patient_age df then 3 else 1
            end /\
  nth 3 v NaN
  = int_num match required_hospitalization row with
            | Some b => Z.b2z b
            | None => if has_column required_hospitalization df
                      then 1 else 0
            end /\
  nth 4 v NaN
  = int_num match life_threatening row with
            | Some b => Z.b2z b
            | None => if has_column life_threatening df then 1 else 0
            end.
Proof.
  intros Hin Hv. cbv zeta. unfold feature_vector in Hv.
  apply rbind_normal in Hv. destruct Hv as (sev & _ & Hv).
  apply rbind_normal in Hv. destruct Hv as (out & _ & Hv).
  apply rbind_normal in Hv. destruct Hv as (n & _ & Hv).
  apply rbind_normal in Hv. destruct Hv as (days & _ & Hv).
  injection Hv as <-. cbn [nth].
  repeat split; f_equal.
  - unfold cell_of. destruct (patient_age row) as [age|] eqn:E.
    + rewrite (has_column_of_member patient_age events row age Hin E).
      cbn [row_get num_of]. apply encode_age_group_int.
    + destruct (has_column patient_age (DataFrame_of events));
        reflexivity.
  - unfold cell_of. destruct (required_hospitalization row) as [b|] eqn:E.
    + rewrite (has_column_of_member required_hospitalization events row b
                 Hin E).
      destruct b; reflexivity.
    + destruct (has_column required_hospitalization (DataFrame_of events));
        reflexivity.
  - unfold cell_of. destruct (life_threatening row) as [b|] eqn:E.
    + rewrite (has_column_of_member life_threatening events row b Hin E).
      destruct b; reflexivity.
    + destruct (has_column life_threatening (DataFrame_of events));
        reflexivity.
Qed.

(** A record that lacks a severity, an outcome or its symptoms, in a
    batch where some record carries that key, cannot be encoded: the
    float NaN that stands for the missing value has no [lower] and no
    [len], and the whole batch fails with that exception. *)
Theorem missing_text_key_fails_the_batch (events : list EventRecord)
    (row : EventRecord) :
  In row events ->
  let df := DataFrame_of events in
  (severity row = None -> has_column severity df = true ->
   feature_vector W df row = Raise AttributeError /\
   raises (_extract_event_features W df) = true) /\
  (severity row <> None ->
   outcome row = None -> has_column outcome df = true ->
   feature_vector W df row = Raise AttributeError /\
   raises (_extract_event_features W df) = true) /\
  (severity row <> None -> outcome row <> None ->
   symptoms row = None -> has_column symptoms df = true ->
   feature_vector W df row = Raise TypeError /\
   raises (_extract_event_features W df) = true).
Proof.
  intros Hin df. subst df.
  set (df := DataFrame_of events).
  assert (Hbatch : forall e, feature_vector W df row = Raise e ->
                             feature_vector W df row = Raise e /\
                             raises (_extract_event_features W df) = true).
  { intros e He. split; [exact He|]. unfold _extract_event_features.
    apply (rmap_raises _ _ row); [exact Hin|]. rewrite He. reflexivity. }
  subst df. split; [|split].
  - intros Hs Hc. apply Hbatch. unfold feature_vector, cell_of.
    rewrite Hc, Hs. reflexivity.
  - intros Hs Ho Hc. apply Hbatch.
    destruct (severity row) as [sv|] eqn:Es; [|congruence].
    unfold feature_vector, cell_of.
    rewrite (has_column_of_member severity events row sv Hin Es), Es.
    rewrite Hc, Ho. reflexivity.
  - intros Hs Ho Hy Hc. apply Hbatch.
    destruct (severity row) as [sv|] eqn:Es; [|congruence].
    destruct (outcome row) as [oc|] eqn:Eo; [|congruence].
    unfold feature_vector, cell_of.
    rewrite (has_column_of_member severity events row sv Hin Es), Es.
    rewrite (has_column_of_member outcome events row oc Hin Eo), Eo.
    rewrite Hc, Hy. reflexivity.
Qed.

(** A record that carries a severity, an outcome, symptoms and a date
    that parses to a timestamp without a time zone is encoded, whatever
    the batch, without any NaN. *)
Lemma encodable_record_encodes (events : list EventRecord)
    (row : EventRecord) :
  In row events -> encodable W row = true ->
  exists v, feature_vector W (DataFrame_of events) row = Normal v /\
            List.length v = 7%nat /\ Forall (fun x => x <> NaN) v.
Proof.
  intros Hin He. unfold encodable in He.
  apply andb_prop in He. destruct He as [He Hd].
  apply andb_prop in He. destruct He as [He Hy].
  apply andb_prop in He. destruct He as [Hs Ho].
  destruct (severity row) as [sv|] eqn:Es; [|discriminate].
  destruct (outcome row) as [oc|] eqn:Eo; [|discriminate].
  destruct (symptoms row) as [sy|] eqn:Ey; [|discriminate].
  destruct (event_date row) as [s|] eqn:Ed; [|discriminate].
  destruct (to_datetime W s) as [[t|t|]|e] eqn:Et; try discriminate Hd.
  unfold feature_vector, cell_of.
  rewrite (has_column_of_member severity events row sv Hin Es), Es.
  rewrite (has_column_of_member outcome events row oc Hin Eo), Eo.
  rewrite (has_column_of_member symptoms events row sy Hin Ey), Ey.
  rewrite (has_column_of_member event_date events row s Hin Ed), Ed.
  cbn [row_get as_str len_of rbind days_since_event]. rewrite Et.
  cbn [rbind days_since]. eexists. split; [reflexivity|].
  split; [reflexivity|].
  repeat constructor; discriminate.
Qed.

(** A batch of such records is always encoded: the encoder returns a
    matrix with one row per record, and no entry of it is NaN. *)
Theorem complete_records_are_always_encoded (events : list EventRecord) :
  (forall r, In r events -> encodable W r = true) ->
  exists X,
    _extract_event_features W (DataFrame_of events) = Normal X /\
    List.length X = List.length events /\
    Forall (fun v => List.length v = 7%nat /\ Forall (fun x => x <> NaN) v)
           X.
Proof.
  intro H. unfold _extract_event_features. cbn [rows DataFrame_of].
  destruct (rmap_total
              (fun v => List.length v = 7%nat /\ Forall (fun x => x <> NaN) v)
              (feature_vector W (DataFrame_of events)) events)
    as (X & HX & HP & Hlen).
  { intros r Hr. apply encodable_record_encodes; [exact Hr|].
    apply H. exact Hr. }
  exists X. repeat split; assumption.
Qed.

End PatternFeatures.

Lemma features_shape_witness :
  exists X,
    _extract_event_features Sample.world
      (DataFrame_of [Sample.mild; Sample.undated]) = Normal X /\
    List.length X = 2%nat.
Proof.
  destruct (_extract_event_features Sample.world
              (DataFrame_of [Sample.mild; Sample.undated]))
    as [X|e] eqn:E.
  - exists X. split; [reflexivity|].
    apply (features_are_one_row_of_seven_codes_per_record Sample.world
             _ X E).
  - exfalso. vm_compute in E. discriminate E.
Defined.

Lemma age_and_flags_witness :
  exists v,
    feature_vector Sample.world
      (DataFrame_of [Sample.mild; empty_event_dated]) 
      empty_event_dated = Normal v /\
    nth 2 v NaN = int_num 3 /\ nth 3 v NaN = int_num 1 /\
    nth 4 v NaN = int_num 1.
Proof.
  destruct (feature_vector Sample.world
              (DataFrame_of [Sample.mild; empty_event_dated])
              empty_event_dated) as [v|e] eqn:E.
  - exists v. split; [reflexivity|].
    apply (age_and_flags_of_a_record_in_its_batch Sample.world
             [Sample.mild; empty_event_dated]
             empty_event_dated v); [cbn; tauto|exact E].
  - exfalso. vm_compute in E. discriminate E.
Defined.

Lemma missing_text_key_witness :
  feature_vector Sample.world
    (DataFrame_of [Sample.mild; Sample.empty_event]) Sample.empty_event
  = Raise AttributeError /\
  raises (_extract_event_features Sample.world
            (DataFrame_of [Sample.mild; Sample.empty_event])) = true.
Proof.
  destruct (missing_text_key_fails_the_batch Sample.world
              [Sample.mild; Sample.empty_event] Sample.empty_event)
    as (H & _ & _).
  - cbn. tauto.
  - apply H; reflexivity.
Defined.

Lemma complete_records_witness :
  exists X,
    _extract_event_features Sample.world (DataFrame_of Sample.crowd)
    = Normal X /\
    List.length X = 20%nat.
Proof.
  destruct (complete_records_are_always_encoded Sample.world Sample.crowd)
    as (X & HX & Hlen & _).
  - intros r Hr. cbn in Hr.
    repeat (destruct Hr as [<-|Hr]; [reflexivity|]). contradiction.
  - exists X. split; [exact HX|exact Hlen].
Defined.

(* ===================================================================== *)
(** * What the entry points do to the shared engine *)
(* ===================================================================== *)

Section Keeping.

Context {S X : Type} (f : S -> X).

Lemma keeps_bind {A B} (c : M S A) (k : A -> M S B) :
  keeps f c -> (forall a, keeps f (k a)) -> keeps f (bind c k).
Proof.
  intros Hc Hk s. unfold bind. specialize (Hc s).
  destruct (c s) as [s1 [a|e]]; cbn in *.
  - rewrite (Hk a s1). exact Hc.
  - exact Hc.
Qed.

Lemma keeps_lift {A} (r : result A) : keeps f (lift r).
Proof. intro s. reflexivity. Qed.

Lemma keeps_ret {A} (a : A) : keeps f (ret a).
Proof. intro s. reflexivity. Qed.

Lemma keeps_get_self : keeps f get_self.
Proof. intro s. reflexivity. Qed.

Lemma keeps_try_except {A} (c h : M S A) :
  keeps f c -> keeps f h -> keeps f (try_except c h).
Proof.
  intros Hc Hh s. unfold try_except. specialize (Hc s).
  destruct (c s) as [s1 [a|e]]; cbn in *.
  - exact Hc.
  - rewrite (Hh s1). exact Hc.
Qed.

End Keeping.

Section EngineState.

Context (W : World).

Open Scope string_scope.
Open Scope Z_scope.

Ltac keeping :=
  repeat first
    [ apply keeps_bind; [|intro]
    | apply keeps_lift
    | apply keeps_ret
    | apply keeps_get_self
    | (intro; reflexivity) ].

Lemma fit_transform_keeps_models (X : matrix) :
  keeps risk_classifier (fit_transform W X) /\
  keeps anomaly_detector (fit_transform W X).
Proof. unfold fit_transform. split; keeping. Qed.

Lemma detections_keep_models (events : list EventRecord) :
  keeps risk_classifier (detect_anomalies W events) /\
  keeps risk_classifier (detect_adverse_event_patterns W events) /\
  keeps anomaly_detector (detect_adverse_event_patterns W events).
Proof.
  unfold detect_anomalies, detect_adverse_event_patterns, fit_predict.
  split; [|split].
  - destruct (len events <? 20); [apply keeps_ret|].
    apply keeps_bind; [apply keeps_lift|intro].
    apply keeps_bind; [apply fit_transform_keeps_models|intro].
    keeping.
  - destruct (len events <? 10); [apply keeps_ret|].
    apply keeps_bind; [apply keeps_lift|intro].
    apply keeps_bind; [apply fit_transform_keeps_models|intro].
    keeping.
  - destruct (len events <? 10); [apply keeps_ret|].
    apply keeps_bind; [apply keeps_lift|intro].
    apply keeps_bind; [apply fit_transform_keeps_models|intro].
    keeping.
Qed.

(** Neither detection ever changes the risk classifier, and pattern
    detection never changes the anomaly detector either, whether the
    call returns or raises. *)
Theorem detection_never_touches_the_classifier
    (events : list EventRecord) :
  keeps risk_classifier (detect_anomalies W events) /\
  keeps risk_classifier (detect_adverse_event_patterns W events) /\
  keeps anomaly_detector (detect_adverse_event_patterns W events).
Proof. exact (detections_keep_models events). Qed.

(** A scaler fitted on encoded features has seven columns. *)
Lemma scaler_fitted_on_features (df : DataFrame) (X : matrix)
    (fs : list (num -> num)) :
  _extract_event_features W df = Normal X ->
  scaler_fit (numerics W) X = Normal fs ->
  List.length fs = 7%nat /\
  X <> [] /\ Forall (fun r => List.length r = 7%nat) X.
Proof.
  intros HX Hfit. unfold _extract_event_features in HX.
  pose proof (rmap_Forall (fun v => List.length v = 7%nat) _ _ _
                (feature_vector_length W df) HX) as Hw.
  unfold scaler_fit in Hfit. destruct X as [|r0 X0]; [discriminate|].
  injection Hfit as <-. rewrite length_map, length_seq.
  split; [|split; [discriminate|exact Hw]].
  apply (width_of_Forall 7 (r0 :: X0)); [discriminate|exact Hw].
Qed.

Lemma detections_fit_scaler (events : list EventRecord)
    (st st' : Engine) :
  (forall r, 20 <= len events ->
             detect_anomalies W events st = (st', Normal r) ->
             exists fs m,
               scaler st' = Some fs /\ List.length fs = 7%nat /\
               anomaly_detector st' = Some m /\
               if_n_features m = 7%nat) /\
  (forall r, 10 <= len events ->
             detect_adverse_event_patterns W events st = (st', Normal r) ->
             exists fs, scaler st' = Some fs /\ List.length fs = 7%nat).
Proof.
  split.
  - intros r Hsize H. unfold detect_anomalies in H.
    destruct (len events <? 20) eqn:E; [apply Z.ltb_lt in E; lia|].
    unfold fit_transform, fit_predict in H. run_all.
    cbn [scaler anomaly_detector].
    match goal with
    | HX : _extract_event_features _ _ = Normal ?X,
      Hf : scaler_fit _ ?X = Normal ?fs,
      Ht : scaler_transform (Some ?fs) ?X = Normal ?Xn,
      Hm : iforest_fit _ ?Xn = Normal ?m |- _ =>
        destruct (scaler_fitted_on_features _ _ _ HX Hf)
          as (Hfs & Hne & Hw);
        exists fs, m; repeat split; try assumption;
        unfold scaler_transform in Ht;
        destruct (has_width _ _); [injection Ht as <-|discriminate];
        unfold iforest_fit in Hm;
        destruct X as [|r0 X0]; [congruence|];
        cbn [map] in Hm;
        apply rbind_normal in Hm; destruct Hm as (p & _ & Hm);
        injection Hm as <-; cbn [if_n_features width];
        rewrite scale_row_length, Hfs;
        inversion Hw; subst;
        match goal with Hr : List.length r0 = _ |- _ => rewrite Hr end;
        reflexivity
    end.
  - intros r Hsize H. unfold detect_adverse_event_patterns in H.
    destruct (len events <? 10) eqn:E; [apply Z.ltb_lt in E; lia|].
    unfold fit_transform in H. run_all. cbn [scaler].
    match goal with
    | HX : _extract_event_features _ _ = Normal ?X,
      Hf : scaler_fit _ ?X = Normal ?fs |- _ =>
        destruct (scaler_fitted_on_features _ _ _ HX Hf) as (Hfs & _);
        exists fs; split; [reflexivity|exact Hfs]
    end.
Qed.

(** What a detection that returns on a full batch leaves in the
    engine: the scaler fitted on the features of that batch, and after
    anomaly detection the detector fitted on those features as that
    scaler scales them. *)
Lemma detections_refit_on_the_batch (events : list EventRecord)
    (st st' : Engine) :
  (forall r, 20 <= len events ->
             detect_anomalies W events st = (st', Normal r) ->
             exists features fs X m,
               _extract_event_features W (DataFrame_of events)
               = Normal features /\
               scaler_fit (numerics W) features = Normal fs /\
               scaler st' = Some fs /\ List.length fs = 7%nat /\
               scaler_transform (Some fs) features = Normal X /\
               iforest_fit (numerics W) X = Normal m /\
               anomaly_detector st' = Some m /\
               if_n_features m = 7%nat) /\
  (forall r, 10 <= len events ->
             detect_adverse_event_patterns W events st = (st', Normal r) ->
             exists features fs,
               _extract_event_features W (DataFrame_of events)
               = Normal features /\
               scaler_fit (numerics W) features = Normal fs /\
               scaler st' = Some fs /\ List.length fs = 7%nat).
Proof.
  split.
  - intros r Hsize H.
    destruct (proj1 (detections_fit_scaler events st st') r Hsize H)
      as (fs' & m' & _ & _ & Hm' & Hwidth).
    apply (detect_anomalies_steps W events st st' r Hsize) in H.
    destruct H as (features & fs & X & m & scores & all
                   & Hf & Hfit & HX & Hm & _ & _ & -> & _).
    cbn [anomaly_detector] in Hm'. injection Hm' as <-.
    exists features, fs, X, m.
    destruct (scaler_fitted_on_features _ _ _ Hf Hfit) as (Hfs & _).
    repeat split; assumption.
  - intros r Hsize H.
    apply (detect_adverse_event_patterns_steps W events st st' r Hsize)
      in H.
    destruct H as (features & fs & X & clusters & patterns
                   & Hf & Hfit & _ & _ & _ & -> & _).
    exists features, fs.
    destruct (scaler_fitted_on_features _ _ _ Hf Hfit) as (Hfs & _).
    repeat split; assumption.
Qed.

(** A detection refits the shared scaler on its batch.  After a call
    that returns on a full batch, whatever the engine held before, the
    scaler of the engine is the one that [fit] gives on the features
    encoded from that batch, with seven columns; after anomaly
    detection the detector is the one fitted on those features as that
    scaler transforms them, on seven features. *)
Theorem detection_refits_the_shared_scaler (events : list EventRecord)
    (st st' : Engine) :
  (forall r, 20 <= len events ->
             detect_anomalies W events st = (st', Normal r) ->
             exists features fs X m,
               _extract_event_features W (DataFrame_of events)
               = Normal features /\
               scaler_fit (numerics W) features = Normal fs /\
               scaler st' = Some fs /\ List.length fs = 7%nat /\
               scaler_transform (Some fs) features = Normal X /\
               iforest_fit (numerics W) X = Normal m /\
               anomaly_detector st' = Some m /\
               if_n_features m = 7%nat) /\
  (forall r, 10 <= len events ->
             detect_adverse_event_patterns W events st = (st', Normal r) ->
             exists features fs,
               _extract_event_features W (DataFrame_of events)
               = Normal features /\
               scaler_fit (numerics W) features = Normal fs /\
               scaler st' = Some fs /\ List.length fs = 7%nat).
Proof. exact (detections_refit_on_the_batch events st st'). Qed.

End EngineState.

(** Scoring with a scaler fitted on seven features: the classifier's
    assessment when the classifier is usable, the rule-based one when it
    is not. *)
Lemma scoring_with_a_fitted_scaler (event_data : EventRecord)
    (st : Engine) (fs : list (num -> num)) :
  scaler st = Some fs -> List.length fs = 7%nat ->
  if classifier_usable (risk_classifier st) then
    exists a, predict_risk_score event_data st = (st, Normal a) /\
              method a = None /\ confidence a <> None
  else
    predict_risk_score event_data st
    = (st, Normal (rule_based_risk event_data)).
Proof.
  intros Hsc Hfs.
  unfold predict_risk_score, bind, get_self, lift. rewrite Hsc.
  unfold scaler_transform.
  assert (Hw : has_width (List.length fs) [risk_features event_data] = true).
  { rewrite Hfs. reflexivity. }
  rewrite Hw. cbn [map]. unfold try_except, ml_risk, bind, get_self, lift.
  unfold classifier_usable, predict_proba.
  destruct (risk_classifier st) as [f|]; [|reflexivity].
  assert (Hrow : List.length (scale_row fs (risk_features event_data))
                 = 7%nat).
  { rewrite scale_row_length, Hfs. reflexivity. }
  unfold has_width. cbn [forallb]. rewrite Hrow, andb_true_r.
  rewrite (Nat.eqb_sym 7 (rf_n_features f)).
  destruct (Nat.eqb (rf_n_features f) 7); cbn [andb]; [|reflexivity].
  cbn [map index nth_error].
  destruct (classes_ f) as [|c0 [|c1 cs]]; cbn [List.length Nat.leb map];
    try reflexivity.
  cbn [index nth_error]. eexists. split; [reflexivity|].
  cbn. split; [reflexivity|discriminate].
Qed.

(** All that [predict_risk_score] can do.  It never changes the engine.
    It raises [NotFittedError] when the scaler is not fitted and
    [ValueError] when the scaler was fitted on another number of features
    than seven, and nothing else.  Otherwise it returns: the classifier's
    assessment when the classifier is fitted on seven features and has
    seen two classes, the rule-based assessment in every other case. *)
Theorem predict_risk_score_outcomes (event_data : EventRecord)
    (st : Engine) :
  fst (predict_risk_score event_data st) = st /\
  match scaler st with
  | None => snd (predict_risk_score event_data st) = Raise NotFittedError
  | Some fs =>
      if Nat.eqb (List.length fs) 7 then
        if classifier_usable (risk_classifier st) then
          exists a, snd (predict_risk_score event_data st) = Normal a /\
                    method a = None /\ confidence a <> None
        else
          snd (predict_risk_score event_data st)
          = Normal (rule_based_risk event_data)
      else snd (predict_risk_score event_data st) = Raise ValueError
  end.
Proof.
  destruct (scaler st) as [fs|] eqn:Hsc.
  - destruct (Nat.eqb (List.length fs) 7) eqn:Hfs.
    + apply Nat.eqb_eq in Hfs.
      pose proof (scoring_with_a_fitted_scaler event_data st fs Hsc Hfs)
        as H.
      destruct (classifier_usable (risk_classifier st)).
      * destruct H as (a & Ha & Hm). rewrite Ha.
        split; [reflexivity|]. exists a. split; [reflexivity|exact Hm].
      * rewrite H. split; reflexivity.
    + unfold predict_risk_score, bind, get_self, lift. rewrite Hsc.
      unfold scaler_transform, has_width. cbn [forallb].
      change (List.length (risk_features event_data)) with 7%nat.
      rewrite Nat.eqb_sym, Hfs. cbn. split; reflexivity.
  - rewrite (predict_risk_score_needs_a_fitted_scaler event_data st Hsc).
    split; reflexivity.
Qed.

Section ScoringAfterDetection.

Context (W : World).

(** Once a detection has returned on a full batch, scoring no longer
    raises: with a classifier that is not usable (untrained, say) every
    record gets the rule-based assessment. *)
Theorem scoring_after_a_detection_uses_the_rules
    (events : list EventRecord) (st st' : Engine)
    (event_data : EventRecord) :
  (exists r, 20 <= len events /\
             detect_anomalies W events st = (st', Normal r)) \/
  (exists r, 10 <= len events /\
             detect_adverse_event_patterns W events st = (st', Normal r)) ->
  classifier_usable (risk_classifier st) = false ->
  predict_risk_score event_data st'
  = (st', Normal (rule_based_risk event_data)).
Proof.
  intros Hrun Hcl.
  destruct (detections_keep_models W events) as (Ka & Kp & _).
  assert (Hfit : exists fs, scaler st' = Some fs /\ List.length fs = 7%nat).
  { destruct Hrun as [(r & Hsize & H)|(r & Hsize & H)].
    - destruct (proj1 (detections_fit_scaler W events st st') r Hsize H)
        as (fs & m & Hs & Hl & _).
      exists fs. split; assumption.
    - apply (proj2 (detections_fit_scaler W events st st') r Hsize H). }
  assert (Hsame : risk_classifier st' = risk_classifier st).
  { destruct Hrun as [(r & _ & H)|(r & _ & H)].
    - specialize (Ka st). rewrite H in Ka. exact Ka.
    - specialize (Kp st). rewrite H in Kp. exact Kp. }
  destruct Hfit as (fs & Hs & Hl).
  pose proof (scoring_with_a_fitted_scaler event_data st' fs Hs Hl) as H.
  rewrite Hsame, Hcl in H. exact H.
Qed.

End ScoringAfterDetection.

Lemma detection_refits_witness :
  exists st' r features fs,
    detect_anomalies Sample.world Sample.crowd untrained_engine
    = (st', Normal r) /\
    _extract_event_features Sample.world (DataFrame_of Sample.crowd)
    = Normal features /\
    scaler_fit (numerics Sample.world) features = Normal fs /\
    scaler st' = Some fs /\ List.length fs = 7%nat.
Proof.
  destruct (detect_anomalies Sample.world Sample.crowd untrained_engine)
    as [st' [r|e]] eqn:Run.
  - assert (Hsize : 20 <= len Sample.crowd) by (vm_compute; discriminate).
    destruct (proj1 (detection_refits_the_shared_scaler Sample.world
                       Sample.crowd untrained_engine st') r Hsize Run)
      as (features & fs & X & m & Hf & Hfit & Hs & Hl & _).
    exists st', r, features, fs.
    split; [reflexivity|]. repeat split; assumption.
  - exfalso. apply (f_equal snd) in Run. vm_compute in Run.
    discriminate Run.
Defined.

Lemma scoring_after_a_detection_witness :
  exists st' r,
    detect_anomalies Sample.world Sample.crowd untrained_engine
    = (st', Normal r) /\
    predict_risk_score Sample.severe st'
    = (st', Normal (rule_based_risk Sample.severe)).
Proof.
  destruct (detect_anomalies Sample.world Sample.crowd untrained_engine)
    as [st' [r|e]] eqn:Run.
  - exists st', r. split; [reflexivity|].
    apply (scoring_after_a_detection_uses_the_rules Sample.world
             Sample.crowd untrained_engine st' Sample.severe).
    + left. exists r. split; [vm_compute; discriminate|exact Run].
    + reflexivity.
  - exfalso. apply (f_equal snd) in Run. vm_compute in Run.
    discriminate Run.
Defined.

(* ===================================================================== *)
(** * Risk levels and recommendations *)
(* ===================================================================== *)

Section RiskLevels.

Open Scope string_scope.
Open Scope Q_scope.

Lemma geb_le (x t : Q) : Float64.geb x t = true <-> t <= x.
Proof. unfold Float64.geb, Float64.leb. apply Qle_bool_iff. Qed.

Lemma geb_not_le (x t : Q) : Float64.geb x t = false <-> x < t.
Proof.
  rewrite <- not_true_iff_false, geb_le. split.
  - apply Qnot_le_lt.
  - intros H1 H2. apply (Qlt_not_le _ _ H1 H2).
Qed.

(** The level and the recommendations are cut at the same scores: two
    scores have the same level exactly when they get the same
    recommendations; a higher score never gets a lower level; and the
    lowest level gets three recommendations, every other level four. *)
Theorem risk_level_and_recommendations_agree :
  (forall x y,
      _classify_risk_level x = _classify_risk_level y <->
      _generate_risk_recommendations x = _generate_risk_recommendations y) /\
  (forall x y,
      x <= y ->
      (level_rank (_classify_risk_level x)
       <= level_rank (_classify_risk_level y))%nat) /\
  (forall x,
      List.length (_generate_risk_recommendations x)
      = if Nat.eqb (level_rank (_classify_risk_level x)) 0
        then 3%nat else 4%nat).
Proof.
  assert (H35 : Float64.lit 3 1 <= Float64.lit 5 1)
    by (apply Qle_bool_iff; vm_compute; reflexivity).
  assert (H57 : Float64.lit 5 1 <= Float64.lit 7 1)
    by (apply Qle_bool_iff; vm_compute; reflexivity).
  unfold _classify_risk_level, _generate_risk_recommendations.
  revert H35 H57.
  generalize (Float64.lit 3 1) (Float64.lit 5 1) (Float64.lit 7 1).
  intros t3 t5 t7 H35 H57.
  split; [|split].
  - intros x y.
    destruct (Float64.geb x t7), (Float64.geb x t5), (Float64.geb x t3),
      (Float64.geb y t7), (Float64.geb y t5), (Float64.geb y t3);
      split; intro H; try reflexivity; discriminate H.
  - intros x y Hxy.
    destruct (Float64.geb x t7) eqn:X7;
      [apply geb_le in X7|apply geb_not_le in X7];
    (destruct (Float64.geb x t5) eqn:X5;
      [apply geb_le in X5|apply geb_not_le in X5]);
    (destruct (Float64.geb x t3) eqn:X3;
      [apply geb_le in X3|apply geb_not_le in X3]);
    (destruct (Float64.geb y t7) eqn:Y7;
      [apply geb_le in Y7|apply geb_not_le in Y7]);
    (destruct (Float64.geb y t5) eqn:Y5;
      [apply geb_le in Y5|apply geb_not_le in Y5]);
    (destruct (Float64.geb y t3) eqn:Y3;
      [apply geb_le in Y3|apply geb_not_le in Y3]);
    cbn; try lia; exfalso; lra.
  - intro x.
    destruct (Float64.geb x t7), (Float64.geb x t5), (Float64.geb x t3);
      reflexivity.
Qed.

End RiskLevels.

Lemma risk_level_witness :
  (level_rank (_classify_risk_level (Float64.lit 45 2))
   <= level_rank (_classify_risk_level (Float64.lit 7 1)))%nat.
Proof.
  apply (proj1 (proj2 risk_level_and_recommendations_agree)).
  apply Qle_bool_iff. vm_compute. reflexivity.
Defined.

(* ===================================================================== *)
(** * Training: what is fitted, reported and written *)
(* ===================================================================== *)

Section TrainingRuns.

Context (W : World).

Open Scope string_scope.
Open Scope Z_scope.

(** A training that returns, with everything it computed on the way. *)
Lemma train_models_success (data : list EventRecord) (s s' : State)
    (summary : TrainingSummary) :
  train_models W data s = (s', Normal summary) ->
  exists X sev hosp fs Xn m f acc,
    _extract_event_features W (DataFrame_of data) = Normal X /\
    column severity (DataFrame_of data) = Normal sev /\
    column required_hospitalization (DataFrame_of data) = Normal hosp /\
    scaler_fit (numerics W) X = Normal fs /\
    scaler_transform (Some fs) X = Normal Xn /\
    iforest_fit (numerics W) Xn = Normal m /\
    rf_fit (numerics W) Xn (risk_labels sev hosp) = Normal f /\
    accuracy (Some f) Xn (risk_labels sev hosp) = Normal acc /\
    (forall path,
        In path ["models/anomaly_detector.pkl";
                 "models/risk_classifier.pkl"; "models/scaler.pkl"] ->
        write_fault (disk s) path = None) /\
    s' = {| engine := {| anomaly_detector := Some m;
                         risk_classifier := Some f;
                         scaler := Some fs |};
            disk := store_scaler (Some fs)
                      (store_risk_classifier (Some f)
                         (store_anomaly_detector (Some m) (disk s))) |} /\
    summary = {| training_samples := len data;
                 anomaly_detector_trained := true;
                 risk_classifier_trained := true;
                 risk_classifier_accuracy := acc |}.
Proof.
  unfold train_models. intro H.
  repeat first
    [ progress run_all
    | progress unfold fit_transform in *
    | match goal with
      | H : on_engine _ _ = (_, Normal _) |- _ =>
          apply on_engine_normal in H; destruct H as (? & H & ->)
      | H : joblib_dump _ _ _ = (_, Normal _) |- _ =>
          apply joblib_dump_normal in H; destruct H as (? & ->)
      end ].
  cbn [engine disk anomaly_detector risk_classifier scaler
       store_anomaly_detector store_risk_classifier store_scaler
       write_fault rows DataFrame_of] in *.
  do 8 eexists.
  repeat (split; [eassumption|]).
  split; [|split; reflexivity].
  intros path [<-|[<-|[<-|[]]]]; assumption.
Qed.

(** Train, then load: the engine that a constructor builds from the
    disk that a successful training leaves is the trained engine. *)
Theorem a_new_engine_loads_what_train_saved (data : list EventRecord)
    (s s' : State) (summary : TrainingSummary) :
  train_models W data s = (s', Normal summary) ->
  new_engine (disk s') = Normal (engine s').
Proof.
  intro H.
  destruct (train_models_success data s s' summary H)
    as (X & sev & hosp & fs & Xn & m & f & acc
        & _ & _ & _ & _ & _ & _ & _ & _ & _ & -> & _).
  rewrite new_engine_cases. reflexivity.
Qed.

(** What a training that returns reports: the number of records, which
    is not zero, both models as trained, and as accuracy a fraction
    between 0 and 1. *)
Theorem training_summary_counts_and_bounds (data : list EventRecord)
    (s s' : State) (summary : TrainingSummary) :
  train_models W data s = (s', Normal summary) ->
  training_samples summary = len data /\
  0 < training_samples summary /\
  anomaly_detector_trained summary = true /\
  risk_classifier_trained summary = true /\
  (0 <= risk_classifier_accuracy summary)%Q /\
  (risk_classifier_accuracy summary <= 1)%Q.
Proof.
  intro H.
  destruct (train_models_success data s s' summary H)
    as (X & sev & hosp & fs & Xn & m & f & acc
        & HX & Hsev & _ & Hfit & HXn & _ & _ & Hacc & _ & _ & ->).
  cbn [training_samples anomaly_detector_trained risk_classifier_trained
       risk_classifier_accuracy].
  assert (Hpos : 0 < len data).
  { unfold column in Hsev.
    destruct (has_column severity (DataFrame_of data)) eqn:E;
      [|discriminate].
    destruct data; [discriminate E|]. unfold len. cbn [List.length]. lia. }
  repeat split; try assumption.
  - unfold accuracy in Hacc. destruct (has_width _ _); [|discriminate].
    injection Hacc as <-.
    apply (rate_unit (Z.of_nat (List.length
                                  (filter (fun xy => predict_row f (fst xy)
                                                     =? snd xy)
                                     (combine Xn (risk_labels sev hosp)))))
             (Z.of_nat (List.length Xn))).
    + split; [lia|]. apply Nat2Z.inj_le.
      etransitivity; [apply filter_length_le|].
      rewrite length_combine. apply Nat.le_min_l.
    + unfold scaler_transform in HXn. destruct (has_width _ _);
        [|discriminate].
      injection HXn as <-. rewrite length_map.
      unfold _extract_event_features in HX.
      rewrite (rmap_length _ _ _ HX). cbn [rows DataFrame_of].
      unfold len in Hpos. exact Hpos.
  - unfold accuracy in Hacc. destruct (has_width _ _); [|discriminate].
    injection Hacc as <-.
    apply (rate_unit (Z.of_nat (List.length
                                  (filter (fun xy => predict_row f (fst xy)
                                                     =? snd xy)
                                     (combine Xn (risk_labels sev hosp)))))
             (Z.of_nat (List.length Xn))).
    + split; [lia|]. apply Nat2Z.inj_le.
      etransitivity; [apply filter_length_le|].
      rewrite length_combine. apply Nat.le_min_l.
    + unfold scaler_transform in HXn. destruct (has_width _ _);
        [|discriminate].
      injection HXn as <-. rewrite length_map.
      unfold _extract_event_features in HX.
      rewrite (rmap_length _ _ _ HX). cbn [rows DataFrame_of].
      unfold len in Hpos. exact Hpos.
Qed.

Lemma has_column_none {A} (key : EventRecord -> option A)
    (events : list EventRecord) :
  (forall r, In r events -> key r = None) ->
  has_column key (DataFrame_of events) = false.
Proof.
  intro H. unfold has_column. cbn [built_from DataFrame_of].
  induction events as [|r tl IH]; [reflexivity|].
  cbn [existsb]. rewrite (H r (or_introl eq_refl)). cbn [is_some orb].
  apply IH. intros r' Hr'. apply H. right. exact Hr'.
Qed.

(** Training needs labels.  On the empty training set it raises
    [KeyError]; when no record carries a severity, or none carries the
    hospitalisation flag, it raises; and each time the engine and the
    disk are left exactly as they were. *)
Theorem training_without_labels_changes_nothing (s : State) :
  train_models W [] s = (s, Raise KeyError) /\
  (forall data,
      (forall r, In r data -> severity r = None) \/
      (forall r, In r data -> required_hospitalization r = None) ->
      exists e, train_models W data s = (s, Raise e)).
Proof.
  split; [reflexivity|].
  intros data Hnone. unfold train_models, bind, lift.
  destruct (_extract_event_features W (DataFrame_of data)) as [X|e];
    [|exists e; reflexivity].
  unfold column.
  destruct Hnone as [Hsev|Hhosp].
  - rewrite (has_column_none severity data Hsev).
    exists KeyError. reflexivity.
  - rewrite (has_column_none required_hospitalization data Hhosp).
    destruct (has_column severity (DataFrame_of data));
      exists KeyError; reflexivity.
Qed.

(** Persisting is not atomic and training is not rolled back.  Take a
    training that returns when no write fails.  With write faults, the
    same training fits the same models in the engine and then writes
    the detector, the classifier and the scaler in this order until a
    write fails: it raises the exception of that write, the artifacts
    written before it are the new ones and the others are the old
    ones. *)
Theorem a_failed_write_leaves_a_mixed_bundle (data : list EventRecord)
    (e0 : Engine) (d : Disk) (s1 : State) (summary : TrainingSummary)
    (wf : string -> option exn) :
  train_models W data
    {| engine := e0; disk := with_write_fault (fun _ => None) d |}
  = (s1, Normal summary) ->
  let detector := anomaly_detector (engine s1) in
  let classifier := risk_classifier (engine s1) in
  train_models W data {| engine := e0; disk := with_write_fault wf d |}
  = match wf "models/anomaly_detector.pkl",
          wf "models/risk_classifier.pkl",
          wf "models/scaler.pkl" with
    | Some e, _, _ =>
        ({| engine := engine s1; disk := with_write_fault wf d |}, Raise e)
    | None, Some e, _ =>
        ({| engine := engine s1;
            disk := with_write_fault wf (store_anomaly_detector detector d) |},
         Raise e)
    | None, None, Some e =>
        ({| engine := engine s1;
            disk := with_write_fault wf
                      (store_risk_classifier classifier
                         (store_anomaly_detector detector d)) |},
         Raise e)
    | None, None, None =>
        ({| engine := engine s1; disk := with_write_fault wf (disk s1) |},
         Normal summary)
    end.
Proof.
  intros H detector classifier. subst detector classifier.
  destruct (train_models_success data _ s1 summary H)
    as (X & sev & hosp & fs & Xn & m & f & acc
        & HX & Hsev & Hhosp & Hfit & HXn & Hm & Hf & Hacc & _ & -> & ->).
  cbn [engine disk anomaly_detector risk_classifier].
  unfold train_models, bind, lift, on_engine, fit_transform, get_self,
    set_self, set_scaler, set_anomaly_detector, set_risk_classifier,
    joblib_dump, raise, ret.
  cbn [engine disk].
  rewrite HX, Hsev, Hhosp. cbn [engine disk].
  unfold bind, lift. rewrite Hfit. cbn [engine disk scaler anomaly_detector
                                         risk_classifier].
  rewrite HXn, Hm. cbn [engine disk scaler anomaly_detector
                          risk_classifier].
  rewrite Hf.
  cbv beta iota zeta delta
    [bind lift get_self set_self raise ret engine disk write_fault
     with_write_fault anomaly_detector risk_classifier scaler
     store_anomaly_detector store_risk_classifier store_scaler].
  destruct (wf "models/anomaly_detector.pkl"); [reflexivity|].
  destruct (wf "models/risk_classifier.pkl"); [reflexivity|].
  destruct (wf "models/scaler.pkl"); [reflexivity|].
  rewrite Hacc. reflexivity.
Qed.

End TrainingRuns.

Lemma a_new_engine_loads_witness :
  let s0 := {| engine := untrained_engine; disk := Sample.empty_disk |} in
  exists s' summary,
    train_models Sample.world [Sample.mild; Sample.severe] s0
    = (s', Normal summary) /\
    new_engine (disk s') = Normal (engine s').
Proof.
  intro s0.
  destruct (train_models Sample.world [Sample.mild; Sample.severe] s0)
    as [s' [summary|e]] eqn:Run.
  - exists s', summary. split; [reflexivity|].
    apply (a_new_engine_loads_what_train_saved Sample.world _ s0 s'
             summary Run).
  - exfalso. apply (f_equal snd) in Run. vm_compute in Run.
    discriminate Run.
Defined.

Lemma training_summary_witness :
  let s0 := {| engine := untrained_engine; disk := Sample.empty_disk |} in
  exists s' summary,
    train_models Sample.world [Sample.mild; Sample.severe] s0
    = (s', Normal summary) /\
    training_samples summary = 2 /\
    (0 <= risk_classifier_accuracy summary)%Q /\
    (risk_classifier_accuracy summary <= 1)%Q.
Proof.
  intro s0.
  destruct (train_models Sample.world [Sample.mild; Sample.severe] s0)
    as [s' [summary|e]] eqn:Run.
  - exists s', summary. split; [reflexivity|].
    destruct (training_summary_counts_and_bounds Sample.world _ s0 s'
                summary Run) as (Hn & _ & _ & _ & H0 & H1).
    repeat split; assumption.
  - exfalso. apply (f_equal snd) in Run. vm_compute in Run.
    discriminate Run.
Defined.

Lemma training_without_labels_witness :
  exists e,
    train_models Sample.world [Sample.empty_event; Sample.empty_event]
      {| engine := untrained_engine; disk := Sample.empty_disk |}
    = ({| engine := untrained_engine; disk := Sample.empty_disk |}, Raise e).
Proof.
  apply (proj2 (training_without_labels_changes_nothing Sample.world _)).
  left. intros r Hr. cbn in Hr.
  destruct Hr as [<-|[<-|[]]]; reflexivity.
Defined.

Lemma a_failed_write_witness :
  snd (train_models Sample.world [Sample.mild; Sample.severe]
         {| engine := untrained_engine;
            disk := with_write_fault
                      (fun path =>
                         if String.eqb path "models/risk_classifier.pkl"
                         then Some PermissionError else None)
                      Sample.empty_disk |})
  = Raise PermissionError.
Proof.
  destruct (train_models Sample.world [Sample.mild; Sample.severe]
              {| engine := untrained_engine;
                 disk := with_write_fault (fun _ => None)
                           Sample.empty_disk |})
    as [s1 [summary|e]] eqn:Run.
  - rewrite (a_failed_write_leaves_a_mixed_bundle Sample.world _ _ _ s1
               summary _ Run).
    reflexivity.
  - exfalso. apply (f_equal snd) in Run. vm_compute in Run.
    discriminate Run.
Defined.

(* ===================================================================== *)
(** * Safety signals *)
(* ===================================================================== *)

Section SafetySignals.

Context (W : World).

Open Scope string_scope.
Open Scope Z_scope.

Lemma filter_len_le {A} (p : A -> bool) (l : list A) :
  0 <= len (filter p l) <= len l.
Proof.
  unfold len. split; [lia|]. apply Nat2Z.inj_le. apply filter_length_le.
Qed.

(** A run on a history of at least five records that returns: every
    column was there, every date was read, and the report is made of
    the four rates. *)
Lemma detect_safety_signals_run (medicine_id : string)
    (events : list EventRecord) (r : SignalResult) :
  5 <= len events ->
  detect_safety_signals W medicine_id events = Normal r ->
  exists times,
    parsed_dates W (map event_date events) = Normal times /\
    let severe := share (fun e => isin_severe (severity e)) events in
    let hosp :=
      share (fun e => is_true (required_hospitalization e)) events in
    let death := share (fun e => is_death (outcome e)) events in
    let recent := recent_of W events times in
    let recent_severe :=
      rate (len (filter (fun e => isin_severe (severity e)) recent))
           (Z.max (len recent) 1) in
    r = if Float64.gtb severe (Float64.lit 15 2)
           || Float64.gtb hosp (Float64.lit 10 2)
           || Float64.gtb death (Float64.lit 2 2)
           || Float64.gtb recent_severe
                (Float64.mul severe (Float64.lit 15 1))
        then
          SignalDetected medicine_id
            (_classify_signal_type severe hosp death recent_severe)
            {| severe_event_rate := Float64.py_round3 severe;
               hospitalization_rate := Float64.py_round3 hosp;
               death_rate := Float64.py_round3 death;
               recent_severe_rate := Some (Float64.py_round3 recent_severe);
               signal_total_events := len events;
               recent_events := Some (len recent) |}
            (_generate_signal_recommendation
               (_classify_signal_type severe hosp death recent_severe))
            (now W)
        else
          SignalNotDetected medicine_id
            {| severe_event_rate := Float64.py_round3 severe;
               hospitalization_rate := Float64.py_round3 hosp;
               death_rate := Float64.py_round3 death;
               recent_severe_rate := None;
               signal_total_events := len events;
               recent_events := None |}.
Proof.
  intros Hsize H. unfold detect_safety_signals in H.
  destruct (len events <? 5) eqn:E; [apply Z.ltb_lt in E; lia|].
  unfold column in H. cbn [rows DataFrame_of] in H.
  destruct (has_column severity (DataFrame_of events)); [|discriminate H].
  cbn [rbind] in H.
  destruct (has_column required_hospitalization (DataFrame_of events));
    [|discriminate H].
  cbn [rbind] in H.
  destruct (has_column outcome (DataFrame_of events)); [|discriminate H].
  cbn [rbind] in H.
  destruct (has_column event_date (DataFrame_of events)); [|discriminate H].
  cbn [rbind] in H.
  apply rbind_normal in H. destruct H as (times & Htimes & H).
  exists times. split; [exact Htimes|].
  cbv zeta. unfold share, recent_of.
  rewrite !(filter_map_length severity isin_severe) in H.
  rewrite (filter_map_length required_hospitalization is_true) in H.
  rewrite (filter_map_length outcome is_death) in H.
  assert (Hn : forall (b : bool) (x y : SignalResult),
             (if b then Normal x else Normal y) = Normal r ->
             r = if b then x else y)
    by (intros [] x y Hx; injection Hx as <-; reflexivity).
  apply Hn. exact H.
Qed.

(** A history of at least five records in which no record carries one
    of the keys that the rates are made of (severity, hospitalisation
    flag, outcome, event date) is not analysed: the call raises
    [KeyError]. *)
Theorem signals_need_all_four_columns (medicine_id : string)
    (events : list EventRecord) :
  5 <= len events ->
  (forall r, In r events -> severity r = None) \/
  (forall r, In r events -> required_hospitalization r = None) \/
  (forall r, In r events -> outcome r = None) \/
  (forall r, In r events -> event_date r = None) ->
  detect_safety_signals W medicine_id events = Raise KeyError.
Proof.
  intros Hsize Hnone. unfold detect_safety_signals.
  destruct (len events <? 5) eqn:E; [apply Z.ltb_lt in E; lia|].
  unfold column.
  destruct Hnone as [H|[H|[H|H]]].
  - rewrite (has_column_none _ _ H). reflexivity.
  - rewrite (has_column_none _ _ H).
    destruct (has_column severity _); reflexivity.
  - rewrite (has_column_none _ _ H).
    destruct (has_column severity _); [|reflexivity].
    destruct (has_column required_hospitalization _); reflexivity.
  - rewrite (has_column_none _ _ H).
    destruct (has_column severity _); [|reflexivity].
    destruct (has_column required_hospitalization _); [|reflexivity].
    destruct (has_column outcome _); reflexivity.
Qed.

Lemma share_unit (test : EventRecord -> bool) (events : list EventRecord) :
  5 <= len events -> unit_rate (Float64.py_round3 (share test events)).
Proof.
  intro Hsize. unfold unit_rate, share.
  pose proof (filter_len_le test events).
  apply py_round3_unit; apply rate_unit; lia.
Qed.

Lemma recent_of_length (events : list EventRecord)
    (times : list (option Z)) :
  0 <= len (recent_of W events times) <= len events.
Proof.
  unfold recent_of, len. rewrite length_map. split; [lia|].
  apply Nat2Z.inj_le.
  etransitivity; [apply filter_length_le|].
  rewrite length_combine. apply Nat.le_min_l.
Qed.

(** Every report on a history of at least five records is well formed.
    It is one of the two full shapes, for the medicine asked about; its
    total is the size of the history, its rates lie between 0 and 1 and
    its recent events are at most the total; a detected signal has one
    of the four tiers and the recommendation of that tier, never the
    default text. *)
Theorem signal_reports_are_well_formed (medicine_id : string)
    (events : list EventRecord) (r : SignalResult) :
  5 <= len events ->
  detect_safety_signals W medicine_id events = Normal r ->
  match r with
  | SignalInsufficient _ _ => False
  | SignalDetected id tier metrics recommendation _ =>
      id = medicine_id /\
      In tier ["critical"; "high"; "moderate"; "low"] /\
      recommendation = _generate_signal_recommendation tier /\
      recommendation <> "Review and monitor." /\
      metrics_in_range (len events) metrics /\
      recent_severe_rate metrics <> None /\ recent_events metrics <> None
  | SignalNotDetected id metrics =>
      id = medicine_id /\
      metrics_in_range (len events) metrics /\
      recent_severe_rate metrics = None /\ recent_events metrics = None
  end.
Proof.
  intros Hsize H.
  destruct (detect_safety_signals_run medicine_id events r Hsize H)
    as (times & _ & Hr).
  cbv zeta in Hr.
  pose proof (recent_of_length events times) as Hrecent.
  assert (Hrs : unit_rate
                  (Float64.py_round3
                     (rate (len (filter (fun e => isin_severe (severity e))
                                   (recent_of W events times)))
                           (Z.max (len (recent_of W events times)) 1)))).
  { unfold unit_rate.
    pose proof (filter_len_le (fun e => isin_severe (severity e))
                  (recent_of W events times)).
    apply py_round3_unit; apply rate_unit; lia. }
  match type of Hr with
  | _ = (if ?b then _ else _) => destruct b
  end; subst r.
  - split; [reflexivity|].
    split.
    { unfold _classify_signal_type.
      repeat match goal with
             | |- context [if ?b then _ else _] => destruct b
             end; cbn; tauto. }
    split; [reflexivity|].
    split.
    { unfold _classify_signal_type.
      repeat match goal with
             | |- context [if ?b then _ else _] => destruct b
             end; intro Hd; vm_compute in Hd; discriminate Hd. }
    split; [|split; discriminate].
    unfold metrics_in_range.
    cbn [signal_total_events severe_event_rate hospitalization_rate
         death_rate recent_severe_rate recent_events].
    split; [reflexivity|].
    repeat (split; [apply share_unit; exact Hsize|]).
    split.
    + intros q Hq. injection Hq as <-. exact Hrs.
    + intros k Hk. injection Hk as <-. exact Hrecent.
  - split; [reflexivity|].
    split; [|split; reflexivity].
    unfold metrics_in_range.
    cbn [signal_total_events severe_event_rate hospitalization_rate
         death_rate recent_severe_rate recent_events].
    split; [reflexivity|].
    repeat (split; [apply share_unit; exact Hsize|]).
    split; intros ? Hq; discriminate Hq.
Qed.

(** Deaths decide.  When the share of fatal outcomes in a history that
    is analysed is above 0.02, the report is a detected signal of the
    critical tier with the urgent recommendation, whatever the other
    rates are. *)
Theorem a_death_rate_above_threshold_is_critical (medicine_id : string)
    (events : list EventRecord) (r : SignalResult) :
  5 <= len events ->
  detect_safety_signals W medicine_id events = Normal r ->
  (Float64.lit 2 2 < share (fun e => is_death (outcome e)) events)%Q ->
  exists metrics,
    r = SignalDetected medicine_id "critical" metrics
          "URGENT: Consider immediate recall or suspension. Convene safety review committee."
          (now W).
Proof.
  intros Hsize H Hdeath.
  destruct (detect_safety_signals_run medicine_id events r Hsize H)
    as (times & _ & Hr).
  cbv zeta in Hr. apply gtb_lt in Hdeath.
  rewrite Hdeath in Hr. rewrite !orb_true_r in Hr. cbn [orb] in Hr.
  unfold _classify_signal_type in Hr. rewrite Hdeath in Hr.
  subst r. eexists. reflexivity.
Qed.

Lemma filter_none {A} (test : A -> bool) (l : list A) :
  (forall a, In a l -> test a = false) -> filter test l = [].
Proof.
  intro H. induction l as [|a tl IH]; [reflexivity|].
  cbn [filter]. rewrite (H a (or_introl eq_refl)).
  apply IH. intros a' Ha'. apply H. right. exact Ha'.
Qed.

Lemma rate_zero (n : Z) : rate 0 n = 0%Q.
Proof. reflexivity. Qed.

Lemma no_share (test : EventRecord -> bool) (events : list EventRecord) :
  (forall e, In e events -> test e = false) ->
  share test events = 0%Q.
Proof.
  intro H. unfold share. rewrite (filter_none _ _ H). apply rate_zero.
Qed.

Lemma recent_of_In (events : list EventRecord) (times : list (option Z))
    (e : EventRecord) :
  In e (recent_of W events times) -> In e events.
Proof.
  unfold recent_of. intro H.
  apply in_map_iff in H. destruct H as ([e' t] & <- & H).
  apply filter_In in H. destruct H as [H _].
  apply in_combine_l in H. exact H.
Qed.

Lemma zero_rates_exceed_nothing :
  Float64.gtb 0 (Float64.lit 15 2)
  || Float64.gtb 0 (Float64.lit 10 2)
  || Float64.gtb 0 (Float64.lit 2 2)
  || Float64.gtb 0 (Float64.mul 0 (Float64.lit 15 1)) = false.
Proof. vm_compute. reflexivity. Qed.

Lemma py_round3_zero : Float64.py_round3 0 = 0%Q.
Proof. vm_compute. reflexivity. Qed.

(** No signal without a serious event.  A history that is analysed and
    holds no severe or life-threatening event, no hospitalisation and
    no death is reported as no signal, with every rate at 0. *)
Theorem a_benign_history_raises_no_signal (medicine_id : string)
    (events : list EventRecord) (r : SignalResult) :
  5 <= len events ->
  detect_safety_signals W medicine_id events = Normal r ->
  (forall e, In e events ->
             isin_severe (severity e) = false /\
             is_true (required_hospitalization e) = false /\
             is_death (outcome e) = false) ->
  r = SignalNotDetected medicine_id
        {| severe_event_rate := 0;
           hospitalization_rate := 0;
           death_rate := 0;
           recent_severe_rate := None;
           signal_total_events := len events;
           recent_events := None |}.
Proof.
  intros Hsize H Hbenign.
  destruct (detect_safety_signals_run medicine_id events r Hsize H)
    as (times & _ & Hr).
  cbv zeta in Hr.
  rewrite (no_share (fun e => isin_severe (severity e)) events) in Hr
    by (intros e He; apply (Hbenign e He)).
  rewrite (no_share (fun e => is_true (required_hospitalization e)) events)
    in Hr by (intros e He; apply (Hbenign e He)).
  rewrite (no_share (fun e => is_death (outcome e)) events) in Hr
    by (intros e He; apply (Hbenign e He)).
  rewrite (filter_none (fun e => isin_severe (severity e))
             (recent_of W events times)) in Hr
    by (intros e He; apply (Hbenign e (recent_of_In _ _ _ He))).
  change (len []) with 0 in Hr. rewrite rate_zero in Hr.
  rewrite zero_rates_exceed_nothing, py_round3_zero in Hr.
  exact Hr.
Qed.

End SafetySignals.

Lemma signals_need_all_four_columns_witness :
  detect_safety_signals Sample.world "MED-1"
    (repeat Sample.undated 5) = Raise KeyError.
Proof.
  apply (signals_need_all_four_columns Sample.world).
  - vm_compute. discriminate.
  - right. right. right. intros r Hr.
    apply repeat_spec in Hr. subst r. reflexivity.
Defined.

Lemma signal_reports_are_well_formed_witness :
  exists id tier metrics recommendation ts,
    detect_safety_signals Sample.world "MED-1" (repeat Sample.critical 5)
    = Normal (SignalDetected id tier metrics recommendation ts) /\
    id = "MED-1"%string /\ metrics_in_range 5 metrics.
Proof.
  destruct (detect_safety_signals Sample.world "MED-1"
              (repeat Sample.critical 5)) as [r|e] eqn:Run.
  - assert (Hsize : 5 <= len (repeat Sample.critical 5))
      by (vm_compute; discriminate).
    pose proof (signal_reports_are_well_formed Sample.world "MED-1"
                  (repeat Sample.critical 5) r Hsize Run) as H.
    destruct r as [ok msg|id tier metrics recommendation ts|id metrics].
    + destruct H.
    + destruct H as (Hid & _ & _ & _ & Hm & _).
      exists id, tier, metrics, recommendation, ts.
      split; [reflexivity|]. split; [exact Hid|exact Hm].
    + exfalso. vm_compute in Run. discriminate Run.
  - exfalso. vm_compute in Run. discriminate Run.
Defined.

Lemma a_death_rate_above_threshold_witness :
  exists metrics,
    detect_safety_signals Sample.world "MED-1"
      (fatal_event :: repeat Sample.mild 4)
    = Normal (SignalDetected "MED-1" "critical" metrics
                "URGENT: Consider immediate recall or suspension. Convene safety review committee."
                (now Sample.world)).
Proof.
  destruct (detect_safety_signals Sample.world "MED-1"
              (fatal_event :: repeat Sample.mild 4)) as [r|e] eqn:Run.
  - destruct (a_death_rate_above_threshold_is_critical Sample.world "MED-1"
                (fatal_event :: repeat Sample.mild 4) r)
      as (metrics & ->).
    + vm_compute. discriminate.
    + exact Run.
    + vm_compute. reflexivity.
    + exists metrics. reflexivity.
  - exfalso. vm_compute in Run. discriminate Run.
Defined.

Lemma a_benign_history_witness :
  detect_safety_signals Sample.world "MED-1" (repeat Sample.mild 5)
  = Normal (SignalNotDetected "MED-1"
              {| severe_event_rate := 0;
                 hospitalization_rate := 0;
                 death_rate := 0;
                 recent_severe_rate := None;
                 signal_total_events := 5;
                 recent_events := None |}).
Proof.
  destruct (detect_safety_signals Sample.world "MED-1"
              (repeat Sample.mild 5)) as [r|e] eqn:Run.
  - f_equal.
    apply (a_benign_history_raises_no_signal Sample.world "MED-1"
             (repeat Sample.mild 5) r).
    + vm_compute. discriminate.
    + exact Run.
    + intros e He. apply repeat_spec in He. subst e.
      repeat split; reflexivity.
  - exfalso. vm_compute in Run. discriminate Run.
Defined.

(* ===================================================================== *)
(** * Anomaly reports: where they come from and which are kept *)
(* ===================================================================== *)

Section AnomalyReports.

Context (W : World).

Open Scope string_scope.
Open Scope Z_scope.

Lemma nth_error_combine {A B} (l : list A) (l' : list B) (i : nat)
    (x : A) (y : B) :
  nth_error (combine l l') i = Some (x, y) ->
  nth_error l i = Some x /\ nth_error l' i = Some y.
Proof.
  revert l' i. induction l as [|a tl IH]; intros [|b tl'] [|i] H;
    cbn in *; try discriminate.
  - injection H as -> ->. split; reflexivity.
  - apply IH. exact H.
Qed.

Lemma Forall2_nth_error {A B} (R : A -> B -> Prop) (l : list A)
    (l' : list B) (i : nat) (x : A) (y : B) :
  Forall2 R l l' -> nth_error l i = Some x -> nth_error l' i = Some y ->
  R x y.
Proof.
  intro H. revert i. induction H as [|a b tl tl' Hab _ IH]; intros [|i];
    cbn; try discriminate.
  - intros [= ->] [= ->]. exact Hab.
  - apply IH.
Qed.

Lemma StronglySorted_app_le {A} (R : A -> A -> Prop) (l1 l2 : list A) :
  StronglySorted R (l1 ++ l2) ->
  forall a d, In a l1 -> In d l2 -> R a d.
Proof.
  induction l1 as [|x tl IH]; intros H a d Ha Hd; [destruct Ha|].
  cbn in H. apply StronglySorted_inv in H. destruct H as [Htl Hx].
  destruct Ha as [<-|Ha].
  - rewrite Forall_forall in Hx. apply Hx. apply in_or_app. right. exact Hd.
  - apply (IH Htl a d Ha Hd).
Qed.

(** Explaining a record of the batch against the batch never fails. *)
Lemma explain_member_returns (events : list EventRecord)
    (event : EventRecord) :
  In event events ->
  exists why, _explain_anomaly event (DataFrame_of events) = Normal why.
Proof.
  intro Hin. unfold _explain_anomaly. cbv zeta.
  destruct (patient_age event) as [age|] eqn:Eage.
  - destruct (age =? 0).
    + cbn [rbind]. eexists. reflexivity.
    + unfold column.
      rewrite (has_column_of_member patient_age events event age Hin Eage).
      cbn [rbind]. destruct (far_from _ _); cbn [rbind];
        eexists; reflexivity.
  - cbn [rbind]. eexists. reflexivity.
Qed.

(** The loop over the scored samples returns when every position it
    visits is a position of the batch. *)
Lemma flagged_returns (events : list EventRecord) (scored : list (Z * Q)) :
  forall idx : nat,
    (idx + List.length scored <= List.length events)%nat ->
    exists all, flagged events (DataFrame_of events) idx scored = Normal all.
Proof.
  induction scored as [|[p s] tl IH]; intros idx H.
  - exists []. reflexivity.
  - cbn [flagged]. cbn [List.length] in H.
    destruct (IH (S idx)) as (rest & Hrest); [lia|].
    destruct (p =? -1); [|exists rest; exact Hrest].
    unfold index. destruct (nth_error events idx) as [event|] eqn:En.
    + cbn [rbind].
      destruct (explain_member_returns events event (nth_error_In _ _ En))
        as (why & Hwhy).
      rewrite Hwhy. cbn [rbind]. rewrite Hrest. cbn [rbind].
      eexists. reflexivity.
    + apply nth_error_None in En. lia.
Qed.

(** Every report of the loop is that of the record at a position whose
    prediction is -1, with the score of that position. *)
Lemma flagged_traces (events : list EventRecord) (df : DataFrame)
    (scored : list (Z * Q)) :
  forall (idx : nat) (all : list AnomalyReport),
    flagged events df idx scored = Normal all ->
    Forall (fun a =>
              exists i event,
                nth_error events (idx + i) = Some event /\
                nth_error scored i = Some (-1, anomaly_score a) /\
                reports_on df event a) all.
Proof.
  induction scored as [|[p s] tl IH]; intros idx all H.
  - cbn in H. injection H as <-. constructor.
  - cbn [flagged] in H.
    assert (Hshift : forall rest,
               flagged events df (S idx) tl = Normal rest ->
               Forall (fun a =>
                         exists i event,
                           nth_error events (idx + i) = Some event /\
                           nth_error ((p, s) :: tl) i
                           = Some (-1, anomaly_score a) /\
                           reports_on df event a) rest).
    { intros rest Hrest. apply IH in Hrest.
      eapply Forall_impl; [|exact Hrest].
      intros a (i & event & Hev & Hsc & Hrep).
      exists (S i), event. rewrite Nat.add_succ_r.
      split; [exact Hev|]. split; [exact Hsc|exact Hrep]. }
    destruct (p =? -1) eqn:E.
    + apply Z.eqb_eq in E. subst p.
      apply rbind_normal in H. destruct H as (event & Hev & H).
      apply rbind_normal in H. destruct H as (why & Hwhy & H).
      apply rbind_normal in H. destruct H as (rest & Hrest & H).
      injection H as <-. constructor; [|apply Hshift; exact Hrest].
      exists O, event. rewrite Nat.add_0_r.
      unfold index in Hev. destruct (nth_error events idx); [|discriminate].
      injection Hev as ->.
      split; [reflexivity|]. split; [reflexivity|].
      repeat split. exact Hwhy.
    + apply Hshift. exact H.
Qed.

(** What a run that returns leaves in the engine, and how the scores
    and predictions are made from it. *)
Lemma detect_anomalies_pieces (events : list EventRecord)
    (st st' : Engine) (r : AnomalyResult) :
  20 <= len events ->
  detect_anomalies W events st = (st', Normal r) ->
  exists features fs m all,
    _extract_event_features W (DataFrame_of events) = Normal features /\
    scaler st' = Some fs /\ anomaly_detector st' = Some m /\
    flagged events (DataFrame_of events) 0
      (combine
         (map (fun s => if Float64.ltb (Float64.sub s (offset_ m)) 0
                        then (-1) else 1)
              (map (score_of m) (map (scale_row fs) features)))
         (map (score_of m) (map (scale_row fs) features)))
    = Normal all /\
    flagged_in_run W events st' all /\
    r = AnomalySummary (len events) (len all)
          (Float64.py_round3 (rate (len all) (len events)))
          (firstn 10 (sorted anomaly_score all)) (now W).
Proof.
  intros Hsize H.
  destruct (detect_anomalies_run W events st st' r Hsize H)
    as (features & X & predictions & scores & all
        & Hf & HX & Hp & Hs & Hall & Hr).
  assert (Hrun : flagged_in_run W events st' all).
  { exists features, X, predictions, scores. repeat split; assumption. }
  unfold scaler_transform in HX.
  destruct (scaler st') as [fs|]; [|discriminate HX].
  destruct (has_width _ _); [|discriminate HX]. injection HX as <-.
  unfold iforest_predict in Hp.
  destruct (anomaly_detector st') as [m|]; [|discriminate Hp].
  rewrite Hs in Hp. cbn [rbind] in Hp. injection Hp as <-.
  unfold score_samples in Hs.
  destruct (has_width _ _); [|discriminate Hs]. injection Hs as <-.
  exists features, fs, m, all. repeat split; assumption.
Qed.

(** Every reported anomaly is a record of the batch.  The report copies
    the record's identifier, medicine and severity and explains that
    record; its score is the score that the refitted detector gives to
    the record's features, scaled by the refitted scaler, and it lies
    below the detector's offset. *)
Theorem reported_anomalies_trace_to_records (events : list EventRecord)
    (st st' : Engine) (total detected : Z) (anomaly_rate : Q)
    (anomalies : list AnomalyReport) (timestamp : Z) :
  20 <= len events ->
  detect_anomalies W events st
  = (st', Normal (AnomalySummary total detected anomaly_rate anomalies
                    timestamp)) ->
  exists fs m,
    scaler st' = Some fs /\ anomaly_detector st' = Some m /\
    forall a, In a anomalies ->
      exists event v,
        In event events /\
        reports_on (DataFrame_of events) event a /\
        feature_vector W (DataFrame_of events) event = Normal v /\
        anomaly_score a = score_of m (scale_row fs v) /\
        Float64.ltb (Float64.sub (anomaly_score a) (offset_ m)) 0 = true.
Proof.
  intros Hsize H.
  destruct (detect_anomalies_pieces events st st' _ Hsize H)
    as (features & fs & m & all & Hf & Hfs & Hm & Hall & _ & Hr).
  remember (firstn 10 (sorted anomaly_score all)) as top eqn:Htop.
  injection Hr as -> -> -> -> ->. subst top.
  exists fs, m. split; [exact Hfs|]. split; [exact Hm|].
  intros a Ha.
  apply In_firstn in Ha.
  apply (Permutation_in _ (Permutation_sym (sorted_Permutation _ all)))
    in Ha.
  pose proof (flagged_traces _ _ _ _ _ Hall) as Htr.
  rewrite Forall_forall in Htr.
  destruct (Htr a Ha) as (i & event & Hev & Hsc & Hrep).
  cbn [Nat.add] in Hev.
  apply nth_error_combine in Hsc. destruct Hsc as [Hpred Hscore].
  rewrite nth_error_map, Hscore in Hpred. cbn [option_map] in Hpred.
  rewrite !nth_error_map in Hscore.
  destruct (nth_error features i) as [v|] eqn:Ev; [|discriminate Hscore].
  cbn [option_map] in Hscore. injection Hscore as Hscore.
  exists event, v.
  split; [exact (nth_error_In _ _ Hev)|].
  split; [exact Hrep|].
  split.
  { unfold _extract_event_features in Hf. cbn [rows DataFrame_of] in Hf.
    apply rmap_Forall2 in Hf.
    exact (Forall2_nth_error _ _ _ _ _ _ Hf Hev Ev). }
  split; [symmetry; exact Hscore|].
  destruct (Float64.ltb (Float64.sub (anomaly_score a) (offset_ m)) 0);
    [reflexivity|discriminate Hpred].
Qed.

(** The ten that are kept are the ten most anomalous.  The reports that
    are returned and those that are dropped are together the reports of
    all flagged records, and no dropped report has a lower score than a
    returned one. *)
Theorem the_reports_kept_score_lowest (events : list EventRecord)
    (st st' : Engine) (total detected : Z) (anomaly_rate : Q)
    (anomalies : list AnomalyReport) (timestamp : Z) :
  20 <= len events ->
  detect_anomalies W events st
  = (st', Normal (AnomalySummary total detected anomaly_rate anomalies
                    timestamp)) ->
  exists all dropped,
    flagged_in_run W events st' all /\
    Permutation all (anomalies ++ dropped) /\
    len dropped = Z.max 0 (detected - 10) /\
    forall a d, In a anomalies -> In d dropped ->
                (anomaly_score a <= anomaly_score d)%Q.
Proof.
  intros Hsize H.
  destruct (detect_anomalies_pieces events st st' _ Hsize H)
    as (features & fs & m & all & _ & _ & _ & _ & Hrun & Hr).
  remember (firstn 10 (sorted anomaly_score all)) as top eqn:Htop.
  injection Hr as -> -> -> -> ->. subst top.
  exists all, (skipn 10 (sorted anomaly_score all)).
  split; [exact Hrun|].
  rewrite firstn_skipn.
  split; [apply sorted_Permutation|].
  split.
  { unfold len. rewrite length_skipn.
    rewrite <- (Permutation_length (sorted_Permutation anomaly_score all)).
    lia. }
  apply (StronglySorted_app_le (by_key anomaly_score)).
  rewrite firstn_skipn.
  apply Sorted_StronglySorted; [apply by_key_trans|apply sorted_Sorted].
Qed.

(** A batch of at least twenty records that can all be encoded fails
    only in the fit of the isolation forest.  Its features are encoded
    and the shared scaler is fitted on them and scales them; if the
    forest's fit accepts the scaled features the call returns a result,
    and if it raises, the call raises that exception, with the refitted
    scaler left in the engine.  Nothing else in the method can fail on
    such a batch. *)
Theorem complete_batches_fail_only_in_the_forest
    (events : list EventRecord) (st : Engine) :
  20 <= len events ->
  (forall r, In r events -> encodable W r = true) ->
  exists features fs X,
    _extract_event_features W (DataFrame_of events) = Normal features /\
    scaler_fit (numerics W) features = Normal fs /\
    scaler_transform (Some fs) features = Normal X /\
    match iforest_train (numerics W) X with
    | Normal _ =>
        exists st' r, detect_anomalies W events st = (st', Normal r)
    | Raise e =>
        exists st', detect_anomalies W events st = (st', Raise e) /\
                    scaler st' = Some fs
    end.
Proof.
  intros Hsize Henc.
  destruct (rmap_total (fun v => List.length v = 7%nat)
              (feature_vector W (DataFrame_of events)) events)
    as (features & Hf & Hw & Hlen).
  { intros r Hr.
    destruct (encodable_record_encodes W events r Hr (Henc r Hr))
      as (v & Hv & Hl & _).
    exists v. split; assumption. }
  assert (Hne : features <> []).
  { intro E. subst features. unfold len in Hsize. cbn in Hlen. lia. }
  assert (Hwidth : width features = 7%nat)
    by (apply width_of_Forall; assumption).
  set (fs := map (fun j => column_scaler (numerics W)
                             (nth_column j features))
                 (seq 0 (width features))).
  assert (Hfit : scaler_fit (numerics W) features = Normal fs).
  { unfold scaler_fit. destruct features; [contradiction|reflexivity]. }
  assert (Hfs : List.length fs = 7%nat).
  { unfold fs. rewrite length_map, length_seq. exact Hwidth. }
  set (X := map (scale_row fs) features).
  assert (HX : scaler_transform (Some fs) features = Normal X).
  { unfold scaler_transform. rewrite Hfs.
    rewrite (has_width_Forall 7 features Hw). reflexivity. }
  assert (HwX : Forall (fun r => List.length r = 7%nat) X).
  { unfold X. apply Forall_map. eapply Forall_impl; [|exact Hw].
    intros r Hr. cbn beta. rewrite scale_row_length, Hfs, Hr.
    reflexivity. }
  assert (HXne : X <> []).
  { unfold X. destruct features; [contradiction|discriminate]. }
  assert (HXwidth : width X = 7%nat)
    by (apply width_of_Forall; assumption).
  exists features, fs, X.
  split; [exact Hf|]. split; [exact Hfit|]. split; [exact HX|].
  unfold detect_anomalies.
  destruct (len events <? 20) eqn:E; [apply Z.ltb_lt in E; lia|].
  cbv zeta. unfold _extract_event_features in *.
  cbn [rows DataFrame_of] in *.
  unfold fit_transform, fit_predict.
  cbv beta iota delta [bind lift ret get_self set_scaler
                       set_anomaly_detector].
  rewrite Hf. cbv beta iota. rewrite Hfit. cbv beta iota.
  rewrite HX. cbv beta iota.
  unfold iforest_fit.
  destruct X as [|x0 Xt] eqn:EX; [contradiction|]. rewrite <- EX in *.
  destruct (iforest_train (numerics W) X) as [p|e] eqn:Etrain.
  - cbn [rbind]. cbv beta iota.
    cbn [anomaly_detector scaler risk_classifier].
    unfold iforest_predict, score_samples.
    cbn [if_n_features score_of offset_].
    rewrite HXwidth, (has_width_Forall 7 X HwX).
    cbn [rbind]. cbv beta iota.
    match goal with
    | |- context [flagged events ?df 0 ?scored] =>
        destruct (flagged_returns events scored 0) as (all & Hall)
    end.
    { rewrite length_combine, !length_map, Nat.min_id.
      unfold X. rewrite length_map, Hlen. lia. }
    rewrite Hall. cbv beta iota. eexists. eexists. reflexivity.
  - cbn [rbind]. cbv beta iota. eexists. split; reflexivity.
Qed.

End AnomalyReports.

Lemma reported_anomalies_witness :
  exists st' total detected anomaly_rate anomalies timestamp fs m,
    detect_anomalies Sample.world Sample.crowd Sample.fresh_engine
    = (st', Normal (AnomalySummary total detected anomaly_rate anomalies
                      timestamp)) /\
    scaler st' = Some fs /\ anomaly_detector st' = Some m /\
    forall a, In a anomalies ->
      exists event,
        In event Sample.crowd /\
        reports_on (DataFrame_of Sample.crowd) event a /\
        Float64.ltb (Float64.sub (anomaly_score a) (offset_ m)) 0 = true.
Proof.
  destruct (detect_anomalies Sample.world Sample.crowd Sample.fresh_engine)
    as [st' [[l msg|total detected anomaly_rate anomalies timestamp]|e]]
    eqn:Run;
    try (exfalso; apply (f_equal snd) in Run; vm_compute in Run;
         discriminate Run).
  assert (Hsize : 20 <= len Sample.crowd) by (vm_compute; discriminate).
  destruct (reported_anomalies_trace_to_records Sample.world Sample.crowd
              Sample.fresh_engine st' total detected anomaly_rate anomalies
              timestamp Hsize Run)
    as (fs & m & Hfs & Hm & Hall).
  exists st', total, detected, anomaly_rate, anomalies, timestamp, fs, m.
  split; [reflexivity|]. split; [exact Hfs|]. split; [exact Hm|].
  intros a Ha. destruct (Hall a Ha) as (event & v & Hin & Hrep & _ & _ & Hlt).
  exists event. split; [exact Hin|]. split; [exact Hrep|exact Hlt].
Defined.

Lemma the_reports_kept_witness :
  exists st' total detected anomaly_rate anomalies timestamp all dropped,
    detect_anomalies Sample.world Sample.crowd Sample.fresh_engine
    = (st', Normal (AnomalySummary total detected anomaly_rate anomalies
                      timestamp)) /\
    Permutation all (anomalies ++ dropped) /\
    len dropped = Z.max 0 (detected - 10) /\
    forall a d, In a anomalies -> In d dropped ->
                (anomaly_score a <= anomaly_score d)%Q.
Proof.
  destruct (detect_anomalies Sample.world Sample.crowd Sample.fresh_engine)
    as [st' [[l msg|total detected anomaly_rate anomalies timestamp]|e]]
    eqn:Run;
    try (exfalso; apply (f_equal snd) in Run; vm_compute in Run;
         discriminate Run).
  assert (Hsize : 20 <= len Sample.crowd) by (vm_compute; discriminate).
  destruct (the_reports_kept_score_lowest Sample.world Sample.crowd
              Sample.fresh_engine st' total detected anomaly_rate anomalies
              timestamp Hsize Run)
    as (all & dropped & _ & Hperm & Hlen & Hle).
  exists st', total, detected, anomaly_rate, anomalies, timestamp,
    all, dropped.
  split; [reflexivity|]. split; [exact Hperm|].
  split; [exact Hlen|exact Hle].
Defined.

Lemma complete_batches_witness :
  exists st' r,
    detect_anomalies Sample.world Sample.crowd Sample.fresh_engine
    = (st', Normal r).
Proof.
  destruct (complete_batches_fail_only_in_the_forest Sample.world
              Sample.crowd Sample.fresh_engine)
    as (features & fs & X & _ & _ & _ & H).
  - vm_compute. discriminate.
  - intros r Hr. cbn in Hr.
    repeat (destruct Hr as [<-|Hr]; [reflexivity|]). contradiction.
  - cbn [Sample.world numerics Sample.estimators iforest_train] in H.
    exact H.
Defined.

(* ===================================================================== *)
(** * Patterns: clusters and noise *)
(* ===================================================================== *)

Section DistinctLabels.

Open Scope Z_scope.

Lemma insert_unique_In (c x : Z) (l : list Z) :
  In x (insert_unique c l) <-> x = c \/ In x l.
Proof.
  induction l as [|d tl IH]; cbn [insert_unique].
  - cbn. intuition.
  - destruct (c <? d); [cbn; intuition|].
    destruct (c =? d) eqn:E.
    + apply Z.eqb_eq in E. subst d. cbn. intuition.
    + cbn [In]. rewrite IH. intuition.
Qed.

Lemma np_unique_In (x : Z) (y : list Z) : In x (np_unique y) <-> In x y.
Proof.
  unfold np_unique. induction y as [|c tl IH]; cbn [fold_right].
  - reflexivity.
  - rewrite insert_unique_In, IH. cbn. intuition.
Qed.

Lemma insert_unique_sorted (c : Z) (l : list Z) :
  StronglySorted Z.lt l -> StronglySorted Z.lt (insert_unique c l).
Proof.
  induction l as [|d tl IH]; intro H; cbn [insert_unique].
  - repeat constructor.
  - apply StronglySorted_inv in H. destruct H as [Htl Hd].
    destruct (c <? d) eqn:Elt.
    + apply Z.ltb_lt in Elt. constructor.
      * constructor; assumption.
      * constructor; [exact Elt|].
        eapply Forall_impl; [|exact Hd]. intros a Ha. cbn beta in *. lia.
    + destruct (c =? d) eqn:Eeq; [constructor; assumption|].
      apply Z.ltb_ge in Elt. apply Z.eqb_neq in Eeq.
      constructor; [apply IH; exact Htl|].
      apply Forall_forall. intros a Ha. apply insert_unique_In in Ha.
      destruct Ha as [->|Ha]; [lia|].
      rewrite Forall_forall in Hd. apply Hd. exact Ha.
Qed.

Lemma np_unique_sorted (y : list Z) : StronglySorted Z.lt (np_unique y).
Proof.
  unfold np_unique. induction y as [|c tl IH]; cbn [fold_right].
  - constructor.
  - apply insert_unique_sorted. exact IH.
Qed.

Lemma np_unique_NoDup (y : list Z) : NoDup (np_unique y).
Proof.
  induction (np_unique_sorted y) as [|a l _ IH Ha]; constructor;
    [|exact IH].
  intro Hin. rewrite Forall_forall in Ha. specialize (Ha a Hin). lia.
Qed.

(** A label occurs once among distinct labels that hold it. *)
Lemma one_among_distinct (x : Z) (ls : list Z) :
  NoDup ls -> In x ls ->
  total (map (fun c => if c =? x then 1 else 0) ls) = 1.
Proof.
  unfold total. induction 1 as [|c tl Hc _ IH]; intro Hin; [destruct Hin|].
  cbn [map fold_right]. destruct (c =? x) eqn:E.
  - apply Z.eqb_eq in E. subst c.
    assert (H0 : fold_right Z.add 0
                   (map (fun c => if c =? x then 1 else 0) tl) = 0).
    { clear IH Hin. induction tl as [|d tl IH]; [reflexivity|].
      cbn [map fold_right]. destruct (d =? x) eqn:Ed.
      - apply Z.eqb_eq in Ed. subst d. exfalso. apply Hc. left. reflexivity.
      - rewrite IH; [reflexivity|]. intro H. apply Hc. right. exact H. }
    rewrite H0. reflexivity.
  - apply Z.eqb_neq in E. destruct Hin as [->|Hin]; [contradiction|].
    rewrite (IH Hin). reflexivity.
Qed.

(** The occurrences of distinct labels add up to the size of a list
    that holds no other label. *)
Lemma counts_add_up (ls l : list Z) :
  NoDup ls -> (forall x, In x l -> In x ls) ->
  total (map (fun c => count_of c l) ls) = len l.
Proof.
  intros Hnd. induction l as [|x tl IH]; intro Hall.
  - clear Hnd Hall. unfold total, count_of, len. cbn.
    induction ls as [|c ls' IHl]; [reflexivity|].
    cbn [map fold_right]. rewrite IHl. reflexivity.
  - assert (Hsplit : forall ls',
               total (map (fun c => count_of c (x :: tl)) ls')
               = total (map (fun c => if c =? x then 1 else 0) ls')
                 + total (map (fun c => count_of c tl) ls')).
    { induction ls' as [|c ls' IHl]; [reflexivity|].
      unfold total in *. cbn [map fold_right]. rewrite IHl.
      unfold count_of, len. cbn [filter].
      destruct (c =? x); cbn [List.length]; lia. }
    rewrite Hsplit, (one_among_distinct x ls Hnd (Hall x (or_introl eq_refl))).
    rewrite IH by (intros y Hy; apply Hall; right; exact Hy).
    unfold len. cbn [List.length]. lia.
Qed.

Lemma count_of_filtered (z c : Z) (l : list Z) :
  c <> z ->
  count_of c (filter (fun x => negb (x =? z)) l) = count_of c l.
Proof.
  intro Hc. unfold count_of, len. f_equal.
  induction l as [|x tl IH]; [reflexivity|].
  cbn [filter]. destruct (x =? z) eqn:E; cbn [negb filter].
  - apply Z.eqb_eq in E. subst x.
    destruct (c =? z) eqn:E'; [apply Z.eqb_eq in E'; contradiction|].
    exact IH.
  - destruct (c =? x); cbn [List.length]; rewrite IH; reflexivity.
Qed.

Lemma filtered_and_rest (z : Z) (l : list Z) :
  len (filter (fun x => negb (x =? z)) l) + count_of z l = len l.
Proof.
  unfold count_of, len. induction l as [|x tl IH]; [reflexivity|].
  cbn [filter]. rewrite (Z.eqb_sym z x).
  destruct (x =? z); cbn [negb List.length]; lia.
Qed.

(** Clusters and noise: the occurrences of the labels other than [z]
    and those of [z] add up to the size of the list. *)
Lemma clusters_and_rest (z : Z) (l : list Z) :
  total (map (fun c => count_of c l)
             (filter (fun c => negb (c =? z)) (np_unique l)))
  + count_of z l = len l.
Proof.
  rewrite <- (filtered_and_rest z l). f_equal.
  rewrite <- (counts_add_up
                (filter (fun c => negb (c =? z)) (np_unique l))
                (filter (fun x => negb (x =? z)) l)).
  - f_equal. apply map_ext_in. intros c Hc.
    apply filter_In in Hc. destruct Hc as [_ Hc].
    symmetry. apply count_of_filtered.
    apply negb_true_iff, Z.eqb_neq in Hc. exact Hc.
  - apply NoDup_filter. apply np_unique_NoDup.
  - intros x Hx. apply filter_In in Hx. destruct Hx as [Hx Hz].
    apply filter_In. split; [apply np_unique_In; exact Hx|exact Hz].
Qed.

(** The distinct labels other than [z] are one fewer than the distinct
    labels when [z] is a label. *)
Lemma distinct_without (z : Z) (l : list Z) :
  len (filter (fun c => negb (c =? z)) (np_unique l))
  = len (np_unique l) - (if existsb (Z.eqb z) l then 1 else 0).
Proof.
  assert (Hex : existsb (Z.eqb z) l = existsb (Z.eqb z) (np_unique l)).
  { apply eq_true_iff_eq. rewrite !existsb_exists.
    split; intros (x & Hx & E); exists x; (split; [|exact E]);
      apply np_unique_In; exact Hx. }
  rewrite Hex. generalize (np_unique_NoDup l).
  generalize (np_unique l). intros ls Hnd. unfold len.
  induction Hnd as [|c tl Hc _ IH]; [reflexivity|].
  cbn [filter existsb]. rewrite (Z.eqb_sym z c).
  destruct (c =? z) eqn:E; cbn [negb orb List.length].
  - apply Z.eqb_eq in E. subst c.
    assert (Hno : existsb (Z.eqb z) tl = false).
    { apply not_true_is_false. intro H. apply existsb_exists in H.
      destruct H as (x & Hx & Hzx). apply Z.eqb_eq in Hzx. subst x.
      contradiction. }
    rewrite Hno in IH. lia.
  - destruct (existsb (Z.eqb z) tl); lia.
Qed.

(** The rows that carry a label are as many as its occurrences, when
    there is one label per row. *)
Lemma rows_labelled_size (df : DataFrame) (clusters : list Z) (c : Z) :
  List.length (rows df) = List.length clusters ->
  len (rows (rows_labelled df clusters c)) = count_of c clusters.
Proof.
  unfold rows_labelled, count_of, len. cbn [rows]. intro H. f_equal.
  rewrite length_map.
  generalize dependent clusters.
  induction (rows df) as [|r tl IH]; intros [|x xs] H;
    try discriminate H; [reflexivity|].
  cbn [combine filter snd]. rewrite (Z.eqb_sym c x).
  destruct (x =? c); cbn [List.length]; rewrite IH; try reflexivity;
    cbn in H; lia.
Qed.

End DistinctLabels.

Section Patterns.

Context (W : World).

Open Scope string_scope.
Open Scope Z_scope.

(** A pattern detection that returns, step by step. *)
Lemma detect_adverse_event_patterns_run (events : list EventRecord)
    (st st' : Engine) (r : PatternResult (Aggregates W)) :
  10 <= len events ->
  detect_adverse_event_patterns W events st = (st', Normal r) ->
  exists features X clusters patterns,
    _extract_event_features W (DataFrame_of events) = Normal features /\
    scaler_transform (scaler st') features = Normal X /\
    dbscan (numerics W) X = Normal clusters /\
    rmap (fun c => _analyze_cluster W
                     (rows_labelled (DataFrame_of events) clusters c) c)
         (filter (fun c => negb (c =? -1)) (np_unique clusters))
    = Normal patterns /\
    r = PatternReport patterns
          (len (np_unique clusters)
           - (if existsb (Z.eqb (-1)) clusters then 1 else 0))
          (count_of (-1) clusters) (now W).
Proof.
  intros Hsize H. unfold detect_adverse_event_patterns in H.
  destruct (len events <? 10) eqn:E; [apply Z.ltb_lt in E; lia|].
  unfold fit_transform in H. run_all.
  cbn [scaler].
  do 4 eexists. repeat split; eassumption.
Qed.

(** What the patterns of a run are: one per distinct label other than
    -1, in the order of the labels, with the label as identifier and
    the number of rows that carry it as size. *)
Lemma patterns_of_labels (df : DataFrame) (clusters labels : list Z)
    (patterns : list (ClusterPattern (Aggregates W))) :
  rmap (fun c => _analyze_cluster W (rows_labelled df clusters c) c)
       labels = Normal patterns ->
  map cluster_id patterns = labels /\
  map size patterns
  = map (fun c => len (rows (rows_labelled df clusters c))) labels.
Proof.
  intro H. apply rmap_Forall2 in H.
  induction H as [|c p tl ps Hp _ IH]; [split; reflexivity|].
  unfold _analyze_cluster in Hp.
  apply rbind_normal in Hp. destruct Hp as (a & _ & Hp).
  injection Hp as <-. destruct IH as [IH1 IH2].
  cbn [map cluster_id size]. rewrite IH1, IH2. split; reflexivity.
Qed.

(** One pattern per cluster.  In a report of patterns the number of
    clusters is the number of patterns; the patterns have distinct
    identifiers, none of which is the noise label -1, and each is a
    label that the clustering gave to some sample; the noise points are
    the samples labelled -1. *)
Theorem one_pattern_per_cluster (events : list EventRecord)
    (st st' : Engine) (patterns : list (ClusterPattern (Aggregates W)))
    (total_clusters noise_points timestamp : Z) :
  10 <= len events ->
  detect_adverse_event_patterns W events st
  = (st', Normal (PatternReport patterns total_clusters noise_points
                    timestamp)) ->
  exists features X clusters,
    _extract_event_features W (DataFrame_of events) = Normal features /\
    scaler_transform (scaler st') features = Normal X /\
    dbscan (numerics W) X = Normal clusters /\
    total_clusters = len patterns /\
    noise_points = count_of (-1) clusters /\
    NoDup (map cluster_id patterns) /\
    forall p, In p patterns ->
              cluster_id p <> -1 /\ In (cluster_id p) clusters.
Proof.
  intros Hsize H.
  destruct (detect_adverse_event_patterns_run events st st' _ Hsize H)
    as (features & X & clusters & ps & Hf & HX & Hc & Hps & Hr).
  injection Hr as <- -> -> ->.
  exists features, X, clusters.
  destruct (patterns_of_labels _ _ _ _ Hps) as [Hids _].
  split; [exact Hf|]. split; [exact HX|]. split; [exact Hc|].
  split.
  { rewrite <- distinct_without. unfold len. f_equal.
    rewrite <- Hids. rewrite length_map. reflexivity. }
  split; [reflexivity|].
  split.
  { rewrite Hids. apply NoDup_filter. apply np_unique_NoDup. }
  intros p Hp. apply (in_map cluster_id) in Hp. rewrite Hids in Hp.
  apply filter_In in Hp. destruct Hp as [Hin Hne].
  split.
  - apply negb_true_iff, Z.eqb_neq in Hne. exact Hne.
  - apply np_unique_In. exact Hin.
Qed.

(** Clusters and noise partition the batch.  When the clustering gives
    one label per sample, as scikit-learn's does, every pattern of a
    report has at least one event, and the sizes of the patterns and
    the noise points add up to the number of events. *)
Theorem clusters_and_noise_partition_the_batch (events : list EventRecord)
    (st st' : Engine) (patterns : list (ClusterPattern (Aggregates W)))
    (total_clusters noise_points timestamp : Z) :
  10 <= len events ->
  (forall X labels,
      dbscan (numerics W) X = Normal labels ->
      List.length labels = List.length X) ->
  detect_adverse_event_patterns W events st
  = (st', Normal (PatternReport patterns total_clusters noise_points
                    timestamp)) ->
  (forall p, In p patterns -> 0 < size p) /\
  0 <= noise_points /\
  total (map size patterns) + noise_points = len events.
Proof.
  intros Hsize Hlabels H.
  destruct (detect_adverse_event_patterns_run events st st' _ Hsize H)
    as (features & X & clusters & ps & Hf & HX & Hc & Hps & Hr).
  injection Hr as <- -> -> ->.
  assert (Hlen : List.length (rows (DataFrame_of events))
                 = List.length clusters).
  { rewrite (Hlabels _ _ Hc). cbn [rows DataFrame_of].
    unfold scaler_transform in HX. destruct (scaler st'); [|discriminate].
    destruct (has_width _ _); [|discriminate]. injection HX as <-.
    rewrite length_map. symmetry. apply (rmap_length _ _ _ Hf). }
  destruct (patterns_of_labels _ _ _ _ Hps) as [Hids Hsizes].
  assert (Hsz : map size patterns
                = map (fun c => count_of c clusters)
                    (filter (fun c => negb (c =? -1))
                            (np_unique clusters))).
  { rewrite Hsizes. apply map_ext. intro c.
    apply rows_labelled_size. exact Hlen. }
  split.
  { intros p Hp. apply (in_map size) in Hp. rewrite Hsz in Hp.
    apply in_map_iff in Hp. destruct Hp as (c & <- & Hin).
    apply filter_In in Hin. destruct Hin as [Hin _].
    apply (proj1 (np_unique_In _ _)) in Hin. unfold count_of, len.
    assert (Hc' : In c (filter (Z.eqb c) clusters)).
    { apply filter_In. split; [exact Hin|apply Z.eqb_refl]. }
    destruct (filter (Z.eqb c) clusters); [destruct Hc'|].
    cbn [List.length]. lia. }
  split; [unfold count_of, len; lia|].
  rewrite Hsz, clusters_and_rest. unfold len.
  cbn [rows DataFrame_of] in Hlen. rewrite Hlen. reflexivity.
Qed.

End Patterns.

Lemma one_pattern_per_cluster_witness :
  exists st' patterns total_clusters noise_points timestamp,
    detect_adverse_event_patterns Sample.world Sample.crowd
      Sample.fresh_engine
    = (st', Normal (PatternReport patterns total_clusters noise_points
                      timestamp)) /\
    total_clusters = len patterns /\
    NoDup (map cluster_id patterns) /\
    forall p, In p patterns -> cluster_id p <> -1.
Proof.
  destruct (detect_adverse_event_patterns Sample.world Sample.crowd
              Sample.fresh_engine)
    as [st' [[l msg|patterns total_clusters noise_points timestamp]|e]]
    eqn:Run;
    try (exfalso; apply (f_equal snd) in Run; vm_compute in Run;
         discriminate Run).
  assert (Hsize : 10 <= len Sample.crowd) by (vm_compute; discriminate).
  destruct (one_pattern_per_cluster Sample.world Sample.crowd
              Sample.fresh_engine st' patterns total_clusters noise_points
              timestamp Hsize Run)
    as (features & X & clusters & _ & _ & _ & Ht & _ & Hnd & Hids).
  exists st', patterns, total_clusters, noise_points, timestamp.
  split; [reflexivity|]. split; [exact Ht|]. split; [exact Hnd|].
  intros p Hp. apply (Hids p Hp).
Defined.

Lemma clusters_and_noise_witness :
  exists st' patterns total_clusters noise_points timestamp,
    detect_adverse_event_patterns Sample.world Sample.crowd
      Sample.fresh_engine
    = (st', Normal (PatternReport patterns total_clusters noise_points
                      timestamp)) /\
    total (map size patterns) + noise_points = 20.
Proof.
  destruct (detect_adverse_event_patterns Sample.world Sample.crowd
              Sample.fresh_engine)
    as [st' [[l msg|patterns total_clusters noise_points timestamp]|e]]
    eqn:Run;
    try (exfalso; apply (f_equal snd) in Run; vm_compute in Run;
         discriminate Run).
  assert (Hsize : 10 <= len Sample.crowd) by (vm_compute; discriminate).
  assert (Hlabels : forall X labels,
             dbscan (numerics Sample.world) X = Normal labels ->
             List.length labels = List.length X).
  { intros X labels HX. cbn in HX. injection HX as <-.
    apply length_map. }
  destruct (clusters_and_noise_partition_the_batch Sample.world Sample.crowd
              Sample.fresh_engine st' patterns total_clusters noise_points
              timestamp Hsize Hlabels Run)
    as (_ & _ & Hsum).
  exists st', patterns, total_clusters, noise_points, timestamp.
  split; [reflexivity|]. exact Hsum.
Defined.
